(** * Meeting organizer: response normalisation, row decoding and statistics

    A shallow embedding of the data-handling code of the meeting organizer:

    - the [GET /api/admin/meetings] handler of the webhook based server
      (shape sniffing of the workflow engine's reply),
    - [GoogleSheetsService.fetchMeetingRequests] and [generateStatistics]
      (spreadsheet rows to meeting objects, counters),
    - [updateDashboardStats] and [confirmAction] of the admin dashboard,
    - the [POST /api/admin/meeting/action] and [POST /api/meeting/request]
      handlers.

    JavaScript values are modelled by a JSON tree, [undefined] by [None].
    Strings are sequences of code units below 256; numbers are integers (the
    code only tests numbers for being zero and prints them). *)

From Stdlib Require Import ZArith Ascii String.
From stdpp Require Import base strings list gmap pretty.

Open Scope string_scope.

(** ** JavaScript values *)

Module Js.

(** A parsed JSON value. [JObj] holds the own properties of the object in
    the order [Object.entries] lists them; a parsed object has no key
    twice. *)
#[local] Unset Elimination Schemes.
Inductive json : Type :=
| JNull
| JBool (b : bool)
| JNum (n : Z)
| JStr (s : string)
| JArr (items : list json)
| JObj (props : list (string * json)).
#[local] Set Elimination Schemes.

(** The result of a property access: [None] is [undefined]. *)
Definition value : Type := option json.

(** [ToBoolean]. *)
Definition truthy (v : json) : bool :=
  match v with
  | JNull => false
  | JBool b => b
  | JNum n => negb (n =? 0)%Z
  | JStr s => negb (String.eqb s "")
  | JArr _ | JObj _ => true
  end.

Definition truthy_value (o : value) : bool :=
  match o with Some v => truthy v | None => false end.

(** [Array.isArray]. *)
Definition isArray (v : json) : bool :=
  match v with JArr _ => true | _ => false end.

Definition isArray_value (o : value) : bool :=
  match o with Some v => isArray v | None => false end.

(** [typeof v === 'object']. *)
Definition typeof_object (v : json) : bool :=
  match v with JNull | JArr _ | JObj _ => true | _ => false end.

Definition typeof_object_value (o : value) : bool :=
  match o with Some v => typeof_object v | None => false end.

Fixpoint assoc (k : string) (ps : list (string * json)) : value :=
  match ps with
  | [] => None
  | (k', v) :: rest => if String.eqb k k' then Some v else assoc k rest
  end.

(** [v.k] for a property name [k] that no prototype defines (every access
    in the code is of this kind).  On [null] the access would raise; each
    access of the code on a value that may be [null] is guarded by a
    truthiness test, which the embedding keeps. *)
Definition get (v : json) (k : string) : value :=
  match v with
  | JObj ps => assoc k ps
  | _ => None
  end.

(** The elements of an array value, for use after an [Array.isArray] test. *)
Definition elements (o : value) : list json :=
  match o with Some (JArr l) => l | _ => [] end.

(** [a || b]. *)
Definition or_else (a : value) (b : json) : json :=
  match a with
  | Some v => if truthy v then v else b
  | None => b
  end.

(** Template literal interpolation of a length. *)
Definition show_nat (n : nat) : string := pretty n.

End Js.

Import Js.

(** ** The webhook based [GET /api/admin/meetings] handler *)

Module Webhook.

(** The four variables the handler fills in. *)
Record extracted : Type := Extracted {
  meetings : list json;
  statistics : json;
  lastUpdated : value;
  message : json
}.

(** [let meetings = []; let statistics = {}; let lastUpdated = null;
    let message = '';] *)
Definition initial : extracted :=
  {| meetings := []; statistics := JObj []; lastUpdated := Some JNull;
     message := JStr "" |}.

Definition with_meetings (ms : list json) : extracted :=
  {| meetings := ms; statistics := statistics initial;
     lastUpdated := lastUpdated initial; message := message initial |}.

(** [actualData.k && Array.isArray(actualData.k)] *)
Definition has_array (d : json) (k : string) : bool :=
  truthy_value (get d k) && isArray_value (get d k).

(** [firstItem && (firstItem.requestId || firstItem.userName ||
    firstItem.meetingPurpose)] *)
Definition looks_like_meeting (firstItem : json) : bool :=
  truthy firstItem &&
  (truthy_value (get firstItem "requestId")
   || truthy_value (get firstItem "userName")
   || truthy_value (get firstItem "meetingPurpose")).

(** The [for (const [key, value] of Object.entries(actualData))] loop: the
    first non-empty array whose first item looks like a meeting. *)
Fixpoint scan_entries (entries : list (string * json)) : list json :=
  match entries with
  | [] => []
  | (_, JArr (firstItem :: rest)) :: more =>
      if looks_like_meeting firstItem then firstItem :: rest
      else scan_entries more
  | _ :: more => scan_entries more
  end.

Definition entries (d : json) : list (string * json) :=
  match d with JObj ps => ps | _ => [] end.

(** [if (actualData.json && typeof actualData.json === 'object')
      actualData = actualData.json;] *)
Definition unwrap_json (actualData : json) : json :=
  match get actualData "json" with
  | Some j => if truthy j && typeof_object j then j else actualData
  | None => actualData
  end.

Definition is_workflow_started (d : json) : bool :=
  match get d "message" with
  | Some (JStr s) => String.eqb s "Workflow was started"
  | _ => false
  end.

(** The chain of tests on [actualData] after the unwrapping. *)
Definition extract_object (actualData : json) : extracted :=
  if isArray actualData then
    with_meetings (elements (Some actualData))
  else if has_array actualData "meetings" then
    {| meetings := elements (get actualData "meetings");
       statistics := or_else (get actualData "statistics") (JObj []);
       lastUpdated := get actualData "lastUpdated";
       message := or_else (get actualData "message") (JStr "") |}
  else if has_array actualData "data" then
    with_meetings (elements (get actualData "data"))
  else if has_array actualData "items" then
    with_meetings (elements (get actualData "items"))
  else if has_array actualData "response" then
    with_meetings (elements (get actualData "response"))
  else if has_array actualData "result" then
    with_meetings (elements (get actualData "result"))
  else if is_workflow_started actualData then
    with_meetings []
  else if truthy_value (get actualData "requestId")
          || truthy_value (get actualData "id") then
    with_meetings [actualData]
  else
    with_meetings (scan_entries (entries actualData)).

(** The body of [if (response.data) { ... }]. *)
Definition extract (data : json) : extracted :=
  if truthy data then
    if isArray data then with_meetings (elements (Some data))
    else if truthy data && typeof_object data then
      extract_object (unwrap_json data)
    else initial
  else initial.

(** What [axios.get] does: it resolves with a status and parsed data, or
    rejects with an error carrying a message. *)
Inductive fetch_result : Type :=
| Resolved (status : nat) (data : json)
| Rejected (error_message : string).

(** The JSON body handed to [res.json]; an absent property is [None]. *)
Record body : Type := Body {
  success : bool;
  body_meetings : list json;
  body_statistics : value;
  body_lastUpdated : value;
  body_message : value;
  body_count : option nat;
  body_error : option string;
  body_details : option string
}.

Record http_response : Type := Http {
  http_status : nat;
  http_body : body
}.

(** [res.json] answers with status 200 unless [res.status] was called. *)
Definition res_json (b : body) : http_response :=
  {| http_status := 200; http_body := b |}.

Definition success_message (ms : list json) : json :=
  JStr ("Successfully loaded " +:+ show_nat (length ms) +:+ " meetings").

(** The handler, after [authenticateAdmin] let the request through.
    [webhookUrl] is [process.env.ADMIN_MEETINGS_WEBHOOK]; [fetch] is the
    outcome of the [axios.get] call, which is only made when the URL is
    configured. *)
Definition get_admin_meetings (webhookUrl : option string)
    (fetch : fetch_result) : http_response :=
  match webhookUrl with
  | None | Some "" =>
      res_json {| success := true; body_meetings := [];
                  body_statistics := None; body_lastUpdated := None;
                  body_message := Some (JStr "n8n webhook not configured");
                  body_count := None; body_error := None;
                  body_details := None |}
  | Some _ =>
      match fetch with
      | Resolved _ data =>
          let e := extract data in
          res_json {| success := true; body_meetings := meetings e;
                      body_statistics := Some (statistics e);
                      body_lastUpdated := lastUpdated e;
                      body_message :=
                        Some (if truthy (message e) then message e
                              else success_message (meetings e));
                      body_count := Some (length (meetings e));
                      body_error := None; body_details := None |}
      | Rejected msg =>
          res_json {| success := false; body_meetings := [];
                      body_statistics := None; body_lastUpdated := None;
                      body_message := None; body_count := None;
                      body_error := Some "Failed to fetch meetings from n8n";
                      body_details := Some msg |}
      end
  end.

End Webhook.

(** ** [String.prototype] methods used by the code *)

Module JsString.

Definition code (c : ascii) : N := N_of_ascii c.

(** [toLowerCase] on one code unit: A-Z, and the capital letters of the
    Latin-1 block (all of 0xC0-0xDE but the multiplication sign 0xD7). *)
Definition lower_char (c : ascii) : ascii :=
  let n := code c in
  if ((65 <=? n) && (n <=? 90))%N then ascii_of_N (n + 32)
  else if ((192 <=? n) && (n <=? 222) && negb (n =? 215))%N
       then ascii_of_N (n + 32)
  else c.

Fixpoint toLowerCase (s : string) : string :=
  match s with
  | EmptyString => EmptyString
  | String c rest => String (lower_char c) (toLowerCase rest)
  end.

(** [s.replace(/_/g, '')] *)
Fixpoint strip_underscores (s : string) : string :=
  match s with
  | EmptyString => EmptyString
  | String c rest =>
      if Ascii.eqb c "_" then strip_underscores rest
      else String c (strip_underscores rest)
  end.

(** White space and line terminators below 256: TAB, LF, VT, FF, CR, SP and
    the no-break space. *)
Definition is_white (c : ascii) : bool :=
  let n := code c in
  ((9 <=? n) && (n <=? 13) || (n =? 32) || (n =? 160))%N.

Fixpoint trimStart (s : string) : string :=
  match s with
  | EmptyString => EmptyString
  | String c rest => if is_white c then trimStart rest else s
  end.

Definition trimEnd (s : string) : string :=
  String.rev (trimStart (String.rev s)).

Definition trim (s : string) : string := trimEnd (trimStart s).

(** [ToBoolean] of a string. *)
Definition nonempty (s : string) : bool := negb (String.eqb s "").

End JsString.

Import JsString.

(** ** [GoogleSheetsService]: rows to meetings, statistics *)

Module Sheets.

(** A meeting object under construction: property names to cell values,
    all of them strings. *)
Abbreviation meeting := (gmap string string).

(** The [case] labels of the [switch (header)], each with the property
    its branch assigns. *)
Definition header_table : list (string * string) :=
  [ ("Request_ID", "requestId"); ("requestId", "requestId");
    ("Timestamp", "timestamp"); ("timestamp", "timestamp");
    ("User_Name", "userName"); ("userName", "userName");
    ("User_Email", "userEmail"); ("userEmail", "userEmail");
    ("User_Phone", "userPhone"); ("userPhone", "userPhone");
    ("User_Company", "userCompany"); ("userCompany", "userCompany");
    ("userPosition", "userPosition");
    ("Meeting_Type", "meetingType"); ("meetingType", "meetingType");
    ("Meeting_Purpose", "meetingPurpose");
    ("meetingPurpose", "meetingPurpose");
    ("Preferred_Date", "preferredDate"); ("preferredDate", "preferredDate");
    ("Preferred_Time", "preferredTime"); ("preferredTime", "preferredTime");
    ("Duration_Minutes", "estimatedDuration");
    ("estimatedDuration", "estimatedDuration");
    ("Meeting_Details", "meetingDescription");
    ("meetingDescription", "meetingDescription");
    ("Status", "status"); ("status", "status");
    ("Admin_Response", "adminNotes"); ("adminNotes", "adminNotes");
    ("adminEmail", "adminNotes");
    ("Confirmed_Date", "confirmedDate"); ("confirmedDate", "confirmedDate");
    ("Confirmed_Time", "confirmedTime"); ("confirmedTime", "confirmedTime");
    ("Priority", "urgency"); ("urgency", "urgency");
    ("Location", "location"); ("location", "location");
    ("Meeting_Link", "meetingLink"); ("meetingLink", "meetingLink");
    ("Created_Date", "createdDate"); ("createdDate", "createdDate");
    ("Last_Updated", "lastUpdated"); ("lastUpdated", "lastUpdated");
    ("additionalNotes", "additionalNotes");
    ("attachments", "attachments");
    ("proposedStartTime", "proposedStartTime");
    ("proposedEndTime", "proposedEndTime") ].

(** The branch a header selects: a [case] label matches by [===]. *)
Fixpoint switch_case (table : list (string * string)) (header : string)
    : option string :=
  match table with
  | [] => None
  | (label, property) :: rest =>
      if String.eqb header label then Some property
      else switch_case rest header
  end.

Definition canonical (header : string) : option string :=
  switch_case header_table header.

(** What a branch stores: [value || 'Pending'] for the status,
    [value ? value.toLowerCase() : 'medium'] for the urgency, the cell as
    it is for the others. *)
Definition stored_value (property value : string) : string :=
  if String.eqb property "status" then
    if nonempty value then value else "Pending"
  else if String.eqb property "urgency" then
    if nonempty value then toLowerCase value else "medium"
  else value.

(** [default:] of the switch. *)
Definition fallback_name (header : string) : string :=
  strip_underscores (toLowerCase header).

(** One round of [headers.forEach]: the switch on one header. *)
Definition store (header value : string) (m : meeting) : meeting :=
  match canonical header with
  | Some property => <[property := stored_value property value]> m
  | None => <[fallback_name header := value]> m
  end.

(** [row[colIndex] || ''] *)
Definition cell (row : list string) (colIndex : nat) : string :=
  default "" (row !! colIndex).

(** [headers.forEach((header, colIndex) => ...)] on [meeting = {}]. *)
Definition map_columns (headers row : list string) : meeting :=
  foldl (λ m '(colIndex, header), store header (cell row colIndex) m)
        ∅ (imap pair headers).

(** [meeting.k] as a condition. *)
Definition has (m : meeting) (k : string) : bool :=
  match m !! k with Some v => nonempty v | None => false end.

(** [meeting.a || b] *)
Definition field_or (m : meeting) (k : string) (b : string) : string :=
  match m !! k with
  | Some v => if nonempty v then v else b
  | None => b
  end.

Definition synthesized_id (index : nat) : string :=
  "sheet_" +:+ pretty (index + 1).

(** "Ensure required fields have default values"; [now] is
    [new Date().toISOString()]. *)
Definition apply_defaults (index : nat) (now : string) (m : meeting)
    : meeting :=
  let m1 :=
    <["requestId" := field_or m "requestId" (synthesized_id index)]> m in
  let m2 := <["status" := field_or m1 "status" "Pending"]> m1 in
  <["timestamp" :=
      field_or m2 "timestamp" (field_or m2 "createdDate" now)]> m2.

(** The callback of [dataRows.map((row, index) => ...)]; [clock index] is
    the time read while row [index] is converted. *)
Definition decode_row (headers : list string) (clock : nat → string)
    (index : nat) (row : list string) : meeting :=
  apply_defaults index (clock index) (map_columns headers row).

(** [meeting.k && meeting.k.trim() !== ''] *)
Definition filled (m : meeting) (k : string) : bool :=
  has m k && nonempty (trim (default "" (m !! k))).

Definition isValid (m : meeting) : bool :=
  filled m "userName" && filled m "userEmail" && filled m "meetingPurpose".

(** From [const meetings = dataRows.map(...)] to [return validMeetings]. *)
Definition decode (headers : list string) (clock : nat → string)
    (dataRows : list (list string)) : list meeting :=
  filter (λ m, isValid m = true) (imap (decode_row headers clock) dataRows).

(** From [const rows = response.data.values] on: no rows, no meetings;
    else the first row is the header row. *)
Definition decode_values (clock : nat → string)
    (rows : option (list (list string))) : list meeting :=
  match rows with
  | None | Some [] => []
  | Some (headers :: dataRows) => decode headers clock dataRows
  end.

(** [stats.byPriority] and [stats.byMeetingType] *)
Record priorities : Type := Priorities { high : nat; medium : nat; low : nat }.
Record meeting_types : Type :=
  MeetingTypes { online : nat; offline : nat; hybrid : nat }.

Record stats : Type := Stats {
  total : nat;
  pending : nat;
  approved : nat;
  rejected : nat;
  rescheduled : nat;
  byPriority : priorities;
  byMeetingType : meeting_types
}.

(** [if (stats.hasOwnProperty(status)) stats[status]++].  The own
    properties of [stats] are [total], the four status counters,
    [byPriority] and [byMeetingType]; [status] is lower case, so it names
    neither of the last two. *)
Definition count_status (status : string) (s : stats) : stats :=
  if String.eqb status "total" then
    Stats (S (total s)) (pending s) (approved s) (rejected s)
          (rescheduled s) (byPriority s) (byMeetingType s)
  else if String.eqb status "pending" then
    Stats (total s) (S (pending s)) (approved s) (rejected s)
          (rescheduled s) (byPriority s) (byMeetingType s)
  else if String.eqb status "approved" then
    Stats (total s) (pending s) (S (approved s)) (rejected s)
          (rescheduled s) (byPriority s) (byMeetingType s)
  else if String.eqb status "rejected" then
    Stats (total s) (pending s) (approved s) (S (rejected s))
          (rescheduled s) (byPriority s) (byMeetingType s)
  else if String.eqb status "rescheduled" then
    Stats (total s) (pending s) (approved s) (rejected s)
          (S (rescheduled s)) (byPriority s) (byMeetingType s)
  else s.

(** [if (stats.byPriority.hasOwnProperty(priority))
      stats.byPriority[priority]++] *)
Definition count_priority (priority : string) (p : priorities)
    : priorities :=
  if String.eqb priority "high" then Priorities (S (high p)) (medium p) (low p)
  else if String.eqb priority "medium" then
    Priorities (high p) (S (medium p)) (low p)
  else if String.eqb priority "low" then
    Priorities (high p) (medium p) (S (low p))
  else p.

Definition count_type (meetingType : string) (t : meeting_types)
    : meeting_types :=
  if String.eqb meetingType "online" then
    MeetingTypes (S (online t)) (offline t) (hybrid t)
  else if String.eqb meetingType "offline" then
    MeetingTypes (online t) (S (offline t)) (hybrid t)
  else if String.eqb meetingType "hybrid" then
    MeetingTypes (online t) (offline t) (S (hybrid t))
  else t.

(** [meeting.k ? meeting.k.toLowerCase() : fallback] *)
Definition lowered (m : meeting) (k fallback : string) : string :=
  if has m k then toLowerCase (default "" (m !! k)) else fallback.

(** The callback of [meetings.forEach]. *)
Definition count_meeting (s : stats) (m : meeting) : stats :=
  let s1 := count_status (lowered m "status" "pending") s in
  Stats (total s1) (pending s1) (approved s1) (rejected s1) (rescheduled s1)
        (count_priority (lowered m "urgency" "medium") (byPriority s1))
        (count_type (lowered m "meetingType" "online") (byMeetingType s1)).

Definition generateStatistics (meetings : list meeting) : stats :=
  foldl count_meeting
        (Stats (length meetings) 0 0 0 0 (Priorities 0 0 0)
               (MeetingTypes 0 0 0))
        meetings.

End Sheets.

(** ** The admin dashboard: counters and the action form *)

Module Dashboard.

(** What [updateDashboardStats] writes into the four counter elements. *)
Record counters : Type := Counters {
  shown_total : json;
  shown_pending : json;
  shown_approved : json;
  shown_thisWeek : nat
}.

(** [if (!Array.isArray(currentMeetings)) currentMeetings = [];] *)
Definition as_list (currentMeetings : json) : list json :=
  match currentMeetings with JArr l => l | _ => [] end.

(** The filter callback of the weekly count.  [parse_date] is
    [new Date(v)] as milliseconds, [None] for an invalid date, whose
    comparisons are all false. *)
Definition in_last_week (parse_date : json → option Z) (oneWeekAgo : Z)
    (m : json) : bool :=
  if negb (truthy m) || negb (truthy_value (get m "timestamp")) then false
  else
    match get m "timestamp" with
    | Some ts =>
        match parse_date ts with
        | Some meetingDate => (oneWeekAgo <=? meetingDate)%Z
        | None => false
        end
    | None => false
    end.

Definition weekly (parse_date : json → option Z) (oneWeekAgo : Z)
    (ms : list json) : nat :=
  length (filter (λ m, in_last_week parse_date oneWeekAgo m = true) ms).

(** [m && m.status === s] *)
Definition status_is (s : string) (m : json) : bool :=
  truthy m &&
  match get m "status" with
  | Some (JStr s') => String.eqb s' s
  | _ => false
  end.

Definition count_status (s : string) (ms : list json) : json :=
  JNum (Z.of_nat (length (filter (λ m, status_is s m = true) ms))).

(** [updateDashboardStats], on the globals [currentMeetings] and
    [dashboardStatistics]; [oneWeekAgo] is the date it computes with
    [setDate(getDate() - 7)]. *)
Definition updateDashboardStats (parse_date : json → option Z)
    (oneWeekAgo : Z) (currentMeetings dashboardStatistics : json)
    : counters :=
  let ms := as_list currentMeetings in
  if truthy dashboardStatistics && typeof_object dashboardStatistics then
    {| shown_total := or_else (get dashboardStatistics "totalCount") (JNum 0);
       shown_pending :=
         or_else (get dashboardStatistics "pendingCount") (JNum 0);
       shown_approved :=
         or_else (get dashboardStatistics "approvedCount") (JNum 0);
       shown_thisWeek := weekly parse_date oneWeekAgo ms |}
  else
    {| shown_total := JNum (Z.of_nat (length ms));
       shown_pending := count_status "pending" ms;
       shown_approved := count_status "approved" ms;
       shown_thisWeek := weekly parse_date oneWeekAgo ms |}.

(** What [confirmAction] does with the form: an alert, or the POST of the
    collected fields to [/api/admin/meeting/action]. *)
Inductive form_result : Type :=
| Alert (text : string)
| Post (actionData : gmap string string).

(** [for (let [key, value] of formData.entries())
      actionData[key] = value.trim();] *)
Definition collect (formData : list (string * string)) : gmap string string :=
  foldl (λ actionData '(key, value), <[key := trim value]> actionData)
        ∅ formData.

Definition filled (actionData : gmap string string) (k : string) : bool :=
  match actionData !! k with Some v => nonempty v | None => false end.

(** [newDate <= now] on two dates; false when the left one is invalid. *)
Definition not_after (d : option Z) (now : Z) : bool :=
  match d with Some t => (t <=? now)%Z | None => false end.

Definition confirmAction (parse_date : string → option Z) (now : Z)
    (formData : list (string * string)) : form_result :=
  let actionData := collect formData in
  if bool_decide (actionData !! "action" = Some "reschedule") then
    if negb (filled actionData "newDate")
       || negb (filled actionData "newTime") then
      Alert "Please provide new date and time for rescheduling."
    else
      let newDate :=
        parse_date (default "" (actionData !! "newDate") +:+ "T"
                    +:+ default "" (actionData !! "newTime")) in
      if not_after newDate now then
        Alert "Please select a future date and time."
      else Post actionData
  else Post actionData.

End Dashboard.

(** ** The action and request handlers of the server *)

Module Server.

(** What came of one request: the bodies posted to the workflow webhook,
    in order, and the answer's status with its [success] flag. *)
Record outcome : Type := Outcome {
  webhook_calls : list (gmap string json);
  status : nat;
  succeeded : bool
}.

(** [x || null] *)
Definition or_null (x : value) : json := or_else x JNull.

(** [validActions.includes(action)] *)
Definition valid_action (action : json) : bool :=
  match action with
  | JStr a =>
      String.eqb a "approve" || String.eqb a "reject"
      || String.eqb a "reschedule"
  | _ => false
  end.

(** The [POST /api/admin/meeting/action] handler behind
    [authenticateAdmin].  [reqBody] is [req.body], [webhookUrl] is
    [process.env.ADMIN_ACTION_WEBHOOK], [webhook_ok] tells whether
    [axios.post] resolves, [adminEmail] and [now] are the session's email
    and [new Date().toISOString()]. *)
Definition post_meeting_action (webhookUrl : option string)
    (webhook_ok : bool) (adminEmail : value) (now : string)
    (reqBody : gmap string json) : outcome :=
  if negb (truthy_value (reqBody !! "requestId"))
     || negb (truthy_value (reqBody !! "action")) then
    Outcome [] 400 false
  else if negb (from_option valid_action false (reqBody !! "action")) then
    Outcome [] 400 false
  else
    let actionData : gmap string json :=
      <["timestamp" := JStr now]>
      (<["newMeetingType" := or_null (reqBody !! "newMeetingType")]>
      (<["newLocation" := or_null (reqBody !! "newLocation")]>
      (<["newDuration" := or_null (reqBody !! "newDuration")]>
      (<["newTime" := or_null (reqBody !! "newTime")]>
      (<["newDate" := or_null (reqBody !! "newDate")]>
      (<["adminNotes" := or_else (reqBody !! "adminNotes") (JStr "")]>
      (from_option (λ e, <["adminEmail" := e]>) id adminEmail
      (<["action" := default JNull (reqBody !! "action")]>
      (<["requestId" := default JNull (reqBody !! "requestId")]> ∅))))))))) in
    match webhookUrl with
    | None | Some "" => Outcome [] 500 false
    | Some _ =>
        if webhook_ok then Outcome [actionData] 200 true
        else Outcome [actionData] 500 false
    end.

(** The body [JSON.stringify(actionData)] delivers: string properties. *)
Definition request_body (actionData : gmap string string)
    : gmap string json := JStr <$> actionData.

(** An admin action from the form to the workflow: [confirmAction], then
    the handler on what it posts. *)
Definition submitAction (parse_date : string → option Z) (now_ms : Z)
    (webhookUrl : option string) (webhook_ok : bool) (adminEmail : value)
    (now : string) (formData : list (string * string)) : option outcome :=
  match Dashboard.confirmAction parse_date now_ms formData with
  | Dashboard.Alert _ => None
  | Dashboard.Post actionData =>
      Some (post_meeting_action webhookUrl webhook_ok adminEmail now
              (request_body actionData))
  end.

(** The [requestId] of the answer to [POST /api/meeting/request]:
    [`${Date.now()}_${Math.random().toString(36).substring(7)}`], with the
    clock value and the random suffix as given. *)
Definition new_request_id (now_ms : Z) (random_suffix : string) : string :=
  pretty now_ms +:+ "_" +:+ random_suffix.

End Server.

(** ** Readings of the specification, to compare the code with *)

Module Spec.

(** "Object has array-typed [k] property". *)
Definition array_property (d : json) (k : string) : option (list json) :=
  match get d k with
  | Some (JArr records) => Some records
  | _ => None
  end.

(** "Input is an object with a nested [json] object property: descend
    into it" (one level). *)
Definition descend (payload : json) : json :=
  match get payload "json" with
  | Some (JObj ps) => JObj ps
  | Some (JArr records) => JArr records
  | _ => payload
  end.

Fixpoint first_array_property (d : json) (names : list string)
    : option (list json) :=
  match names with
  | [] => None
  | k :: rest =>
      match array_property d k with
      | Some records => Some records
      | None => first_array_property d rest
      end
  end.

(** The records of a payload of a known shape, first match in the order:
    bare array, nested json unwrap, [meetings], [data], [items],
    [response], [result].  [None]: the payload has none of these shapes. *)
Definition known_shape_records (payload : json) : option (list json) :=
  match payload with
  | JArr records => Some records
  | JObj _ =>
      match descend payload with
      | JArr records => Some records
      | d => first_array_property d
               ["meetings"; "data"; "items"; "response"; "result"]
      end
  | _ => None
  end.

(** What the auto-detection accepts: a non-empty array whose first item
    has a [requestId], a [userName] or a [meetingPurpose]. *)
Definition candidate (v : json) : bool :=
  match v with
  | JArr (first :: _) => Webhook.looks_like_meeting first
  | _ => false
  end.

(** "The payload matches no known or auto-detected structure": it is no
    array and, when it is an object, what it unwraps to has none of the
    known shapes and either is the "Workflow was started" reply or is
    neither a single record nor the holder of an array the auto-detection
    accepts. *)
Definition unmatched (payload : json) : bool :=
  match payload with
  | JArr _ => false
  | JObj _ =>
      let d := descend payload in
      match known_shape_records payload with
      | Some _ => false
      | None =>
          Webhook.is_workflow_started d
          || (negb (truthy_value (get d "requestId")
                    || truthy_value (get d "id"))
              && forallb (λ p, negb (candidate p.2)) (Webhook.entries d))
      end
  | _ => true
  end.

(** "Non-empty after trimming". *)
Definition nonblank (m : gmap string string) (k : string) : Prop :=
  ∃ v, m !! k = Some v ∧ trim v ≠ "".

(** "A record is valid iff userName, userEmail, and meetingPurpose are all
    non-empty after trimming". *)
Definition valid (m : gmap string string) : Prop :=
  nonblank m "userName" ∧ nonblank m "userEmail"
  ∧ nonblank m "meetingPurpose".

(** "Blank": not there, or the empty string. *)
Definition blank (m : gmap string string) (k : string) : Prop :=
  m !! k = None ∨ m !! k = Some "".

(** Two header names that differ in case and separators only. *)
Definition same_name (a b : string) : Prop :=
  strip_underscores (toLowerCase a) = strip_underscores (toLowerCase b).

(** The [requestId] a row of the sheet supplies, if it has one. *)
Definition supplied_id (headers row : list string) : option string :=
  match Sheets.map_columns headers row !! "requestId" with
  | Some v => if nonempty v then Some v else None
  | None => None
  end.

Definition requestId (m : gmap string string) : string :=
  default "" (m !! "requestId").

(** A meeting whose status reads "total" in lower case. *)
Definition named_total (m : gmap string string) : bool :=
  String.eqb (Sheets.lowered m "status" "pending") "total".

(** The calls to the workflow webhook an admin action led to; none when the
    form was not posted. *)
Definition outbound_calls (r : option Server.outcome)
    : list (gmap string json) :=
  match r with
  | Some o => Server.webhook_calls o
  | None => []
  end.

Definition configured (webhookUrl : option string) : bool :=
  match webhookUrl with
  | None | Some "" => false
  | Some _ => true
  end.

(** "An error/diagnostic indicator" in a body of the admin list: the
    [success] flag is off or an [error] property is there. *)
Definition error_indicator (b : Webhook.body) : bool :=
  negb (Webhook.success b) || bool_decide (is_Some (Webhook.body_error b)).

End Spec.

(** ** The [POST /api/admin/sync-n8n] handler of the webhook based server *)

Module Sync.

(** The chain of tests of the sync handler on [actualData], after the
    unwrapping: the meetings and the statistics it leaves in its two
    variables. *)
Definition extract_object (actualData : json) : list json * json :=
  if isArray actualData then (elements (Some actualData), JObj [])
  else if Webhook.has_array actualData "meetings" then
    (elements (get actualData "meetings"),
     or_else (get actualData "statistics") (JObj []))
  else if Webhook.has_array actualData "data" then
    (elements (get actualData "data"), JObj [])
  else if Webhook.has_array actualData "items" then
    (elements (get actualData "items"), JObj [])
  else if Webhook.has_array actualData "response" then
    (elements (get actualData "response"), JObj [])
  else if Webhook.has_array actualData "result" then
    (elements (get actualData "result"), JObj [])
  else if truthy_value (get actualData "success")
          && truthy_value (get actualData "meetings") then
    ((if isArray_value (get actualData "meetings")
      then elements (get actualData "meetings") else []), JObj [])
  else if truthy_value (get actualData "requestId")
          || truthy_value (get actualData "id") then
    ([actualData], JObj [])
  else
    (Webhook.scan_entries (Webhook.entries actualData), JObj []).

(** The body of [if (responseData) { ... }]. *)
Definition extract (responseData : json) : list json * json :=
  if truthy responseData then
    if isArray responseData then (elements (Some responseData), JObj [])
    else if truthy responseData && typeof_object responseData then
      extract_object (Webhook.unwrap_json responseData)
    else ([], JObj [])
  else ([], JObj []).

(** What [axios.get] does for the sync: it resolves with data, or rejects
    with an error that has a message, maybe a [code] and maybe a response
    with a status. *)
Inductive fetch_result : Type :=
| Resolved (data : json)
| Rejected (code : option string) (response_status : option nat)
           (error_message : string).

(** The answer: its status and the properties of its body the dashboard
    reads. *)
Record answer : Type := Answer {
  status : nat;
  success : option bool;
  meetings : option (list json);
  statistics : option json;
  message : string;
  error : option string;
  syncTriggered : option bool
}.

Definition completed_message (ms : list json) : string :=
  "n8n sync completed successfully - " +:+ show_nat (length ms)
  +:+ " meetings retrieved".

Definition quoted (s : string) : string :=
  String (ascii_of_N 34) s +:+ String (ascii_of_N 34) EmptyString.

(** The [catch] branch: the error and the message of the 500 answer. *)
Definition failure (code : option string) (response_status : option nat)
    (error_message : string) : string * string :=
  if bool_decide (code = Some "ECONNREFUSED") then
    ("Cannot connect to n8n", "Make sure n8n is running on localhost:5678")
  else if bool_decide (response_status = Some 404) then
    ("n8n webhook not found",
     "Check that the " +:+ quoted "Admin Get Meetings Webhook"
     +:+ " is properly configured in your n8n workflow")
  else if bool_decide (response_status = Some 500) then
    ("n8n workflow error", "Check n8n execution logs for workflow errors")
  else ("Failed to sync with n8n", error_message).

(** The handler behind [authenticateAdmin]; [fetch] is the outcome of the
    [axios.get] call, made only when the URL is configured. *)
Definition post_sync (webhookUrl : option string) (fetch : fetch_result)
    : answer :=
  match webhookUrl with
  | None | Some "" =>
      {| status := 400; success := None; meetings := None;
         statistics := None;
         message := "Please configure ADMIN_MEETINGS_WEBHOOK in your environment variables";
         error := Some "No n8n webhook configured for sync operation";
         syncTriggered := None |}
  | Some _ =>
      match fetch with
      | Resolved responseData =>
          let '(ms, stats) := extract responseData in
          {| status := 200; success := Some true; meetings := Some ms;
             statistics :=
               Some (or_else (Some stats)
                       (or_else (get responseData "statistics") JNull));
             message := completed_message ms; error := None;
             syncTriggered := Some true |}
      | Rejected code response_status error_message =>
          let '(errorMessage, errorDetails) :=
            failure code response_status error_message in
          {| status := 500; success := None; meetings := None;
             statistics := None; message := errorDetails;
             error := Some errorMessage; syncTriggered := Some false |}
      end
  end.

End Sync.

(** ** The [POST /api/meeting/request] handler *)

Module Intake.

Definition requiredFields : list string :=
  ["userName"; "userEmail"; "userPhone"; "meetingPurpose"; "preferredDate";
   "preferredTime"; "meetingType"].

(** [requiredFields.filter(field => !req.body[field])] *)
Definition missingFields (reqBody : gmap string json) : list string :=
  filter (λ field, truthy_value (reqBody !! field) = false) requiredFields.

(** A property with the value [v]; with [undefined] it is not written. *)
Definition put (k : string) (v : value) (o : gmap string json)
    : gmap string json :=
  match v with Some x => <[k := x]> o | None => o end.

(** [meetingRequestData]; [now] is [new Date().toISOString()]. *)
Definition meetingRequestData (reqBody : gmap string json) (now : string)
    : gmap string json :=
  put "userName" (reqBody !! "userName")
  (put "userEmail" (reqBody !! "userEmail")
  (put "userPhone" (reqBody !! "userPhone")
  (<["userCompany" := or_else (reqBody !! "userCompany") (JStr "")]>
  (<["userPosition" := or_else (reqBody !! "userPosition") (JStr "")]>
  (put "meetingPurpose" (reqBody !! "meetingPurpose")
  (<["meetingDescription" :=
       or_else (reqBody !! "meetingDescription") (JStr "")]>
  (put "preferredDate" (reqBody !! "preferredDate")
  (put "preferredTime" (reqBody !! "preferredTime")
  (<["estimatedDuration" :=
       or_else (reqBody !! "estimatedDuration") (JStr "60")]>
  (put "meetingType" (reqBody !! "meetingType")
  (<["location" := or_else (reqBody !! "location") (JStr "")]>
  (<["urgency" := or_else (reqBody !! "urgency") (JStr "normal")]>
  (<["additionalNotes" :=
       or_else (reqBody !! "additionalNotes") (JStr "")]>
  (<["timestamp" := JStr now]>
  (<["source" := JStr "web-panel"]> ∅))))))))))))))).

(** What [axios.post] does: it resolves, or rejects with the code
    [ECONNREFUSED], or rejects otherwise. *)
Inductive post_result : Type :=
| Accepted
| Refused
| Failed.

(** The answer and the bodies posted to the workflow webhook. *)
Record answer : Type := Answer {
  status : nat;
  success : bool;
  missing : option (list string);
  requestId : option string;
  data : option (gmap string json);
  error : option string;
  webhook_calls : list (gmap string json)
}.

(** The handler; [webhookUrl] is [process.env.MEETING_REQUEST_WEBHOOK],
    [now_ms] and [random_suffix] are [Date.now()] and the random part of the
    request id. *)
Definition post_meeting_request (webhookUrl : option string)
    (post : post_result) (now : string) (now_ms : Z)
    (random_suffix : string) (reqBody : gmap string json) : answer :=
  match missingFields reqBody with
  | (_ :: _) as missingFields =>
      Answer 400 false (Some missingFields) None None
             (Some "Missing required fields") []
  | [] =>
      let sent := meetingRequestData reqBody now in
      match webhookUrl with
      | None | Some "" =>
          Answer 500 false None None None
                 (Some "Failed to submit meeting request. Please try again.")
                 []
      | Some _ =>
          match post with
          | Accepted =>
              Answer 200 true None
                     (Some (Server.new_request_id now_ms random_suffix))
                     (Some sent) None [sent]
          | Refused =>
              Answer 503 false None None None
                     (Some "Meeting service temporarily unavailable. Please try again later.")
                     [sent]
          | Failed =>
              Answer 500 false None None None
                     (Some "Failed to submit meeting request. Please try again.")
                     [sent]
          end
      end
  end.

End Intake.

(** ** Admin login, logout and [authenticateAdmin] *)

Module Auth.

(** [process.env.ADMIN_USERNAME], [ADMIN_PASSWORD] and [ADMIN_EMAIL]. *)
Record environment : Type := Environment {
  ADMIN_USERNAME : option string;
  ADMIN_PASSWORD : option string;
  ADMIN_EMAIL : option string
}.

(** What a login writes into the session. *)
Record admin : Type := Admin {
  adminEmail : string;
  loginTime : string
}.

(** The body carries, as non-empty strings, the configured user name and
    password. *)
Definition right_credentials (env : environment)
    (reqBody : gmap string json) : Prop :=
  ∃ u p, u ≠ "" ∧ p ≠ ""
         ∧ reqBody !! "username" = Some (JStr u)
         ∧ reqBody !! "password" = Some (JStr p)
         ∧ ADMIN_USERNAME env = Some u ∧ ADMIN_PASSWORD env = Some p.

(** The session: [Some] when [req.session.isAdmin] is set. *)
Definition session : Type := option admin.

(** [v === e] for a value of the request body and an environment
    variable, where [v] is known to be truthy. *)
Definition same (v : value) (e : option string) : bool :=
  match v, e with
  | Some (JStr s), Some s' => String.eqb s s'
  | _, _ => false
  end.

(** The [POST /api/admin/login] handler: the session after it and the
    status of the answer. *)
Definition login (env : environment) (now : string)
    (reqBody : gmap string json) (s : session) : session * nat :=
  if negb (truthy_value (reqBody !! "username"))
     || negb (truthy_value (reqBody !! "password")) then (s, 400)
  else if same (reqBody !! "username") (ADMIN_USERNAME env)
          && same (reqBody !! "password") (ADMIN_PASSWORD env) then
    (Some {| adminEmail :=
               match ADMIN_EMAIL env with
               | Some e => if nonempty e then e else "admin@company.com"
               | None => "admin@company.com"
               end;
             loginTime := now |}, 200)
  else (s, 401).

(** The [POST /api/admin/logout] handler; [destroy_failed] tells whether
    [req.session.destroy] reports an error. *)
Definition logout (destroy_failed : bool) (s : session) : session * nat :=
  if destroy_failed then (s, 500) else (None, 200).

(** [authenticateAdmin]: the status it answers with, or [None] when it
    calls [next()]. *)
Definition authenticateAdmin (s : session) : option nat :=
  match s with Some _ => None | None => Some 401 end.

(** The requests of one browser session. *)
Inductive request : Type :=
| Login (now : string) (reqBody : gmap string json)
| Logout (destroy_failed : bool)
| Protected.

Definition step (env : environment) (s : session) (r : request) : session :=
  match r with
  | Login now reqBody => (login env now reqBody s).1
  | Logout destroy_failed => (logout destroy_failed s).1
  | Protected => s
  end.

(** The session after a sequence of requests, from a fresh one. *)
Definition run (env : environment) (rs : list request) : session :=
  foldl (step env) None rs.

End Auth.

(** ** Reading the sheet: the CSV export and [fetchMeetingRequests] *)

Module Csv.

Definition comma : ascii := ascii_of_N 44.
Definition newline : ascii := ascii_of_N 10.
Definition dquote : ascii := ascii_of_N 34.

(** [s.split(sep)] for a separator of one character. *)
Fixpoint split (sep : ascii) (s : string) : list string :=
  match s with
  | EmptyString => [EmptyString]
  | String c rest =>
      if Ascii.eqb c sep then EmptyString :: split sep rest
      else
        match split sep rest with
        | piece :: pieces => String c piece :: pieces
        | [] => [String c EmptyString]
        end
  end.

(** [cell.replace] of every double quote by the empty string. *)
Fixpoint strip_quotes (s : string) : string :=
  match s with
  | EmptyString => EmptyString
  | String c rest =>
      if Ascii.eqb c dquote then strip_quotes rest
      else String c (strip_quotes rest)
  end.

(** The callback of the inner [map]: the quotes are removed, then the cell
    is trimmed. *)
Definition clean (cell : string) : string := trim (strip_quotes cell).

(** [csvData.split('\n').map(row => row.split(',').map(...))] *)
Definition rows_of (csvData : string) : list (list string) :=
  map (λ row, map clean (split comma row)) (split newline csvData).

(** [row.some(cell => cell && cell.length > 0)] *)
Definition has_content (row : list string) : bool :=
  existsb (λ cell, nonempty cell && Nat.ltb 0 (String.length cell)) row.

(** From [const csvData = csvResponse.data] to [validRows]; [None] when one
    of the two [throw]s is reached. *)
Definition parse (csvData : string) : option (list (list string)) :=
  if negb (nonempty csvData) || String.eqb (trim csvData) "" then None
  else
    match filter (λ row, has_content row = true) (rows_of csvData) with
    | [] => None
    | validRows => Some validRows
    end.

(** The plain rendering of a table, to read [parse] against: the cells of
    a row joined by commas, the rows by newlines. *)
Fixpoint join (sep : ascii) (pieces : list string) : string :=
  match pieces with
  | [] => EmptyString
  | [piece] => piece
  | piece :: rest => piece +:+ String sep (join sep rest)
  end.

Definition render (rows : list (list string)) : string :=
  join newline (map (join comma) rows).

(** A string made of white space only. *)
Definition all_white (s : string) : Prop :=
  Forall (λ c, is_white c = true) (list_ascii_of_string s).

(** A cell that the cleaning leaves as it is and that the splitting does
    not cut: trimmed, without quote, comma or newline. *)
Definition plain (cell : string) : Prop :=
  trim cell = cell
  ∧ Forall (λ c, c ≠ dquote ∧ c ≠ comma ∧ c ≠ newline)
           (list_ascii_of_string cell).

End Csv.

Module SheetsService.

Import Sheets.

(** The six readings of the clock in [generateSampleData]. *)
Record sample_times : Type := SampleTimes {
  timestamp1 : string; createdDate1 : string;
  timestamp2 : string; createdDate2 : string;
  timestamp3 : string; createdDate3 : string
}.

Definition generateSampleData (t : sample_times) : list meeting :=
  [ list_to_map
      [ ("requestId", "sample_001"); ("timestamp", timestamp1 t);
        ("userName", "John Doe"); ("userEmail", "john.doe@example.com");
        ("userPhone", "+1-555-0123"); ("userCompany", "Tech Corp");
        ("meetingType", "Online"); ("meetingPurpose", "Project Discussion");
        ("preferredDate", "2025-09-02"); ("preferredTime", "10:00");
        ("estimatedDuration", "60");
        ("meetingDescription",
         "Discuss upcoming project milestones and deliverables");
        ("status", "Pending"); ("adminNotes", ""); ("urgency", "medium");
        ("location", ""); ("createdDate", createdDate1 t) ];
    list_to_map
      [ ("requestId", "sample_002"); ("timestamp", timestamp2 t);
        ("userName", "Jane Smith"); ("userEmail", "jane.smith@company.com");
        ("userPhone", "+1-555-0456");
        ("userCompany", "Business Solutions Inc");
        ("meetingType", "Offline"); ("meetingPurpose", "Contract Review");
        ("preferredDate", "2025-09-03"); ("preferredTime", "14:00");
        ("estimatedDuration", "90");
        ("meetingDescription",
         "Review and finalize the service contract terms");
        ("status", "Approved");
        ("adminNotes", "Meeting confirmed for conference room A");
        ("urgency", "high"); ("location", "Conference Room A");
        ("createdDate", createdDate2 t) ];
    list_to_map
      [ ("requestId", "sample_003"); ("timestamp", timestamp3 t);
        ("userName", "Bob Johnson"); ("userEmail", "bob.johnson@startup.io");
        ("userPhone", "+1-555-0789"); ("userCompany", "Startup Innovations");
        ("meetingType", "Hybrid");
        ("meetingPurpose", "Partnership Discussion");
        ("preferredDate", "2025-09-04"); ("preferredTime", "11:30");
        ("estimatedDuration", "45");
        ("meetingDescription",
         "Explore potential partnership opportunities");
        ("status", "Pending"); ("adminNotes", ""); ("urgency", "low");
        ("location", "Meeting Room B + Online");
        ("createdDate", createdDate3 t) ] ].

(** What [sheets.spreadsheets.values.get] does: it resolves with
    [response.data.values], which an empty sheet leaves undefined, or
    rejects. *)
Inductive api_result : Type :=
| ApiValues (values : option (list (list string)))
| ApiError (error_message : string).

(** What the [axios.get] of the CSV export does. *)
Inductive csv_result : Type :=
| CsvResponse (status : nat) (data : string)
| CsvError (response_status : option nat) (error_message : string).

(** The rows the [try] block gets hold of: [None] when it throws before
    [const rows = response.data.values]. *)
Definition read_rows (spreadsheetId apiKey : option string)
    (api : api_result) (csv : csv_result)
    : option (option (list (list string))) :=
  match spreadsheetId with
  | None | Some "" => None
  | Some _ =>
      match apiKey with
      | Some (String _ _) =>
          match api with
          | ApiValues values => Some values
          | ApiError _ => None
          end
      | _ =>
          match csv with
          | CsvResponse status data =>
              if negb (Nat.eqb status 200) then None
              else
                match Csv.parse data with
                | Some validRows => Some (Some validRows)
                | None => None
                end
          | CsvError _ _ => None
          end
      end
  end.

(** [fetchMeetingRequests]: the decoded rows, and the sample data from its
    [catch]. *)
Definition fetchMeetingRequests (spreadsheetId apiKey : option string)
    (api : api_result) (csv : csv_result) (clock : nat → string)
    (t : sample_times) : list meeting :=
  match read_rows spreadsheetId apiKey api csv with
  | Some rows => decode_values clock rows
  | None => generateSampleData t
  end.

(** The answer of the sheet based [GET /api/admin/meetings]. *)
Record answer : Type := Answer {
  status : nat;
  success : bool;
  meetings : list meeting;
  statistics : option stats;
  error : option string
}.

(** The sheet based handler of [GET /api/admin/meetings]: the service is
    built from the same [GOOGLE_SHEETS_ID] the handler tests.  The service
    catches what it throws, so the handler's own [catch] has nothing to
    catch. *)
Definition get_admin_meetings (sheetsId apiKey : option string)
    (api : api_result) (csv : csv_result) (clock : nat → string)
    (t : sample_times) : answer :=
  match sheetsId with
  | None | Some "" =>
      Answer 400 false [] None (Some "Google Sheets ID not configured")
  | Some _ =>
      let meetings :=
        fetchMeetingRequests sheetsId apiKey api csv clock t in
      Answer 200 true meetings (Some (generateStatistics meetings)) None
  end.

End SheetsService.

(** ** The admin dashboard: loading, filtering, finding, escaping *)

Module Panel.

(** "Normalize meetings from various possible shapes", on the parsed answer
    [result]. *)
Definition nested (result : json) : json :=
  or_else (get result "json") (JObj []).

Definition normalize (result : json) : list json :=
  if isArray result then elements (Some result)
  else if isArray_value (get result "meetings") then
    elements (get result "meetings")
  else if isArray_value (get result "data") then
    elements (get result "data")
  else if isArray_value (get (nested result) "meetings") then
    elements (get (nested result) "meetings")
  else if isArray_value (get (nested result) "data") then
    elements (get (nested result) "data")
  else [].

(** [result?.statistics || nested?.statistics || null] *)
Definition statistics_of (result : json) : json :=
  or_else (get result "statistics")
    (or_else (get (nested result) "statistics") JNull).

(** [v.length === 0] for a truthy [v]. *)
Definition length_is_zero (v : json) : bool :=
  match v with
  | JArr [] => true
  | JObj ps =>
      match assoc "length" ps with Some (JNum 0) => true | _ => false end
  | _ => false
  end.

(** [!result?.meetings || result.meetings.length === 0] *)
Definition no_meetings (result : json) : bool :=
  match get result "meetings" with
  | Some v => negb (truthy v) || length_is_zero v
  | None => true
  end.

(** [Array.isArray(testResult?.meetings) && testResult.meetings.length > 0] *)
Definition has_test_data (testResult : json) : bool :=
  match get testResult "meetings" with
  | Some (JArr (_ :: _)) => true
  | _ => false
  end.

(** The answer [loadMeetings] goes on with, for an answer of status 200:
    the one of the test endpoint when the first has no meetings and the test
    endpoint ([None]: it failed or was not ok) has some. *)
Definition choose (result : json) (testResult : option json) : json :=
  if no_meetings result then
    match testResult with
    | Some t => if has_test_data t then t else result
    | None => result
    end
  else result.

(** [ToPrimitive], as [new Date(v)], a template literal, a computed
    property name and the [textContent] setter apply it to a value parsed
    from JSON; [true] when it returns, [false] when it raises a TypeError.
    No property of a parsed value is callable.  So an object is converted by
    the inherited [toString] when it has no property of that name of its
    own, and else no method is left to convert it (the inherited [valueOf]
    returns the object).  An array is joined: each element but [null] is
    converted. *)
Fixpoint converts (v : json) : bool :=
  match v with
  | JObj ps =>
      match assoc "toString" ps with Some _ => false | None => true end
  | JArr items => forallb converts items
  | _ => true
  end.

(** [typeof v === 'string'] *)
Definition is_text (v : json) : bool :=
  match v with JStr _ => true | _ => false end.

(** [m.k1 || m.k2 || ... || default] *)
Definition first_of (m : json) (ks : list string) (default : json) : json :=
  foldr (λ k rest, or_else (get m k) rest) default ks.

(** [${word}] and [${display || format(word)}] in the template of a row:
    the word is converted in the template and as the property name looked
    up by [format]; a truthy [display] is converted in its place.  What the
    lookup finds (a label, or a member of [Object.prototype]) converts. *)
Definition display_converts (display : value) (word : json) : bool :=
  converts word
  && match display with
     | Some d => if truthy d then converts d else true
     | None => true
     end.

(** The callback of [filteredMeetings.map] in [renderMeetingsTable]: [true]
    when it returns a row, [false] when it raises, which is a TypeError in
    each case: [formatDate] converts the date for [new Date];
    [formatTime] calls [split] and the template calls [substring], which
    only a string has; the template converts what it interpolates.
    [escapeHtml] returns for every value. *)
Definition row_renders (meeting : json) : bool :=
  if negb (truthy meeting) then true
  else
    let preferredDate :=
      first_of meeting ["preferredDate"; "displayDate"; "preferred_date"]
        (JStr "") in
    let preferredTime :=
      first_of meeting ["preferredTime"; "displayTime"; "preferred_time"]
        (JStr "") in
    let meetingDescription :=
      first_of meeting ["meetingDescription"; "meeting_description"]
        (JStr "") in
    let meetingType :=
      first_of meeting ["meetingType"; "meeting_type"] (JStr "online") in
    let status := first_of meeting ["status"] (JStr "pending") in
    let priority :=
      first_of meeting ["priority"; "urgency"] (JStr "normal") in
    let requestId :=
      first_of meeting ["requestId"; "request_id"; "id"] (JStr "") in
    let duration :=
      first_of meeting ["duration"; "estimatedDuration"; "estimated_duration"]
        (JStr "N/A") in
    converts preferredDate
    && is_text preferredTime
    && is_text meetingDescription
    && display_converts (get meeting "meetingTypeDisplay") meetingType
    && display_converts (get meeting "statusDisplay") status
    && display_converts (get meeting "urgencyDisplay") priority
    && converts duration
    && converts requestId.

(** The filter callback of the weekly count returns: [new Date(m.timestamp)]
    converts a timestamp that is truthy. *)
Definition week_test_returns (m : json) : bool :=
  if negb (truthy m) then true
  else
    match get m "timestamp" with
    | Some ts => if truthy ts then converts ts else true
    | None => true
    end.

(** [updateDashboardStats] returns: the weekly filter returns for each
    meeting, and the three counters taken from a statistics object convert
    when they are written as the text of their elements (the counters
    computed from the list are numbers). *)
Definition counters_written (currentMeetings : list json)
    (dashboardStatistics : json) : bool :=
  forallb week_test_returns currentMeetings
  && (if truthy dashboardStatistics && typeof_object dashboardStatistics
      then
        converts (or_else (get dashboardStatistics "totalCount") (JNum 0))
        && converts
             (or_else (get dashboardStatistics "pendingCount") (JNum 0))
        && converts
             (or_else (get dashboardStatistics "approvedCount") (JNum 0))
      else true).

(** [renderMeetingsTable(); updateDashboardStats();] at the end of the
    [try] block return, on the dashboard page (which has the table body and
    the four counter elements). *)
Definition shows (currentMeetings : list json) (dashboardStatistics : json)
    : bool :=
  forallb row_renders currentMeetings
  && counters_written currentMeetings dashboardStatistics.

Definition getSampleMeetings : list json :=
  [ JObj
      [ ("requestId", JStr "req_001"); ("userName", JStr "John Smith");
        ("userEmail", JStr "john.smith@company.com");
        ("userPhone", JStr "+1 (555) 123-4567");
        ("userCompany", JStr "Tech Solutions Inc.");
        ("userPosition", JStr "Product Manager");
        ("meetingPurpose", JStr "Product Demo and Discussion");
        ("meetingDescription",
         JStr "Interested in our new platform features and integration possibilities.");
        ("preferredDate", JStr "2024-12-15"); ("preferredTime", JStr "14:00");
        ("estimatedDuration", JStr "60"); ("meetingType", JStr "online");
        ("location", JStr ""); ("urgency", JStr "high");
        ("additionalNotes", JStr "Prefer video call via Google Meet");
        ("status", JStr "pending");
        ("timestamp", JStr "2024-12-10T09:30:00Z") ];
    JObj
      [ ("requestId", JStr "req_002"); ("userName", JStr "Sarah Johnson");
        ("userEmail", JStr "sarah.j@example.com");
        ("userPhone", JStr "+1 (555) 987-6543");
        ("userCompany", JStr "Marketing Pro");
        ("userPosition", JStr "Marketing Director");
        ("meetingPurpose", JStr "Partnership Discussion");
        ("meetingDescription",
         JStr "Exploring potential collaboration opportunities.");
        ("preferredDate", JStr "2024-12-16"); ("preferredTime", JStr "10:30");
        ("estimatedDuration", JStr "90"); ("meetingType", JStr "offline");
        ("location", JStr "Office Building A, Conference Room 3");
        ("urgency", JStr "normal"); ("additionalNotes", JStr "");
        ("status", JStr "approved");
        ("timestamp", JStr "2024-12-09T14:15:00Z") ];
    JObj
      [ ("requestId", JStr "req_003"); ("userName", JStr "Mike Chen");
        ("userEmail", JStr "mike.chen@startup.io");
        ("userPhone", JStr "+1 (555) 456-7890");
        ("userCompany", JStr "Innovation Startup");
        ("userPosition", JStr "CTO");
        ("meetingPurpose", JStr "Technical Consultation");
        ("meetingDescription",
         JStr "Need advice on system architecture and scalability.");
        ("preferredDate", JStr "2024-12-14"); ("preferredTime", JStr "16:00");
        ("estimatedDuration", JStr "45"); ("meetingType", JStr "hybrid");
        ("location", JStr "Main Office + Online"); ("urgency", JStr "urgent");
        ("additionalNotes",
         JStr "Time-sensitive project decision required");
        ("status", JStr "rescheduled");
        ("timestamp", JStr "2024-12-08T11:20:00Z") ] ].

(** The globals [currentMeetings] and [dashboardStatistics] after
    [loadMeetings] got an answer of status 200 with the parsed body
    [result].  Both are assigned before the table is rendered and the
    counters are updated, inside the [try]; when one of these raises, which
    is a TypeError, the [catch] puts the sample meetings in place of the
    list and leaves the statistics as assigned. *)
Definition loaded (result : json) (testResult : option json)
    : list json * json :=
  let r := choose result testResult in
  let meetings := normalize r in
  let statistics := statistics_of r in
  if shows meetings statistics then (meetings, statistics)
  else (getSampleMeetings, statistics).

(** An object all of whose properties are strings, as a row of the sheet
    is. *)
Definition text_record (m : json) : Prop :=
  ∃ ps, m = JObj ps ∧ Forall (λ p, is_text p.2 = true) ps.

(** What [res.json] sends for a body of the webhook based list handler and
    [response.json()] reads back. *)
Definition encode (b : Webhook.body) : json :=
  JObj
    ([("success", JBool (Webhook.success b));
      ("meetings", JArr (Webhook.body_meetings b))]
     ++ from_option (λ v, [("statistics", v)]) [] (Webhook.body_statistics b)
     ++ from_option (λ v, [("lastUpdated", v)]) []
          (Webhook.body_lastUpdated b)
     ++ from_option (λ v, [("message", v)]) [] (Webhook.body_message b)
     ++ from_option (λ n, [("count", JNum (Z.of_nat n))]) []
          (Webhook.body_count b)
     ++ from_option (λ e, [("error", JStr e)]) [] (Webhook.body_error b)
     ++ from_option (λ d, [("details", JStr d)]) []
          (Webhook.body_details b)).

(** The answer of [GET /api/admin/meetings/test], as the dashboard reads
    it: one meeting, an object without properties. *)
Definition test_answer : json :=
  JObj [("success", JBool true); ("meetings", JArr [JObj []]);
        ("count", JNum 1);
        ("message",
         JStr "Using test data - your actual n8n data structure")].

(** What [res.json] sends for the statistics of [generateStatistics]. *)
Definition encode_stats (s : Sheets.stats) : json :=
  JObj
    [("total", JNum (Z.of_nat (Sheets.total s)));
     ("pending", JNum (Z.of_nat (Sheets.pending s)));
     ("approved", JNum (Z.of_nat (Sheets.approved s)));
     ("rejected", JNum (Z.of_nat (Sheets.rejected s)));
     ("rescheduled", JNum (Z.of_nat (Sheets.rescheduled s)));
     ("byPriority",
      JObj [("high", JNum (Z.of_nat (Sheets.high (Sheets.byPriority s))));
            ("medium", JNum (Z.of_nat (Sheets.medium (Sheets.byPriority s))));
            ("low", JNum (Z.of_nat (Sheets.low (Sheets.byPriority s))))]);
     ("byMeetingType",
      JObj
        [("online", JNum (Z.of_nat (Sheets.online (Sheets.byMeetingType s))));
         ("offline",
          JNum (Z.of_nat (Sheets.offline (Sheets.byMeetingType s))));
         ("hybrid",
          JNum (Z.of_nat (Sheets.hybrid (Sheets.byMeetingType s))))])].

(** A meeting of the sheet, as an object with string properties. *)
Definition encode_meeting (m : Sheets.meeting) : json :=
  JObj (prod_map id JStr <$> map_to_list m).

(** What the dashboard reads of the answer of the sheet based list handler
    ([success], [meetings], [statistics], [error]; the answer has no [json]
    and no [data] property). *)
Definition encode_sheet (a : SheetsService.answer) : json :=
  JObj
    ([("success", JBool (SheetsService.success a));
      ("meetings", JArr (encode_meeting <$> SheetsService.meetings a))]
     ++ from_option (λ s, [("statistics", encode_stats s)]) []
          (SheetsService.statistics a)
     ++ from_option (λ e, [("error", JStr e)]) [] (SheetsService.error a)).

(** The characters of a string. *)
Definition chars (s : string) : list ascii := list_ascii_of_string s.

(** [a === s] for a string [s]. *)
Definition is_string (a : json) (s : string) : bool :=
  match a with JStr s' => String.eqb s' s | _ => false end.

(** The callback of [currentMeetings.filter] in [applyFilters], on the
    values of the three select boxes. *)
Definition passes (statusFilter priorityFilter typeFilter : string)
    (meeting : json) : bool :=
  if negb (truthy meeting) then false
  else
    let status := or_else (get meeting "status") (JStr "pending") in
    let priority :=
      or_else (get meeting "priority")
        (or_else (get meeting "urgency") (JStr "normal")) in
    let meetingType :=
      or_else (get meeting "meetingType")
        (or_else (get meeting "meeting_type") (JStr "online")) in
    if nonempty statusFilter && negb (is_string status statusFilter)
    then false
    else if nonempty priorityFilter
            && negb (is_string priority priorityFilter) then false
    else if nonempty typeFilter && negb (is_string meetingType typeFilter)
    then false
    else true.

(** [applyFilters]: the new [filteredMeetings]. *)
Definition applyFilters (statusFilter priorityFilter typeFilter : string)
    (currentMeetings : json) : list json :=
  filter (λ m, passes statusFilter priorityFilter typeFilter m = true)
         (Dashboard.as_list currentMeetings).

(** [clearFilters]: the new [filteredMeetings]. *)
Definition clearFilters (currentMeetings : json) : list json :=
  Dashboard.as_list currentMeetings.

(** What [currentMeetings.find(m => ...)] comes to, for a callback that
    reads properties of [m]: on a [null] element the read raises. *)
Inductive found : Type :=
| Raised
| NotFound
| Found (meeting : json).

Fixpoint find (test : json → bool) (ms : list json) : found :=
  match ms with
  | [] => NotFound
  | JNull :: _ => Raised
  | m :: rest => if test m then Found m else find test rest
  end.

Definition has_id (k requestId : string) (m : json) : bool :=
  match get m k with Some v => is_string v requestId | None => false end.

(** The [find] of [viewMeeting]. *)
Definition viewMeeting (requestId : string) (ms : list json) : found :=
  find (λ m, has_id "requestId" requestId m
             || has_id "request_id" requestId m || has_id "id" requestId m)
       ms.

(** The [find] of [showActionModal]. *)
Definition showActionModal (requestId : string) (ms : list json) : found :=
  find (has_id "requestId" requestId) ms.

(** The id [renderMeetingsTable] writes into the buttons of a row:
    [meeting.requestId || meeting.request_id || meeting.id || '']. *)
Definition row_id (meeting : json) : json :=
  or_else (get meeting "requestId")
    (or_else (get meeting "request_id")
       (or_else (get meeting "id") (JStr ""))).

(** The replacement of one character in [escapeHtml]. *)
Definition escape_char (c : ascii) : string :=
  if Ascii.eqb c "&" then "&amp;"
  else if Ascii.eqb c "<" then "&lt;"
  else if Ascii.eqb c ">" then "&gt;"
  else if Ascii.eqb c Csv.dquote then "&quot;"
  else if Ascii.eqb c "'" then "&#039;"
  else String c EmptyString.

Fixpoint escape (s : string) : string :=
  match s with
  | EmptyString => EmptyString
  | String c rest => escape_char c +:+ escape rest
  end.

Definition escapeHtml (text : json) : string :=
  match text with
  | JStr s => if nonempty s then escape s else ""
  | _ => ""
  end.

End Panel.

(** ** Counting meetings, to compare [generateStatistics] with *)

Module Tally.

Import Sheets.

(** The status, priority and type a meeting is counted under: the property
    in lower case, and the default when it is missing or empty. *)
Definition status_of (m : meeting) : string := lowered m "status" "pending".
Definition priority_of (m : meeting) : string := lowered m "urgency" "medium".
Definition type_of (m : meeting) : string := lowered m "meetingType" "online".

(** The number of meetings counted under [name]. *)
Definition count (key : meeting → string) (name : string)
    (ms : list meeting) : nat :=
  length (filter (λ m, String.eqb (key m) name = true) ms).

(** The counters by plain counting. *)
Definition tally (ms : list meeting) : stats :=
  Stats (length ms + count status_of "total" ms)
        (count status_of "pending" ms) (count status_of "approved" ms)
        (count status_of "rejected" ms) (count status_of "rescheduled" ms)
        (Priorities (count priority_of "high" ms)
                    (count priority_of "medium" ms)
                    (count priority_of "low" ms))
        (MeetingTypes (count type_of "online" ms)
                      (count type_of "offline" ms)
                      (count type_of "hybrid" ms)).

(** Counter by counter sum. *)
Definition add (a b : stats) : stats :=
  Stats (total a + total b) (pending a + pending b)
        (approved a + approved b) (rejected a + rejected b)
        (rescheduled a + rescheduled b)
        (Priorities (high (byPriority a) + high (byPriority b))
                    (medium (byPriority a) + medium (byPriority b))
                    (low (byPriority a) + low (byPriority b)))
        (MeetingTypes (online (byMeetingType a) + online (byMeetingType b))
                      (offline (byMeetingType a) + offline (byMeetingType b))
                      (hybrid (byMeetingType a) + hybrid (byMeetingType b))).

End Tally.

(** ** The property a column is stored under *)

Module Columns.

(** The property the switch assigns for a header, and the value it assigns
    for a cell. *)
Definition store_key (header : string) : string :=
  match Sheets.canonical header with
  | Some property => property
  | None => Sheets.fallback_name header
  end.

Definition store_value (header value : string) : string :=
  match Sheets.canonical header with
  | Some property => Sheets.stored_value property value
  | None => value
  end.

(** The rounds of [headers.forEach] over some columns, each with its
    index, from an object [m]. *)
Definition columns_from (row : list string) (m : gmap string string)
    (columns : list (nat * string)) : gmap string string :=
  foldl (λ m '(colIndex, header),
           Sheets.store header (Sheets.cell row colIndex) m)
        m columns.

(** A row without content: every cell is the empty string. *)
Definition blank_row (row : list string) : Prop :=
  Forall (λ cell, cell = "") row.

End Columns.

(** * Properties *)

(** ** The response normaliser *)

Section Normaliser.

Import Webhook.

Lemma has_array_property d k :
  has_array d k = bool_decide (is_Some (Spec.array_property d k)).
Proof.
  unfold has_array, Spec.array_property.
  destruct (get d k) as [[]|]; simpl; try reflexivity.
  - destruct b; reflexivity.
  - destruct (negb _); reflexivity.
  - destruct (negb _); reflexivity.
Qed.

Lemma has_array_elements d k records :
  Spec.array_property d k = Some records →
  has_array d k = true ∧ elements (get d k) = records.
Proof.
  intros H. rewrite has_array_property, H. split; [done|].
  unfold Spec.array_property in H.
  destruct (get d k) as [[]|]; simpl in *; congruence.
Qed.

Lemma has_array_none d k :
  Spec.array_property d k = None → has_array d k = false.
Proof.
  intros H. rewrite has_array_property, H. apply bool_decide_eq_false.
  by intros [? ?].
Qed.

(** The unwrapping of the handler is the one-level descent. *)
Lemma unwrap_json_descend payload :
  unwrap_json payload = Spec.descend payload.
Proof.
  unfold unwrap_json, Spec.descend.
  destruct (get payload "json") as [[| b | n | s | l | qs]|]; simpl;
    rewrite ?andb_false_r; reflexivity.
Qed.

(** On an array the chain stops at its first test. *)
Lemma extract_object_array records :
  extract_object (JArr records) = with_meetings records.
Proof. reflexivity. Qed.

(** The five property tests, in their order. *)
Lemma extract_object_first_property d records :
  isArray d = false →
  Spec.first_array_property d
    ["meetings"; "data"; "items"; "response"; "result"] = Some records →
  meetings (extract_object d) = records.
Proof.
  intros Hd H. unfold extract_object. rewrite Hd. simpl in H.
  repeat
    match type of H with
    | match Spec.array_property d ?k with _ => _ end = _ =>
        let E := fresh "E" in
        destruct (Spec.array_property d k) as [l|] eqn:E;
        [ apply has_array_elements in E as [-> E]; simpl; congruence
        | rewrite (has_array_none _ _ E) ]
    end.
  discriminate.
Qed.

Lemma extract_known_shape payload records :
  Spec.known_shape_records payload = Some records →
  meetings (extract payload) = records.
Proof.
  destruct payload as [| | | |items|ps]; simpl; try discriminate.
  - intros [= <-]. reflexivity.
  - intros H. unfold extract. simpl.
    rewrite unwrap_json_descend.
    destruct (Spec.descend (JObj ps)) as [| | | |l|qs] eqn:E;
      try (apply extract_object_first_property; [reflexivity|exact H]).
    injection H as <-. reflexivity.
Qed.

(** Each shape on its own, for a payload with nothing else in it. *)
Lemma extract_bare_array records :
  extract (JArr records) = with_meetings records.
Proof. reflexivity. Qed.

Lemma extract_single_property k records :
  k ∈ ["data"; "items"; "response"; "result"] →
  extract (JObj [(k, JArr records)]) = with_meetings records.
Proof.
  rewrite !elem_of_cons, elem_of_nil.
  intros [->|[->|[->|[->|[]]]]]; reflexivity.
Qed.

Lemma extract_meetings_property records :
  meetings (extract (JObj [("meetings", JArr records)])) = records.
Proof. reflexivity. Qed.

(** Unwrapping happens once: a payload whose [json] property is an object
    or array that has no such property itself is read as that value. *)
Lemma extract_descend ps inner :
  get (JObj ps) "json" = Some inner →
  truthy inner && typeof_object inner = true →
  unwrap_json inner = inner →
  extract (JObj ps) = extract inner.
Proof.
  intros Hj Hobj Hin. unfold extract at 1. simpl.
  unfold unwrap_json at 1. rewrite Hj, Hobj.
  destruct inner as [| | | |l|qs]; simpl in Hobj;
    rewrite ?andb_false_r in Hobj; try discriminate Hobj.
  - reflexivity.
  - unfold extract. simpl. by rewrite Hin.
Qed.

End Normaliser.

Section AdminList.

Import Webhook.

Lemma scan_entries_none es :
  forallb (λ p, negb (Spec.candidate p.2)) es = true →
  scan_entries es = [].
Proof.
  induction es as [|[k v] es IH]; simpl; [done|].
  intros [Hv Hes]%andb_true_iff. specialize (IH Hes).
  destruct v as [| | | |[|first rest]|]; simpl in *; try exact IH.
  apply negb_true_iff in Hv. by rewrite Hv.
Qed.

Lemma first_array_property_none d :
  Spec.first_array_property d
    ["meetings"; "data"; "items"; "response"; "result"] = None →
  Forall (λ k, has_array d k = false)
    ["meetings"; "data"; "items"; "response"; "result"].
Proof.
  simpl. intros H.
  repeat
    match type of H with
    | match Spec.array_property d ?k with _ => _ end = _ =>
        let E := fresh "E" in
        destruct (Spec.array_property d k) eqn:E; [discriminate H|];
        apply has_array_none in E
    end.
  repeat constructor; assumption.
Qed.

Lemma descend_object ps :
  (∃ l, Spec.descend (JObj ps) = JArr l)
  ∨ (∃ qs, Spec.descend (JObj ps) = JObj qs).
Proof.
  unfold Spec.descend.
  destruct (get (JObj ps) "json") as [[]|]; eauto.
Qed.

(** A payload that matches nothing leaves the four variables as they were
    initialised. *)
Lemma extract_unmatched payload :
  Spec.unmatched payload = true → extract payload = initial.
Proof.
  destruct payload as [|b|n|s|l|ps]; intros H.
  - reflexivity.
  - unfold extract. simpl. by destruct b.
  - unfold extract. simpl. by destruct (negb _).
  - unfold extract. simpl. by destruct (negb _).
  - discriminate H.
  - unfold Spec.unmatched, Spec.known_shape_records in H.
    unfold extract. simpl truthy. simpl isArray. simpl typeof_object.
    cbv iota. simpl andb. cbv iota. rewrite unwrap_json_descend.
    destruct (descend_object ps) as [[l E]|[qs E]]; rewrite E in *;
      [discriminate H|].
    destruct (Spec.first_array_property _ _) eqn:F; [discriminate H|].
    apply first_array_property_none in F.
    repeat
      match goal with
      | F : Forall _ (_ :: _) |- _ => apply Forall_cons_1 in F as [? F]
      end.
    unfold extract_object. simpl isArray. cbv iota.
    repeat
      match goal with
      | Hk : has_array _ _ = false |- _ => rewrite Hk; clear Hk
      end.
    apply orb_true_iff in H as [->|[Hs Hc]%andb_true_iff]; [reflexivity|].
    apply negb_true_iff in Hs. rewrite Hs.
    rewrite (scan_entries_none _ Hc).
    by destruct (is_workflow_started _).
Qed.

End AdminList.

Section AdminListClaims.

Import Webhook.

Lemma get_admin_meetings_resolved url status payload :
  Spec.configured url = true →
  http_body (get_admin_meetings url (Resolved status payload)) =
  let e := extract payload in
  {| success := true; body_meetings := meetings e;
     body_statistics := Some (statistics e);
     body_lastUpdated := lastUpdated e;
     body_message :=
       Some (if truthy (message e) then message e
             else success_message (meetings e));
     body_count := Some (length (meetings e));
     body_error := None; body_details := None |}.
Proof. destruct url as [[|c u]|]; [discriminate|reflexivity|discriminate]. Qed.

(** The handler has no path that sets a status: every answer is a 200. *)
Lemma get_admin_meetings_status url fetch :
  http_status (get_admin_meetings url fetch) = 200.
Proof. destruct url as [[|c u]|], fetch; reflexivity. Qed.

(** The reply to "Workflow was started" is, property by property, the reply
    to an empty array. *)
Lemma workflow_started_like_empty_list url status :
  get_admin_meetings url
    (Resolved status (JObj [("message", JStr "Workflow was started")])) =
  get_admin_meetings url (Resolved status (JArr [])).
Proof. destruct url as [[|c u]|]; reflexivity. Qed.

(** No function of the answer tells the reply to an unmatched payload from
    the reply to a list that is empty. *)
Lemma no_indicator_tells_unmatched_from_empty url status :
  ¬ ∃ indicator : http_response → bool,
      indicator
        (get_admin_meetings url
           (Resolved status (JObj [("message", JStr "Workflow was started")])))
      = true
      ∧ indicator (get_admin_meetings url (Resolved status (JArr [])))
        = false.
Proof.
  intros (indicator & H1 & H2).
  rewrite workflow_started_like_empty_list in H1. congruence.
Qed.

(** The properties next to a [json] object are not read: the unwrapping
    comes before the property tests. *)
Lemma extract_json_before_siblings records :
  meetings (extract (JObj [("json", JObj [("note", JStr "n")]);
                           ("meetings", JArr records)])) = [].
Proof. reflexivity. Qed.

(** C1: a payload that is a bare array, or an object that (after the one
    unwrapping of a nested [json] object) is an array or has an array-typed
    [meetings], [data], [items], [response] or [result] property, yields
    exactly the records of the first shape that matches in this order, in
    their order: in the variable [meetings] and in the answer's [meetings]. *)
Theorem normalizer_returns_known_shape_records
    (payload : json) (records : list json) :
  Spec.known_shape_records payload = Some records →
  meetings (extract payload) = records
  ∧ ∀ url status,
      Spec.configured url = true →
      body_meetings
        (http_body (get_admin_meetings url (Resolved status payload)))
      = records.
Proof.
  intros H. apply extract_known_shape in H. split; [exact H|].
  intros url status Hurl.
  rewrite (get_admin_meetings_resolved _ _ _ Hurl). exact H.
Qed.

Lemma normalizer_returns_known_shape_records_witness :
  let payload :=
    JObj [("count", JNum 2); ("items", JArr [JStr "a"; JStr "b"]);
          ("result", JArr [JStr "c"])] in
  Spec.known_shape_records payload = Some [JStr "a"; JStr "b"]
  ∧ meetings (extract payload) = [JStr "a"; JStr "b"].
Proof.
  split; [reflexivity|].
  apply (normalizer_returns_known_shape_records
           (JObj [("count", JNum 2); ("items", JArr [JStr "a"; JStr "b"]);
                  ("result", JArr [JStr "c"])])).
  reflexivity.
Defined.

(** C10: the payload [{json: {meetings: records}}] is unwrapped one level
    and yields [records]; the unwrapped value [{meetings: records}] yields
    the same, and the two are read alike in all four variables. *)
Theorem normalizer_unwraps_json_once (records : list json) :
  let inner := JObj [("meetings", JArr records)] in
  let wrapped := JObj [("json", inner)] in
  unwrap_json wrapped = inner
  ∧ unwrap_json inner = inner
  ∧ meetings (extract wrapped) = records
  ∧ meetings (extract inner) = records
  ∧ extract wrapped = extract inner.
Proof. repeat split; reflexivity. Qed.

(** The claim C2 as it is written fails: the "Workflow was started" reply is
    answered with an empty list, [success: true] and no [error]. *)
Lemma admin_list_unmatched_has_no_indicator :
  ¬ (∀ (url : option string) (fetch : fetch_result),
       Spec.configured url = true →
       match fetch with
       | Resolved _ payload => Spec.unmatched payload = true
       | Rejected _ => True
       end →
       let r := get_admin_meetings url fetch in
       body_meetings (http_body r) = []
       ∧ Spec.error_indicator (http_body r) = true
       ∧ http_status r = 200).
Proof.
  intros H.
  specialize
    (H (Some "http://localhost:5678/webhook/admin-meetings")
       (Resolved 200 (JObj [("message", JStr "Workflow was started")]))
       eq_refl eq_refl).
  destruct H as (_ & H & _). vm_compute in H. discriminate H.
Qed.

(** C2, amended: every answer of the admin list is a 200 (the handler is a
    total function: nothing is raised to the caller).  When the call to the
    webhook fails, the answer has [success: false], an empty list, and the
    [error] and [details] properties.  When the payload matches no
    structure, the answer has an empty list with [success: true], no
    [error], and the message of a successful load of 0 meetings. *)
Theorem admin_list_soft_failure
    (url : option string) (fetch : fetch_result) :
  Spec.configured url = true →
  let r := get_admin_meetings url fetch in
  http_status r = 200
  ∧ (∀ msg, fetch = Rejected msg →
       http_body r =
       {| success := false; body_meetings := []; body_statistics := None;
          body_lastUpdated := None; body_message := None;
          body_count := None;
          body_error := Some "Failed to fetch meetings from n8n";
          body_details := Some msg |}
       ∧ Spec.error_indicator (http_body r) = true)
  ∧ (∀ status payload,
       fetch = Resolved status payload →
       Spec.unmatched payload = true →
       http_body r =
       {| success := true; body_meetings := [];
          body_statistics := Some (JObj []);
          body_lastUpdated := Some JNull;
          body_message := Some (JStr "Successfully loaded 0 meetings");
          body_count := Some 0; body_error := None; body_details := None |}
       ∧ Spec.error_indicator (http_body r) = false).
Proof.
  intros Hurl r. split; [apply get_admin_meetings_status|]. split.
  - intros msg ->. subst r.
    destruct url as [[|c u]|]; [discriminate| |discriminate].
    split; reflexivity.
  - intros status payload -> Hun. subst r.
    rewrite (get_admin_meetings_resolved _ _ _ Hurl).
    rewrite (extract_unmatched _ Hun). split; reflexivity.
Qed.

Lemma admin_list_soft_failure_witness :
  Spec.configured (Some "http://localhost:5678/webhook/admin-meetings") = true
  ∧ Spec.unmatched (JObj [("customData", JArr [JNum 1; JNum 2])]) = true
  ∧ body_meetings
      (http_body
         (get_admin_meetings
            (Some "http://localhost:5678/webhook/admin-meetings")
            (Resolved 200 (JObj [("customData", JArr [JNum 1; JNum 2])]))))
    = [].
Proof.
  split; [reflexivity|]. split; [reflexivity|].
  destruct (admin_list_soft_failure
              (Some "http://localhost:5678/webhook/admin-meetings")
              (Resolved 200 (JObj [("customData", JArr [JNum 1; JNum 2])]))
              eq_refl) as (_ & _ & H).
  destruct (H 200 _ eq_refl eq_refl) as [Hb _].
  rewrite Hb. reflexivity.
Defined.

End AdminListClaims.

(** ** The row decoder *)

Section RowDecoder.

Import Sheets.

Lemma nonempty_true s : nonempty s = true ↔ s ≠ "".
Proof.
  unfold nonempty. rewrite negb_true_iff. apply String.eqb_neq.
Qed.

Lemma nonempty_false s : nonempty s = false ↔ s = "".
Proof.
  unfold nonempty. rewrite negb_false_iff. apply String.eqb_eq.
Qed.

Lemma filled_nonblank m k : filled m k = true ↔ Spec.nonblank m k.
Proof.
  unfold filled, has, Spec.nonblank. split.
  - destruct (m !! k) as [v|]; [|discriminate].
    intros [_ Hv]%andb_true_iff. exists v. split; [done|].
    by apply nonempty_true.
  - intros (v & -> & Hv). simpl. apply andb_true_iff. split.
    + apply nonempty_true. intros ->. by apply Hv.
    + by apply nonempty_true.
Qed.

Lemma isValid_valid m : isValid m = true ↔ Spec.valid m.
Proof.
  unfold isValid, Spec.valid.
  rewrite !andb_true_iff, !filled_nonblank. tauto.
Qed.

Lemma elem_of_decode headers clock dataRows m :
  m ∈ decode headers clock dataRows ↔
  Spec.valid m ∧ m ∈ imap (decode_row headers clock) dataRows.
Proof.
  unfold decode. rewrite list_elem_of_filter, isValid_valid. done.
Qed.

(** C4: every record the decoder returns has [userName], [userEmail] and
    [meetingPurpose] non-empty after trimming; a converted row that is not
    valid is nowhere in the result, a valid one is; and the result is the
    converted rows in their order with the others left out. *)
Theorem row_decoder_keeps_valid_rows
    (headers : list string) (clock : nat → string)
    (dataRows : list (list string)) :
  let converted := imap (decode_row headers clock) dataRows in
  let result := decode headers clock dataRows in
  Forall Spec.valid result
  ∧ (∀ m, m ∈ converted → ¬ Spec.valid m → m ∉ result)
  ∧ (∀ m, m ∈ converted → Spec.valid m → m ∈ result)
  ∧ result `sublist_of` converted.
Proof.
  intros converted result. repeat split.
  - apply Forall_forall. intros m Hm.
    by apply elem_of_decode in Hm as [? _].
  - intros m _ Hinv Hm. by apply elem_of_decode in Hm as [? _].
  - intros m Hm Hv. by apply elem_of_decode.
  - apply sublist_filter.
Qed.

Lemma row_decoder_keeps_valid_rows_witness :
  let headers := ["User_Name"; "User_Email"; "Meeting_Purpose"] in
  let clock := λ _ : nat, "2025-09-01T10:00:00.000Z" in
  let dataRows := [["Ann"; "ann@x.com"; "Demo"]; [""; "bob@x.com"; "Call"]] in
  decode_row headers clock 1 [""; "bob@x.com"; "Call"]
    ∈ imap (decode_row headers clock) dataRows
  ∧ ¬ Spec.valid (decode_row headers clock 1 [""; "bob@x.com"; "Call"])
  ∧ decode_row headers clock 1 [""; "bob@x.com"; "Call"]
      ∉ decode headers clock dataRows.
Proof.
  intros headers clock dataRows.
  assert (H1 : decode_row headers clock 1 [""; "bob@x.com"; "Call"]
               ∈ imap (decode_row headers clock) dataRows).
  { by apply (elem_of_lookup_imap_2 _ dataRows _ 1). }
  assert (H2 : ¬ Spec.valid
                 (decode_row headers clock 1 [""; "bob@x.com"; "Call"])).
  { intros [(v & Hv & Hne) _]. vm_compute in Hv.
    injection Hv as <-. by apply Hne. }
  split; [exact H1|]. split; [exact H2|].
  exact (proj1 (proj2 (row_decoder_keeps_valid_rows headers clock dataRows))
           _ H1 H2).
Defined.

End RowDecoder.

Section Defaults.

Import Sheets.

Lemma field_or_blank m k b : Spec.blank m k → field_or m k b = b.
Proof. unfold field_or. by intros [->| ->]. Qed.

Lemma field_or_supplied m k b v :
  m !! k = Some v → v ≠ "" → field_or m k b = v.
Proof.
  unfold field_or. intros -> Hv. apply nonempty_true in Hv. by rewrite Hv.
Qed.

Lemma field_or_nonempty m k b : b ≠ "" → field_or m k b ≠ "".
Proof.
  unfold field_or. intros Hb.
  destruct (m !! k) as [v|]; [|done].
  destruct (nonempty v) eqn:E; [|done]. by apply nonempty_true.
Qed.

Lemma field_or_insert_ne (m : gmap string string) k k' v b :
  k' ≠ k → field_or (<[k' := v]> m) k b = field_or m k b.
Proof. intros H. unfold field_or. by rewrite lookup_insert_ne. Qed.

Lemma apply_defaults_requestId index now (m : gmap string string) :
  apply_defaults index now m !! "requestId"
  = Some (field_or m "requestId" (synthesized_id index)).
Proof.
  unfold apply_defaults.
  rewrite !lookup_insert_ne by discriminate. apply lookup_insert_eq.
Qed.

Lemma apply_defaults_status index now (m : gmap string string) :
  apply_defaults index now m !! "status"
  = Some (field_or m "status" "Pending").
Proof.
  unfold apply_defaults.
  rewrite lookup_insert_ne by discriminate. rewrite lookup_insert_eq.
  by rewrite field_or_insert_ne by discriminate.
Qed.

Lemma apply_defaults_timestamp index now (m : gmap string string) :
  apply_defaults index now m !! "timestamp"
  = Some (field_or m "timestamp" (field_or m "createdDate" now)).
Proof.
  unfold apply_defaults. rewrite lookup_insert_eq.
  by rewrite !field_or_insert_ne by discriminate.
Qed.

Lemma apply_defaults_other index now (m : gmap string string) k :
  k ∉ ["requestId"; "status"; "timestamp"] →
  apply_defaults index now m !! k = m !! k.
Proof.
  rewrite !not_elem_of_cons. intros (? & ? & ? & _).
  unfold apply_defaults. by rewrite !lookup_insert_ne.
Qed.

(** C6: after a row is converted, a blank status is ["Pending"], a blank
    requestId is the synthesized [sheet_<index + 1>], a blank timestamp is
    the createdDate when that is not blank and else the current time; a
    value that is not blank is kept.  The headers
    [Request_ID, User_Name, User_Email, Meeting_Purpose, Status] with the
    row [R1, Ann, ann@x.com, Demo, ""] give one record, of status
    ["Pending"]. *)
Theorem row_decoder_applies_defaults
    (headers : list string) (clock : nat → string) (index : nat)
    (row : list string) :
  let raw := map_columns headers row in
  let m := decode_row headers clock index row in
  (Spec.blank raw "status" → m !! "status" = Some "Pending")
  ∧ (Spec.blank raw "requestId" →
       m !! "requestId" = Some ("sheet_" +:+ pretty (index + 1)))
  ∧ (Spec.blank raw "timestamp" →
       ∀ created, raw !! "createdDate" = Some created → created ≠ "" →
       m !! "timestamp" = Some created)
  ∧ (Spec.blank raw "timestamp" → Spec.blank raw "createdDate" →
       m !! "timestamp" = Some (clock index))
  ∧ (∀ k v, k ∈ ["status"; "requestId"; "timestamp"] →
       raw !! k = Some v → v ≠ "" → m !! k = Some v)
  ∧ (∃ status, m !! "status" = Some status ∧ status ≠ "")
  ∧ (∃ id, m !! "requestId" = Some id ∧ id ≠ "")
  ∧ (let example_headers :=
       ["Request_ID"; "User_Name"; "User_Email"; "Meeting_Purpose"; "Status"] in
     let example_row := ["R1"; "Ann"; "ann@x.com"; "Demo"; ""] in
     let record := decode_row example_headers clock 0 example_row in
     decode example_headers clock [example_row] = [record]
     ∧ record !! "status" = Some "Pending"
     ∧ record !! "requestId" = Some "R1"
     ∧ record !! "userName" = Some "Ann").
Proof.
  intros raw m. subst m. unfold decode_row. fold raw.
  split; [|split; [|split; [|split; [|split; [|split; [|split]]]]]].
  - intros H. by rewrite apply_defaults_status, field_or_blank.
  - intros H. by rewrite apply_defaults_requestId, field_or_blank.
  - intros H created Hc Hne.
    rewrite apply_defaults_timestamp, field_or_blank by done.
    by rewrite (field_or_supplied _ _ _ _ Hc Hne).
  - intros H Hc. by rewrite apply_defaults_timestamp, !field_or_blank.
  - intros k v Hk Hv Hne. rewrite !elem_of_cons, elem_of_nil in Hk.
    destruct Hk as [->|[->|[->|[]]]].
    + by rewrite apply_defaults_status, (field_or_supplied _ _ _ _ Hv Hne).
    + by rewrite apply_defaults_requestId, (field_or_supplied _ _ _ _ Hv Hne).
    + by rewrite apply_defaults_timestamp, (field_or_supplied _ _ _ _ Hv Hne).
  - eexists. split; [apply apply_defaults_status|].
    by apply field_or_nonempty.
  - eexists. split; [apply apply_defaults_requestId|].
    by apply field_or_nonempty.
  - cbv zeta. split; [|split; [|split]].
    + unfold decode. cbn [imap]. rewrite filter_cons_True.
      * reflexivity.
      * vm_compute. reflexivity.
    + vm_compute. reflexivity.
    + vm_compute. reflexivity.
    + vm_compute. reflexivity.
Qed.

Lemma row_decoder_applies_defaults_witness :
  let headers := ["Request_ID"; "User_Name"; "Created_Date"] in
  let clock := λ _ : nat, "2025-09-01T10:00:00.000Z" in
  let row := [""; "Ann"; "2025-08-30"] in
  Spec.blank (map_columns headers row) "status"
  ∧ Spec.blank (map_columns headers row) "requestId"
  ∧ decode_row headers clock 4 row !! "status" = Some "Pending"
  ∧ decode_row headers clock 4 row !! "requestId" = Some "sheet_5".
Proof.
  intros headers clock row.
  assert (H1 : Spec.blank (map_columns headers row) "status").
  { left. vm_compute. reflexivity. }
  assert (H2 : Spec.blank (map_columns headers row) "requestId").
  { right. vm_compute. reflexivity. }
  split; [exact H1|]. split; [exact H2|].
  destruct (row_decoder_applies_defaults headers clock 4 row)
    as (Hs & Hr & _).
  split; [exact (Hs H1)|exact (Hr H2)].
Defined.

End Defaults.

(** ** The header switch *)

Section Aliaser.

Import Sheets.

Lemma switch_case_elem table header property :
  switch_case table header = Some property → (header, property) ∈ table.
Proof.
  induction table as [|[label p] table IH]; simpl; [done|].
  destruct (String.eqb header label) eqn:E.
  - apply String.eqb_eq in E as ->. intros [= ->]. apply list_elem_of_here.
  - intros H. apply list_elem_of_further. by apply IH.
Qed.

Lemma switch_case_none table header :
  switch_case table header = None ↔ header ∉ table.*1.
Proof.
  induction table as [|[label p] table IH]; simpl.
  - split; [intros _; apply not_elem_of_nil|done].
  - rewrite not_elem_of_cons.
    destruct (String.eqb header label) eqn:E.
    + apply String.eqb_eq in E. split; [done|]. by intros [? _].
    + apply String.eqb_neq in E. rewrite IH. tauto.
Qed.

Lemma switch_case_unique table header property :
  NoDup table.*1 → (header, property) ∈ table →
  switch_case table header = Some property.
Proof.
  induction table as [|[label p] table IH]; simpl.
  - intros _ H. by apply elem_of_nil in H.
  - intros [Hl Hnd]%NoDup_cons [[= -> ->]|Hin]%elem_of_cons.
    + by rewrite String.eqb_refl.
    + destruct (String.eqb header label) eqn:E; [|by apply IH].
      apply String.eqb_eq in E as ->. exfalso. apply Hl.
      apply list_elem_of_fmap. by exists (label, property).
Qed.

(** No [case] label is written twice. *)
Lemma header_table_labels : NoDup header_table.*1.
Proof. apply (bool_decide_unpack _). vm_compute. exact I. Qed.

(** What the switch does to the object: one property is set. *)
Lemma store_insert header value (m : gmap string string) :
  store header value m =
  match canonical header with
  | Some property => <[property := stored_value property value]> m
  | None => <[fallback_name header := value]> m
  end.
Proof. reflexivity. Qed.

(** The header [request_id] is no [case] label: its cell goes to the
    property [requestid], and the record gets a synthesized id. *)
Lemma request_id_header_not_recognised clock :
  canonical "request_id" = None
  ∧ map_columns ["request_id"] ["R1"] !! "requestId" = None
  ∧ map_columns ["request_id"] ["R1"] !! "requestid" = Some "R1"
  ∧ decode_row ["request_id"] clock 0 ["R1"] !! "requestId" = Some "sheet_1".
Proof. repeat split; vm_compute; reflexivity. Qed.

(** The claim C5 as it is written fails: [request_id] differs from the
    label [Request_ID] in case only, and does not reach [requestId]. *)
Lemma aliaser_is_case_sensitive :
  ¬ (∀ label property header,
       (label, property) ∈ header_table →
       Spec.same_name header label →
       canonical header = Some property).
Proof.
  intros H.
  assert (Hin : ("Request_ID", "requestId") ∈ header_table)
    by apply list_elem_of_here.
  specialize (H "Request_ID" "requestId" "request_id" Hin eq_refl).
  vm_compute in H. discriminate H.
Qed.

(** C5, amended: a header is recognised by its exact spelling.  A header
    that is one of the [case] labels sets the property of that label (to the
    cell, but for the status and urgency defaults); every other header,
    a case or separator variant of a label too, sets the property named by
    the header in lower case without underscores to the cell as it is.  No
    other property changes. *)
Theorem aliaser_exact_label_or_fallback
    (header value : string) (m : gmap string string) :
  (∀ property,
     (header, property) ∈ header_table →
     canonical header = Some property
     ∧ store header value m !! property = Some (stored_value property value)
     ∧ (property ∉ ["status"; "urgency"] →
        store header value m !! property = Some value)
     ∧ ∀ k, k ≠ property → store header value m !! k = m !! k)
  ∧ (header ∉ header_table.*1 →
     canonical header = None
     ∧ store header value m
         !! strip_underscores (toLowerCase header) = Some value
     ∧ ∀ k, k ≠ strip_underscores (toLowerCase header) →
            store header value m !! k = m !! k).
Proof.
  split.
  - intros property Hin.
    pose proof (switch_case_unique _ _ _ header_table_labels Hin) as Hc.
    fold (canonical header) in Hc. rewrite store_insert, Hc.
    split; [done|]. split; [apply lookup_insert_eq|]. split.
    + rewrite !not_elem_of_cons. intros (Hs & Hu & _).
      rewrite lookup_insert_eq. unfold stored_value.
      apply String.eqb_neq in Hs, Hu. by rewrite Hs, Hu.
    + intros k Hk. by rewrite lookup_insert_ne.
  - intros Hout. apply switch_case_none in Hout.
    fold (canonical header) in Hout. rewrite store_insert, Hout.
    split; [done|]. split; [apply lookup_insert_eq|].
    intros k Hk. by rewrite lookup_insert_ne.
Qed.

Lemma aliaser_exact_label_or_fallback_witness :
  ("Meeting_Room" ∉ header_table.*1)
  ∧ store "Meeting_Room" "B12" ∅ !! "meetingroom" = Some "B12".
Proof.
  assert (H : "Meeting_Room" ∉ header_table.*1).
  { apply (bool_decide_unpack _). vm_compute. exact I. }
  split; [exact H|].
  exact (proj1 (proj2 (proj2 (aliaser_exact_label_or_fallback
                                "Meeting_Room" "B12" ∅) H))).
Defined.

End Aliaser.

(** ** Request ids *)

Section RequestIds.

Import Sheets.

Lemma NoDup_omap_lookup {A B} (f : A → option B) (l : list A) i j x y z :
  NoDup (omap f l) →
  l !! i = Some x → l !! j = Some y → f x = Some z → f y = Some z →
  i = j.
Proof.
  revert i j. induction l as [|a l IH]; intros i j Hnd Hi Hj Hx Hy.
  - by rewrite lookup_nil in Hi.
  - assert (Hin : ∀ k w, l !! k = Some w → f w = Some z → z ∈ omap f l).
    { intros k w Hk Hw. apply list_elem_of_omap. exists w. split; [|done].
      by apply list_elem_of_lookup_2 in Hk. }
    simpl in Hnd. destruct i as [|i], j as [|j]; simpl in Hi, Hj.
    + done.
    + injection Hi as ->. rewrite Hx in Hnd.
      apply NoDup_cons in Hnd as [Hz _]. destruct Hz. eauto.
    + injection Hj as ->. rewrite Hy in Hnd.
      apply NoDup_cons in Hnd as [Hz _]. destruct Hz. eauto.
    + f_equal. apply IH; try done.
      destruct (f a); [by apply NoDup_cons in Hnd as [_ ?]|done].
Qed.

(** The id of a converted row: the one the sheet supplies, else the
    synthesized one. *)
Lemma decode_row_requestId headers clock index row :
  Spec.requestId (decode_row headers clock index row) =
  match Spec.supplied_id headers row with
  | Some id => id
  | None => "sheet_" +:+ pretty (index + 1)
  end.
Proof.
  unfold Spec.requestId, decode_row. rewrite apply_defaults_requestId.
  simpl. unfold field_or, Spec.supplied_id.
  destruct (map_columns headers row !! "requestId") as [v|]; [|done].
  by destruct (nonempty v).
Qed.

Lemma synthesized_id_inj i j :
  "sheet_" +:+ pretty (i + 1) = "sheet_" +:+ pretty (j + 1) → i = j.
Proof.
  intros H. apply (inj (String.app "sheet_")) in H.
  apply (inj pretty) in H. lia.
Qed.

(** The claim C9 as it is written fails: two rows of the sheet with the
    same [Request_ID] are two records with the same [requestId]. *)
Lemma decoded_request_ids_can_repeat :
  ¬ (∀ (headers : list string) (clock : nat → string)
       (dataRows : list (list string)),
       NoDup (Spec.requestId <$> decode headers clock dataRows)).
Proof.
  intros H.
  specialize
    (H ["Request_ID"; "User_Name"; "User_Email"; "Meeting_Purpose"]
       (λ _, "2025-09-01T10:00:00.000Z")
       [["R1"; "Ann"; "ann@x.com"; "Demo"];
        ["R1"; "Bob"; "bob@x.com"; "Call"]]).
  assert (E : Spec.requestId <$>
              decode
                ["Request_ID"; "User_Name"; "User_Email"; "Meeting_Purpose"]
                (λ _, "2025-09-01T10:00:00.000Z")
                [["R1"; "Ann"; "ann@x.com"; "Demo"];
                 ["R1"; "Bob"; "bob@x.com"; "Call"]]
              = ["R1"; "R1"]) by (vm_compute; reflexivity).
  rewrite E in H. apply NoDup_cons in H as [H _]. apply H, list_elem_of_here.
Qed.

(** C9, amended: a converted row has the [requestId] the sheet supplies
    and, when that is blank, [sheet_<index + 1>]; the answer to a submitted
    request carries [<timestamp>_<random>].  The ids of a decoded list are
    pairwise distinct when the supplied ids are pairwise distinct and none
    of them is the id synthesized for a row that supplies none. *)
Theorem decoded_request_ids_distinct
    (headers : list string) (clock : nat → string)
    (dataRows : list (list string)) :
  NoDup (omap (Spec.supplied_id headers) dataRows) →
  (∀ j row, dataRows !! j = Some row →
     Spec.supplied_id headers row = None →
     "sheet_" +:+ pretty (j + 1)
     ∉ omap (Spec.supplied_id headers) dataRows) →
  NoDup (Spec.requestId <$> decode headers clock dataRows)
  ∧ (∀ i row, dataRows !! i = Some row →
       Spec.requestId (decode_row headers clock i row) =
       match Spec.supplied_id headers row with
       | Some id => id
       | None => "sheet_" +:+ pretty (i + 1)
       end)
  ∧ (∀ now_ms suffix,
       Server.new_request_id now_ms suffix = pretty now_ms +:+ "_" +:+ suffix).
Proof.
  intros Hsup Hclash. split; [|split].
  - eapply sublist_NoDup; [|apply fmap_sublist, sublist_filter].
    apply NoDup_alt. intros i j id.
    rewrite !list_lookup_fmap, !list_lookup_imap.
    destruct (dataRows !! i) as [ri|] eqn:Hi; [|done].
    destruct (dataRows !! j) as [rj|] eqn:Hj; [|done].
    simpl. rewrite !decode_row_requestId. intros [= Ei] [= Ej].
    assert (Hmem : ∀ k r s, dataRows !! k = Some r →
                     Spec.supplied_id headers r = Some s →
                     s ∈ omap (Spec.supplied_id headers) dataRows).
    { intros k r s Hk Hs. apply list_elem_of_omap. exists r.
      split; [by apply list_elem_of_lookup_2 in Hk|done]. }
    destruct (Spec.supplied_id headers ri) as [si|] eqn:Si,
             (Spec.supplied_id headers rj) as [sj|] eqn:Sj.
    + subst. by apply (NoDup_omap_lookup _ _ _ _ _ _ _ Hsup Hi Hj Si).
    + exfalso. apply (Hclash _ _ Hj Sj). rewrite Ej, <- Ei. eauto.
    + exfalso. apply (Hclash _ _ Hi Si). rewrite Ei, <- Ej. eauto.
    + apply synthesized_id_inj. congruence.
  - intros i row _. apply decode_row_requestId.
  - reflexivity.
Qed.

Lemma decoded_request_ids_distinct_witness :
  let headers := ["Request_ID"; "User_Name"; "User_Email"; "Meeting_Purpose"] in
  let clock := λ _ : nat, "2025-09-01T10:00:00.000Z" in
  let dataRows := [["R1"; "Ann"; "ann@x.com"; "Demo"];
                   [""; "Bob"; "bob@x.com"; "Call"]] in
  NoDup (omap (Spec.supplied_id headers) dataRows)
  ∧ NoDup (Spec.requestId <$> decode headers clock dataRows).
Proof.
  intros headers clock dataRows.
  assert (H1 : NoDup (omap (Spec.supplied_id headers) dataRows)).
  { apply (bool_decide_unpack _). vm_compute. exact I. }
  assert (H2 : ∀ j row, dataRows !! j = Some row →
                 Spec.supplied_id headers row = None →
                 "sheet_" +:+ pretty (j + 1)
                 ∉ omap (Spec.supplied_id headers) dataRows).
  { intros [|[|j]] row Hrow Hnone; [| |done].
    - injection Hrow as <-. vm_compute in Hnone. discriminate Hnone.
    - apply (bool_decide_unpack _). vm_compute. exact I. }
  split; [exact H1|].
  exact (proj1 (decoded_request_ids_distinct headers clock dataRows H1 H2)).
Defined.

End RequestIds.

(** ** Statistics *)

Section Statistics.

Import Sheets.

Lemma count_meeting_total s m :
  total (count_meeting s m) = total s + (if Spec.named_total m then 1 else 0).
Proof.
  unfold count_meeting, count_status, Spec.named_total. simpl.
  destruct (String.eqb (lowered m "status" "pending") "total") eqn:E;
    simpl; [lia|].
  repeat (destruct (String.eqb _ _); simpl; try lia).
Qed.

Lemma foldl_count_meeting_total ms s :
  total (foldl count_meeting s ms)
  = total s + length (filter (λ m, Spec.named_total m = true) ms).
Proof.
  revert s. induction ms as [|m ms IH]; intros s; simpl; [lia|].
  rewrite IH, count_meeting_total.
  destruct (Spec.named_total m) eqn:E.
  - rewrite filter_cons_True by done. simpl. lia.
  - rewrite filter_cons_False by (by rewrite E). lia.
Qed.

(** [total] is the length of the list plus the number of meetings whose
    status reads "total" in lower case. *)
Lemma generateStatistics_total ms :
  total (generateStatistics ms)
  = length ms + length (filter (λ m, Spec.named_total m = true) ms).
Proof. unfold generateStatistics. by rewrite foldl_count_meeting_total. Qed.

(** The statuses [pending, pending, approved], in any case. *)
Lemma generateStatistics_example :
  let s := generateStatistics
             [ {["status" := "pending"]}; {["status" := "Pending"]};
               {["status" := "APPROVED"]} ] in
  total s = 3 ∧ pending s = 2 ∧ approved s = 1 ∧ rejected s = 0
  ∧ rescheduled s = 0.
Proof. repeat split; vm_compute; reflexivity. Qed.

(** A status, urgency or type outside the vocabulary reaches no counter. *)
Lemma generateStatistics_unrecognised :
  generateStatistics
    [ {["status" := "on hold"; "urgency" := "urgent";
        "meetingType" := "phone"]} : gmap string string ]
  = Stats 1 0 0 0 0 (Priorities 0 0 0) (MeetingTypes 0 0 0).
Proof. vm_compute. reflexivity. Qed.

(** C7: the code against the claim.  A sheet with one row whose status cell
    reads [Total] decodes to one meeting, and [generateStatistics] reports
    [total = 2]: the status names the [total] property of the counters,
    which [hasOwnProperty] accepts, so the total is incremented past the
    number of records. *)
Theorem statistics_total_counts_status_total (clock : nat → string) :
  let meetings :=
    decode ["Request_ID"; "User_Name"; "User_Email"; "Meeting_Purpose";
            "Status"]
           clock [["R1"; "Ann"; "ann@x.com"; "Demo"; "Total"]] in
  length meetings = 1
  ∧ total (generateStatistics meetings) = 2
  ∧ pending (generateStatistics meetings) = 0.
Proof. repeat split; vm_compute; reflexivity. Qed.

End Statistics.

(** ** The dashboard counters *)

Section DashboardCounters.

Import Dashboard.

Variable parse_date : json → option Z.
Variable oneWeekAgo : Z.





End DashboardCounters.


(** ** Admin actions *)

Section AdminActions.

Import Dashboard Server.

Variable parse_date : string → option Z.
Variable now_ms : Z.
Variable webhookUrl : option string.
Variable webhook_ok : bool.
Variable adminEmail : value.
Variable now : string.

(** What is posted is the collected form. *)
Lemma confirmAction_post formData actionData :
  confirmAction parse_date now_ms formData = Post actionData →
  actionData = collect formData.
Proof.
  unfold confirmAction.
  repeat (case_match; try discriminate); by intros [= <-].
Qed.

(** The handler turns down, with a 400 and no call to the webhook, a body
    whose action is not one of the three. *)
Lemma post_meeting_action_invalid (reqBody : gmap string json) :
  (¬ ∃ a, reqBody !! "action" = Some (JStr a)
          ∧ a ∈ ["approve"; "reject"; "reschedule"]) →
  post_meeting_action webhookUrl webhook_ok adminEmail now reqBody
  = Outcome [] 400 false.
Proof.
  intros Hno. unfold post_meeting_action.
  destruct (negb (truthy_value (reqBody !! "requestId"))
            || negb (truthy_value (reqBody !! "action"))); [done|].
  destruct (reqBody !! "action") as [action|]; [|done]. simpl.
  destruct action as [| | |a| |]; simpl; try done.
  destruct (String.eqb a "approve") eqn:E1.
  { apply String.eqb_eq in E1 as ->. destruct Hno. eexists. split; [done|].
    set_solver. }
  destruct (String.eqb a "reject") eqn:E2.
  { apply String.eqb_eq in E2 as ->. destruct Hno. eexists. split; [done|].
    set_solver. }
  destruct (String.eqb a "reschedule") eqn:E3; [|done].
  apply String.eqb_eq in E3 as ->. destruct Hno. eexists. split; [done|].
  set_solver.
Qed.

(** The handler itself does not look at the new date and time: a reschedule
    posted to it without them goes out to the webhook.  The checks on them
    are those of [confirmAction]. *)
Lemma post_meeting_action_forwards_reschedule :
  ∃ call,
    webhook_calls
      (post_meeting_action (Some "http://localhost:5678/webhook/admin-action")
         true None now
         {[ "requestId" := JStr "R1"; "action" := JStr "reschedule" ]})
    = [call]
    ∧ call !! "newDate" = Some JNull.
Proof. eexists. split; [reflexivity|]. by simplify_map_eq. Qed.

(** C3: an admin action reaches the workflow webhook only with an action
    among approve, reject and reschedule; a reschedule without a new date or
    a new time, or with a new date and time whose instant is not after the
    current one, is turned down with an alert and nothing is sent. *)
Theorem submit_action_validates (formData : list (string * string)) :
  let actionData := collect formData in
  let result :=
    submitAction parse_date now_ms webhookUrl webhook_ok adminEmail now
      formData in
  ((¬ ∃ a, actionData !! "action" = Some a
           ∧ a ∈ ["approve"; "reject"; "reschedule"]) →
   Spec.outbound_calls result = []
   ∧ ∀ answer, result = Some answer →
               status answer = 400 ∧ succeeded answer = false)
  ∧ (actionData !! "action" = Some "reschedule" →
     Spec.blank actionData "newDate" ∨ Spec.blank actionData "newTime" →
     result = None ∧ Spec.outbound_calls result = [])
  ∧ (actionData !! "action" = Some "reschedule" →
     ∀ newDate newTime instant,
       actionData !! "newDate" = Some newDate →
       actionData !! "newTime" = Some newTime →
       parse_date (newDate +:+ "T" +:+ newTime) = Some instant →
       (instant ≤ now_ms)%Z →
       result = None ∧ Spec.outbound_calls result = []).
Proof.
  intros actionData result. subst result. split; [|split].
  - intros Hno. unfold submitAction.
    destruct (confirmAction parse_date now_ms formData) as [|d] eqn:E.
    { split; [done|]. by intros answer [=]. }
    apply confirmAction_post in E as ->. fold actionData.
    rewrite post_meeting_action_invalid.
    { split; [done|]. by intros answer [= <-]. }
    intros (a & Ha & Hin). apply Hno. exists a. split; [|done].
    unfold request_body in Ha. rewrite lookup_fmap in Ha.
    destruct (actionData !! "action"); simpl in Ha; congruence.
  - intros Hact Hblank.
    assert (E : confirmAction parse_date now_ms formData
                = Alert "Please provide new date and time for rescheduling.").
    { unfold confirmAction. fold actionData.
      rewrite bool_decide_eq_true_2 by done.
      assert (Hf : negb (filled actionData "newDate")
                   || negb (filled actionData "newTime") = true).
      { unfold filled. destruct Hblank as [[-> | ->]|[-> | ->]]; simpl;
          by rewrite ?orb_true_r. }
      by rewrite Hf. }
    unfold submitAction. by rewrite E.
  - intros Hact newDate newTime instant Hd Ht Hp Hle.
    assert (E : ∃ text,
                 confirmAction parse_date now_ms formData = Alert text).
    { unfold confirmAction. fold actionData.
      rewrite bool_decide_eq_true_2 by done.
      destruct (negb (filled actionData "newDate")
                || negb (filled actionData "newTime")); [by eexists|].
      rewrite Hd, Ht. simpl. rewrite Hp. simpl.
      apply Z.leb_le in Hle. rewrite Hle. by eexists. }
    destruct E as [text E]. unfold submitAction. by rewrite E.
Qed.

(** An approval with a request id goes out to the configured webhook. *)
Lemma submit_action_approve_sent :
  ∃ call,
    Spec.outbound_calls
      (submitAction parse_date now_ms
         (Some "http://localhost:5678/webhook/admin-action") webhook_ok
         adminEmail now [("requestId", "R1"); ("action", "approve")])
    = [call]
    ∧ call !! "action" = Some (JStr "approve")
    ∧ call !! "requestId" = Some (JStr "R1").
Proof.
  unfold submitAction, confirmAction. simpl.
  unfold post_meeting_action, request_body. simpl.
  destruct webhook_ok; simpl; eexists; (split; [reflexivity|]);
    destruct adminEmail; simpl; split; by simplify_map_eq.
Qed.

End AdminActions.

Lemma submit_action_validates_witness :
  let parse_date := λ s : string,
    if String.eqb s "2020-01-01T09:00" then Some 1577869200000%Z else None in
  let formData :=
    [("requestId", "R1"); ("action", "reschedule");
     ("newDate", "2020-01-01"); ("newTime", " 09:00 ")] in
  Dashboard.collect formData !! "action" = Some "reschedule"
  ∧ Server.submitAction parse_date 1762041600000
      (Some "http://localhost:5678/webhook/admin-action") true None
      "2025-11-02T00:00:00.000Z" formData = None.
Proof.
  intros parse_date formData.
  assert (Ha : Dashboard.collect formData !! "action" = Some "reschedule")
    by (vm_compute; reflexivity).
  split; [exact Ha|].
  refine (proj1 (proj2 (proj2 (submit_action_validates parse_date
            1762041600000 (Some "http://localhost:5678/webhook/admin-action")
            true None "2025-11-02T00:00:00.000Z" formData)) Ha
            "2020-01-01" "09:00" 1577869200000%Z _ _ _ _)).
  - vm_compute. reflexivity.
  - vm_compute. reflexivity.
  - reflexivity.
  - lia.
Defined.

(** ** The fallbacks of the response normaliser *)

Section NormaliserFallbacks.

Import Webhook.

(** The chain below the five property tests, for an object that has none
    of the known shapes. *)
Lemma extract_unknown_shape qs ps :
  unwrap_json (JObj qs) = JObj ps →
  Spec.known_shape_records (JObj qs) = None →
  extract (JObj qs) =
  if is_workflow_started (JObj ps) then with_meetings []
  else if truthy_value (get (JObj ps) "requestId")
          || truthy_value (get (JObj ps) "id")
       then with_meetings [JObj ps]
       else with_meetings (scan_entries ps).
Proof.
  intros Hu Hk. unfold extract. simpl truthy. simpl isArray.
  simpl typeof_object. cbv iota. simpl andb. cbv iota. rewrite Hu.
  unfold Spec.known_shape_records in Hk.
  rewrite <- unwrap_json_descend, Hu in Hk.
  apply first_array_property_none in Hk.
  repeat
    match goal with
    | F : Forall _ (_ :: _) |- _ => apply Forall_cons_1 in F as [? F]
    end.
  unfold extract_object. simpl isArray. cbv iota.
  repeat
    match goal with
    | Hk : has_array _ _ = false |- _ => rewrite Hk; clear Hk
    end.
  reflexivity.
Qed.

Lemma scan_entries_first pre k first rest post :
  Forall (λ p, Spec.candidate p.2 = false) pre →
  looks_like_meeting first = true →
  scan_entries (pre ++ (k, JArr (first :: rest)) :: post)%list
  = first :: rest.
Proof.
  intros Hpre Hfirst. induction Hpre as [|[k' v] pre Hv _ IH]; simpl.
  - by rewrite Hfirst.
  - destruct v as [| | | |[|f r]|]; simpl in *; try exact IH.
    by rewrite Hv.
Qed.

(** X1: an object of no known shape that is not the "Workflow was started"
    reply and has a truthy [requestId] or [id] is taken as one meeting: the
    list is that object alone (the unwrapped one, when there was a [json]
    object). *)
Theorem single_record_is_wrapped (qs ps : list (string * json)) :
  unwrap_json (JObj qs) = JObj ps →
  Spec.known_shape_records (JObj qs) = None →
  is_workflow_started (JObj ps) = false →
  truthy_value (get (JObj ps) "requestId")
  || truthy_value (get (JObj ps) "id") = true →
  meetings (extract (JObj qs)) = [JObj ps].
Proof.
  intros Hu Hk Hw Hid. rewrite (extract_unknown_shape _ _ Hu Hk), Hw, Hid.
  reflexivity.
Qed.

Lemma single_record_is_wrapped_witness :
  meetings (extract (JObj [("id", JNum 7); ("userName", JStr "Ann")]))
  = [JObj [("id", JNum 7); ("userName", JStr "Ann")]].
Proof.
  apply (single_record_is_wrapped
           [("id", JNum 7); ("userName", JStr "Ann")]
           [("id", JNum 7); ("userName", JStr "Ann")]); reflexivity.
Defined.

(** X2: auto-detection: in an object of no known shape that is neither the
    "Workflow was started" reply nor a single record, the list is the first
    property, in the order of the object, that is a non-empty array whose
    first item has a truthy [requestId], [userName] or [meetingPurpose];
    arrays before it that are empty or start with another kind of item are
    passed over. *)
Theorem auto_detection_takes_first_candidate
    (qs pre post : list (string * json)) (k : string) (first : json)
    (rest : list json) :
  let ps := (pre ++ (k, JArr (first :: rest)) :: post)%list in
  unwrap_json (JObj qs) = JObj ps →
  Spec.known_shape_records (JObj qs) = None →
  is_workflow_started (JObj ps) = false →
  truthy_value (get (JObj ps) "requestId")
  || truthy_value (get (JObj ps) "id") = false →
  Forall (λ p, Spec.candidate p.2 = false) pre →
  looks_like_meeting first = true →
  meetings (extract (JObj qs)) = first :: rest.
Proof.
  intros ps Hu Hk Hw Hid Hpre Hfirst.
  rewrite (extract_unknown_shape _ _ Hu Hk), Hw, Hid. simpl.
  by apply scan_entries_first.
Qed.

Lemma auto_detection_takes_first_candidate_witness :
  meetings
    (extract
       (JObj [("tags", JArr [JStr "a"]);
              ("customData",
               JArr [JObj [("requestId", JStr "x"); ("userName", JStr "y")]]);
              ("more", JArr [JObj [("userName", JStr "z")]])]))
  = [JObj [("requestId", JStr "x"); ("userName", JStr "y")]].
Proof.
  apply (auto_detection_takes_first_candidate
           [("tags", JArr [JStr "a"]);
            ("customData",
             JArr [JObj [("requestId", JStr "x"); ("userName", JStr "y")]]);
            ("more", JArr [JObj [("userName", JStr "z")]])]
           [("tags", JArr [JStr "a"])]
           [("more", JArr [JObj [("userName", JStr "z")]])]
           "customData"
           (JObj [("requestId", JStr "x"); ("userName", JStr "y")]) []);
    try reflexivity.
  repeat constructor.
Defined.

End NormaliserFallbacks.

(** ** The sync handler *)

Section SyncHandler.

(** X3: the sync handler reads a payload as the list handler does, in the
    meetings and in the statistics, unless the payload (unwrapped) is the
    "Workflow was started" reply or has a truthy [success] next to a truthy
    [meetings]: these two tests are each in one of the handlers only. *)
Theorem sync_extracts_like_list (payload : json) :
  let d := Webhook.unwrap_json payload in
  Webhook.is_workflow_started d = false →
  truthy_value (get d "success") && truthy_value (get d "meetings") = false →
  Sync.extract payload
  = (Webhook.meetings (Webhook.extract payload),
     Webhook.statistics (Webhook.extract payload)).
Proof.
  intros d Hw Hs. unfold Sync.extract, Webhook.extract.
  destruct (truthy payload); [|reflexivity].
  destruct (isArray payload); [reflexivity|]. simpl.
  destruct (typeof_object payload); [|reflexivity].
  fold d. unfold Sync.extract_object, Webhook.extract_object.
  rewrite Hw, Hs.
  repeat (case_match; try reflexivity).
Qed.

Lemma sync_extracts_like_list_witness :
  Sync.extract
    (JObj [("json", JObj [("items", JArr [JStr "a"; JStr "b"])])])
  = ([JStr "a"; JStr "b"], JObj []).
Proof.
  exact (sync_extracts_like_list
           (JObj [("json", JObj [("items", JArr [JStr "a"; JStr "b"])])])
           eq_refl eq_refl).
Defined.

(** X4: the sync handler answers 400 without a configured webhook, 500 when
    the call to the webhook fails and 200 when it resolves; [success] and a
    meeting list are in the answer exactly with the 200.  (The list handler
    answers 200 in all three cases.) *)
Theorem sync_status_tells_failure
    (webhookUrl : option string) (fetch : Sync.fetch_result) :
  let a := Sync.post_sync webhookUrl fetch in
  (Sync.status a = 400 ↔ Spec.configured webhookUrl = false)
  ∧ (Sync.status a = 500 ↔
     Spec.configured webhookUrl = true
     ∧ ∃ code st msg, fetch = Sync.Rejected code st msg)
  ∧ (Sync.status a = 200 ↔
     Spec.configured webhookUrl = true ∧ ∃ data, fetch = Sync.Resolved data)
  ∧ (Sync.success a = Some true ↔ Sync.status a = 200)
  ∧ (is_Some (Sync.meetings a) ↔ Sync.status a = 200)
  ∧ (is_Some (Sync.error a) ↔ Sync.status a ≠ 200).
Proof.
  destruct webhookUrl as [[|c u]|], fetch as [data|code st msg]; simpl;
    try destruct (Sync.extract data) as [ms stats];
    try destruct (Sync.failure code st msg) as [e1 e2]; simpl;
    repeat split; try done; try (intros; exfalso; lia);
    try (by intros [? ?]); try (by intros [_ (? & ?)]);
    try (by intros [_ (? & ? & ? & ?)]); eauto.
Qed.

End SyncHandler.

(** ** The request handler *)

Section RequestIntake.

Import Intake.

Variable webhookUrl : option string.
Variable post : post_result.
Variable now : string.
Variable now_ms : Z.
Variable random_suffix : string.

Lemma missingFields_nil reqBody :
  missingFields reqBody = [] ↔
  ∀ field, field ∈ requiredFields → truthy_value (reqBody !! field) = true.
Proof.
  unfold missingFields. split.
  - intros H field Hin.
    destruct (truthy_value (reqBody !! field)) eqn:E; [done|].
    assert (field ∈ filter (λ f, truthy_value (reqBody !! f) = false)
                      requiredFields) as Hf
      by (apply list_elem_of_filter; done).
    rewrite H in Hf. by apply elem_of_nil in Hf.
  - intros H. induction requiredFields as [|f fs IH]; [done|].
    rewrite filter_cons_False.
    + apply IH. intros field Hin. apply H. by apply list_elem_of_further.
    + rewrite (H f) by apply list_elem_of_here. done.
Qed.

(** The handler posts nothing, or it has found no field missing and posts
    [meetingRequestData] once. *)
Lemma post_meeting_request_calls reqBody :
  webhook_calls
    (post_meeting_request webhookUrl post now now_ms random_suffix reqBody)
  = []
  ∨ (missingFields reqBody = []
     ∧ webhook_calls
         (post_meeting_request webhookUrl post now now_ms random_suffix
            reqBody)
       = [meetingRequestData reqBody now]).
Proof.
  unfold post_meeting_request.
  destruct (missingFields reqBody); [|by left].
  destruct webhookUrl as [[|c u]|]; [by left| |by left].
  destruct post; by right.
Qed.

(** X5: a request with a required field that is missing or falsy is answered
    with a 400 that lists exactly the required fields at fault, in the
    order of the form; nothing is posted to the workflow. *)
Theorem request_with_missing_field_is_refused
    (reqBody : gmap string json) (field : string) :
  field ∈ requiredFields →
  truthy_value (reqBody !! field) = false →
  let a := post_meeting_request webhookUrl post now now_ms random_suffix
             reqBody in
  status a = 400 ∧ success a = false ∧ webhook_calls a = []
  ∧ requestId a = None
  ∧ (∃ listed, missing a = Some listed
       ∧ listed `sublist_of` requiredFields
       ∧ ∀ f, f ∈ listed ↔
              f ∈ requiredFields ∧ truthy_value (reqBody !! f) = false).
Proof.
  intros Hin Hf a. subst a. unfold post_meeting_request.
  assert (Hm : field ∈ missingFields reqBody)
    by (apply list_elem_of_filter; done).
  destruct (missingFields reqBody) as [|f fs] eqn:E.
  { by apply elem_of_nil in Hm. }
  simpl. repeat split; try done.
  exists (f :: fs). split; [done|]. rewrite <- E. split.
  - apply sublist_filter.
  - intros g. unfold missingFields. rewrite list_elem_of_filter. tauto.
Qed.

Lemma meetingRequestData_dom reqBody :
  missingFields reqBody = [] →
  dom (meetingRequestData reqBody now) =
  list_to_set
    ["userName"; "userEmail"; "userPhone"; "userCompany"; "userPosition";
     "meetingPurpose"; "meetingDescription"; "preferredDate";
     "preferredTime"; "estimatedDuration"; "meetingType"; "location";
     "urgency"; "additionalNotes"; "timestamp"; "source"].
Proof.
  intros H. pose proof (proj1 (missingFields_nil reqBody) H) as Hall.
  unfold meetingRequestData.
  assert (Hput : ∀ k o, truthy_value (reqBody !! k) = true →
                   dom (put k (reqBody !! k) o) = {[k]} ∪ dom o).
  { intros k o Hk. unfold put.
    destruct (reqBody !! k); [apply dom_insert_L|done]. }
  repeat (first [ rewrite dom_insert_L
                | rewrite Hput
                    by (apply Hall, (bool_decide_unpack _); vm_compute;
                        exact I) ]).
  rewrite dom_empty_L. simpl. clear. set_solver.
Qed.

Lemma put_lookup k v (o : gmap string json) :
  is_Some v → put k v o !! k = v.
Proof. intros [x ->]. apply lookup_insert_eq. Qed.

Lemma put_lookup_ne k k' v (o : gmap string json) :
  k' ≠ k → put k' v o !! k = o !! k.
Proof. intros H. unfold put. destruct v; [by rewrite lookup_insert_ne|done]. Qed.

(** X6: what reaches the workflow: every posted body has the sixteen listed
    properties and no other (no [requestId], nothing else of the request),
    the required ones as they were sent in, and the defaults [60] for the
    duration and [normal] for the urgency when these are missing or falsy.
    At most one body is posted per request. *)
Theorem request_posts_listed_fields_only
    (reqBody : gmap string json) (sent : gmap string json) :
  sent ∈ webhook_calls
           (post_meeting_request webhookUrl post now now_ms random_suffix
              reqBody) →
  webhook_calls
    (post_meeting_request webhookUrl post now now_ms random_suffix reqBody)
  = [sent]
  ∧ dom sent =
    list_to_set
      ["userName"; "userEmail"; "userPhone"; "userCompany"; "userPosition";
       "meetingPurpose"; "meetingDescription"; "preferredDate";
       "preferredTime"; "estimatedDuration"; "meetingType"; "location";
       "urgency"; "additionalNotes"; "timestamp"; "source"]
  ∧ sent !! "requestId" = None
  ∧ (∀ f, f ∈ requiredFields →
          sent !! f = reqBody !! f ∧ truthy_value (sent !! f) = true)
  ∧ sent !! "estimatedDuration"
    = Some (or_else (reqBody !! "estimatedDuration") (JStr "60"))
  ∧ sent !! "urgency" = Some (or_else (reqBody !! "urgency") (JStr "normal"))
  ∧ sent !! "source" = Some (JStr "web-panel").
Proof.
  intros Hin.
  destruct (post_meeting_request_calls reqBody) as [Hc|[E Hc]];
    rewrite Hc in Hin |- *; [by apply elem_of_nil in Hin|].
  apply list_elem_of_singleton in Hin as ->.
  pose proof (proj1 (missingFields_nil reqBody) E) as Hall.
  split; [done|].
  split; [by apply meetingRequestData_dom|].
  split.
  { apply not_elem_of_dom. rewrite meetingRequestData_dom by done.
    rewrite elem_of_list_to_set. apply (bool_decide_unpack _).
    vm_compute. exact I. }
  split.
  { intros f Hf. pose proof (Hall f Hf) as Ht.
    assert (Hs : is_Some (reqBody !! f)).
    { destruct (reqBody !! f); [eauto|discriminate Ht]. }
    assert (meetingRequestData reqBody now !! f = reqBody !! f) as ->.
    { unfold requiredFields in Hf. unfold meetingRequestData.
      rewrite !elem_of_cons, elem_of_nil in Hf.
      destruct Hf as [->|[->|[->|[->|[->|[->|[->|[]]]]]]]];
        repeat (first [ rewrite put_lookup by done; reflexivity
                      | rewrite put_lookup_ne by discriminate
                      | rewrite lookup_insert_ne by discriminate ]). }
    done. }
  unfold meetingRequestData.
  repeat split;
    repeat (first [ rewrite lookup_insert_eq; reflexivity
                  | rewrite put_lookup_ne by discriminate
                  | rewrite lookup_insert_ne by discriminate ]).
Qed.

(** X7: the request id is handed out, with [success] and a 200, exactly when
    no required field is missing, the webhook is configured and the post to
    it was accepted; a refused connection gives a 503 and every other
    failure after the field check a 500. *)
Theorem request_succeeds_only_when_posted (reqBody : gmap string json) :
  let a := post_meeting_request webhookUrl post now now_ms random_suffix
             reqBody in
  (status a = 200 ↔
   missingFields reqBody = [] ∧ Spec.configured webhookUrl = true
   ∧ post = Accepted)
  ∧ (status a = 200 ↔
     requestId a = Some (Server.new_request_id now_ms random_suffix))
  ∧ (success a = true ↔ status a = 200)
  ∧ (status a = 503 ↔
     missingFields reqBody = [] ∧ Spec.configured webhookUrl = true
     ∧ post = Refused)
  ∧ (status a = 200 → length (webhook_calls a) = 1)
  ∧ (Spec.configured webhookUrl = false → webhook_calls a = []).
Proof.
  intros a. subst a. unfold post_meeting_request.
  destruct (missingFields reqBody) as [|f fs]; simpl;
    destruct webhookUrl as [[|c u]|]; simpl; try destruct post; simpl;
    repeat split; try done; try (intros; exfalso; lia);
    try (by intros (? & ? & ?)).
Qed.

End RequestIntake.

Lemma request_with_missing_field_is_refused_witness :
  let reqBody : gmap string json :=
    {[ "userName" := JStr "Ann"; "userEmail" := JStr "" ]} in
  "userEmail" ∈ Intake.requiredFields
  ∧ Intake.webhook_calls
      (Intake.post_meeting_request (Some "http://localhost:5678/webhook/m")
         Intake.Accepted "2025-09-01T10:00:00.000Z" 1756720800000 "k3x9"
         reqBody) = [].
Proof.
  intros reqBody.
  assert (H : "userEmail" ∈ Intake.requiredFields)
    by (unfold Intake.requiredFields; set_solver).
  split; [exact H|].
  exact (proj1 (proj2 (proj2
           (request_with_missing_field_is_refused
              (Some "http://localhost:5678/webhook/m") Intake.Accepted
              "2025-09-01T10:00:00.000Z" 1756720800000 "k3x9" reqBody
              "userEmail" H eq_refl)))).
Defined.

(** ** Login and the protected routes *)

Section AdminSession.

Import Auth.

Variable env : environment.

Lemma same_spec v e :
  same v e = true ↔ ∃ s, v = Some (JStr s) ∧ e = Some s.
Proof.
  unfold same. split.
  - destruct v as [[| | |s| |]|]; try done. destruct e as [s'|]; [|done].
    intros ->%String.eqb_eq. eauto.
  - intros (s & -> & ->). apply String.eqb_refl.
Qed.

Lemma login_ok now reqBody s :
  (login env now reqBody s).2 = 200 ↔ right_credentials env reqBody.
Proof.
  unfold login, right_credentials. split.
  - destruct (negb (truthy_value (reqBody !! "username"))
              || negb (truthy_value (reqBody !! "password"))) eqn:E;
      [done|].
    apply orb_false_iff in E as [Eu%negb_false_iff Ep%negb_false_iff].
    destruct (same (reqBody !! "username") (ADMIN_USERNAME env)
              && same (reqBody !! "password") (ADMIN_PASSWORD env)) eqn:F;
      [|done].
    apply andb_true_iff in F as [(u & Hu & Hu')%same_spec
                                 (p & Hp & Hp')%same_spec].
    intros _. exists u, p. rewrite Hu in Eu. rewrite Hp in Ep. simpl in *.
    apply nonempty_true in Eu, Ep. done.
  - intros (u & p & Hu & Hp & -> & -> & -> & ->). simpl.
    apply nonempty_true in Hu, Hp. unfold nonempty in Hu, Hp.
    rewrite Hu, Hp. simpl. by rewrite !String.eqb_refl.
Qed.

Lemma login_session now reqBody s :
  ((login env now reqBody s).2 = 200 →
   is_Some (login env now reqBody s).1)
  ∧ ((login env now reqBody s).2 ≠ 200 → (login env now reqBody s).1 = s).
Proof.
  unfold login. repeat case_match; simpl; split; try done; eauto.
Qed.

(** X8: a login is answered with a 200 exactly when the body carries, as
    non-empty strings, the configured user name and password; then the
    session is an admin session, and otherwise it is left as it was.  With
    [ADMIN_USERNAME] or [ADMIN_PASSWORD] not set, no login succeeds. *)
Theorem login_needs_configured_credentials
    (now : string) (reqBody : gmap string json) (s : session) :
  let r := login env now reqBody s in
  (r.2 = 200 ↔ right_credentials env reqBody)
  ∧ (r.2 = 200 → authenticateAdmin r.1 = None)
  ∧ (r.2 ≠ 200 → r.1 = s ∧ (r.2 = 400 ∨ r.2 = 401))
  ∧ (ADMIN_USERNAME env = None ∨ ADMIN_PASSWORD env = None → r.2 ≠ 200).
Proof.
  intros r. subst r. split; [apply login_ok|]. split; [|split].
  - intros H. apply login_session in H as [a ->]. reflexivity.
  - intros H. split; [by apply login_session|].
    unfold login in *. repeat case_match; simpl in *; auto; done.
  - intros Hno H. apply login_ok in H as (u & p & _ & _ & _ & _ & Hu & Hp).
    destruct Hno; congruence.
Qed.

Lemma run_needs_login rs s :
  is_Some (foldl (step env) s rs) →
  is_Some s
  ∨ ∃ now reqBody, Login now reqBody ∈ rs ∧ right_credentials env reqBody.
Proof.
  revert s. induction rs as [|r rs IH]; intros s; simpl; [by left|].
  intros H. destruct (IH _ H) as [Hs|(now & b & Hin & Hc)].
  - destruct r as [now reqBody|destroy_failed|]; simpl in Hs.
    + destruct (decide ((login env now reqBody s).2 = 200)) as [E|E].
      * right. exists now, reqBody. split; [apply list_elem_of_here|].
        by apply login_ok in E.
      * left. apply login_session in E. by rewrite E in Hs.
    + left. unfold logout in Hs.
      destruct destroy_failed; simpl in Hs; [done|by destruct Hs].
    + by left.
  - right. exists now, b. split; [by apply list_elem_of_further|done].
Qed.

(** X9: [authenticateAdmin] lets a request through only in a session in which
    a login with the configured credentials was made before; and after a
    logout that destroyed the session, only when such a login was made
    again since. *)
Theorem protected_route_needs_login
    (before after : list request) :
  (authenticateAdmin (run env after) = None →
   ∃ now reqBody, Login now reqBody ∈ after ∧ right_credentials env reqBody)
  ∧ (authenticateAdmin (run env (before ++ Logout false :: after)%list)
     = None →
     ∃ now reqBody, Login now reqBody ∈ after ∧ right_credentials env reqBody)
  ∧ authenticateAdmin (run env (before ++ [Logout false])%list) = Some 401.
Proof.
  assert (Hadm : ∀ s, authenticateAdmin s = None → is_Some s).
  { intros [a|]; [eauto|done]. }
  split; [|split].
  - intros H%Hadm. destruct (run_needs_login _ _ H) as [[? [=]]|?]; done.
  - unfold run. rewrite foldl_app. simpl. intros H%Hadm.
    destruct (run_needs_login _ _ H) as [[? [=]]|?]; done.
  - unfold run. rewrite foldl_app. reflexivity.
Qed.

End AdminSession.

Lemma login_needs_configured_credentials_witness :
  let env := Auth.Environment (Some "admin") (Some "s3cret!") None in
  let reqBody : gmap string json :=
    {[ "username" := JStr "admin"; "password" := JStr "wrong" ]} in
  (Auth.login env "2025-09-01T10:00:00.000Z" reqBody None).2 ≠ 200
  ∧ (Auth.login env "2025-09-01T10:00:00.000Z" reqBody None).1 = None.
Proof.
  intros env reqBody.
  assert (H : (Auth.login env "2025-09-01T10:00:00.000Z" reqBody None).2
              ≠ 200) by (vm_compute; discriminate).
  split; [exact H|].
  exact (proj1 (proj1 (proj2 (proj2
           (login_needs_configured_credentials env
              "2025-09-01T10:00:00.000Z" reqBody None))) H)).
Defined.

Lemma protected_route_needs_login_witness :
  let env := Auth.Environment (Some "admin") (Some "s3cret!") None in
  let good : gmap string json :=
    {[ "username" := JStr "admin"; "password" := JStr "s3cret!" ]} in
  Auth.authenticateAdmin
    (Auth.run env [Auth.Protected; Auth.Login "2025-09-01T10:00:00.000Z" good])
  = None
  ∧ ∃ now reqBody,
      Auth.Login now reqBody
      ∈ [Auth.Protected; Auth.Login "2025-09-01T10:00:00.000Z" good]
      ∧ Auth.right_credentials env reqBody.
Proof.
  intros env good.
  assert (H : Auth.authenticateAdmin
                (Auth.run env
                   [Auth.Protected;
                    Auth.Login "2025-09-01T10:00:00.000Z" good]) = None)
    by (vm_compute; reflexivity).
  split; [exact H|].
  exact (proj1 (protected_route_needs_login env []
                  [Auth.Protected;
                   Auth.Login "2025-09-01T10:00:00.000Z" good]) H).
Defined.

(** ** The counters of [generateStatistics] *)

Section Counters.

Import Sheets Tally.

Lemma count_cons key name m ms :
  count key name (m :: ms)
  = (if String.eqb (key m) name then 1 else 0) + count key name ms.
Proof.
  unfold count. destruct (String.eqb (key m) name) eqn:E.
  - by rewrite filter_cons_True.
  - rewrite filter_cons_False; [done|]. by rewrite E.
Qed.

Lemma count_nil key name : count key name [] = 0.
Proof. reflexivity. Qed.

Lemma count_app key name ms ms' :
  count key name (ms ++ ms')%list = count key name ms + count key name ms'.
Proof. unfold count. by rewrite filter_app, length_app. Qed.

Lemma count_perm key name ms ms' :
  ms ≡ₚ ms' → count key name ms = count key name ms'.
Proof. intros H. unfold count. by rewrite H. Qed.

Lemma eqb_other (x a b : string) :
  String.eqb x a = true → a ≠ b → String.eqb x b = false.
Proof. intros ->%String.eqb_eq Hab. by apply String.eqb_neq. Qed.

Lemma count_status_increments st s :
  count_status st s =
  Stats (total s + (if String.eqb st "total" then 1 else 0))
        (pending s + (if String.eqb st "pending" then 1 else 0))
        (approved s + (if String.eqb st "approved" then 1 else 0))
        (rejected s + (if String.eqb st "rejected" then 1 else 0))
        (rescheduled s + (if String.eqb st "rescheduled" then 1 else 0))
        (byPriority s) (byMeetingType s).
Proof.
  unfold count_status. destruct s as [t p a r rs bp bt]. simpl.
  destruct (String.eqb st "total") eqn:E1.
  { rewrite (eqb_other _ _ "pending" E1), (eqb_other _ _ "approved" E1),
      (eqb_other _ _ "rejected" E1), (eqb_other _ _ "rescheduled" E1)
      by discriminate. f_equal; lia. }
  destruct (String.eqb st "pending") eqn:E2.
  { rewrite (eqb_other _ _ "approved" E2), (eqb_other _ _ "rejected" E2),
      (eqb_other _ _ "rescheduled" E2) by discriminate. f_equal; lia. }
  destruct (String.eqb st "approved") eqn:E3.
  { rewrite (eqb_other _ _ "rejected" E3), (eqb_other _ _ "rescheduled" E3)
      by discriminate. f_equal; lia. }
  destruct (String.eqb st "rejected") eqn:E4.
  { rewrite (eqb_other _ _ "rescheduled" E4) by discriminate.
    f_equal; lia. }
  destruct (String.eqb st "rescheduled"); f_equal; lia.
Qed.

Lemma count_priority_increments pr p :
  count_priority pr p =
  Priorities (high p + (if String.eqb pr "high" then 1 else 0))
             (medium p + (if String.eqb pr "medium" then 1 else 0))
             (low p + (if String.eqb pr "low" then 1 else 0)).
Proof.
  unfold count_priority. destruct p as [h md l]. simpl.
  destruct (String.eqb pr "high") eqn:E1.
  { rewrite (eqb_other _ _ "medium" E1), (eqb_other _ _ "low" E1)
      by discriminate. f_equal; lia. }
  destruct (String.eqb pr "medium") eqn:E2.
  { rewrite (eqb_other _ _ "low" E2) by discriminate. f_equal; lia. }
  destruct (String.eqb pr "low"); f_equal; lia.
Qed.

Lemma count_type_increments ty t :
  count_type ty t =
  MeetingTypes (online t + (if String.eqb ty "online" then 1 else 0))
               (offline t + (if String.eqb ty "offline" then 1 else 0))
               (hybrid t + (if String.eqb ty "hybrid" then 1 else 0)).
Proof.
  unfold count_type. destruct t as [on off hy]. simpl.
  destruct (String.eqb ty "online") eqn:E1.
  { rewrite (eqb_other _ _ "offline" E1), (eqb_other _ _ "hybrid" E1)
      by discriminate. f_equal; lia. }
  destruct (String.eqb ty "offline") eqn:E2.
  { rewrite (eqb_other _ _ "hybrid" E2) by discriminate. f_equal; lia. }
  destruct (String.eqb ty "hybrid"); f_equal; lia.
Qed.

(** The increments of one meeting. *)
Lemma count_meeting_increments s m :
  count_meeting s m =
  Stats (total s + (if String.eqb (status_of m) "total" then 1 else 0))
        (pending s + (if String.eqb (status_of m) "pending" then 1 else 0))
        (approved s + (if String.eqb (status_of m) "approved" then 1 else 0))
        (rejected s + (if String.eqb (status_of m) "rejected" then 1 else 0))
        (rescheduled s
         + (if String.eqb (status_of m) "rescheduled" then 1 else 0))
        (count_priority (priority_of m) (byPriority s))
        (count_type (type_of m) (byMeetingType s)).
Proof.
  unfold count_meeting, status_of, priority_of, type_of.
  rewrite count_status_increments. reflexivity.
Qed.

Lemma foldl_count_meeting s ms :
  foldl count_meeting s ms =
  add s (Stats (count status_of "total" ms) (count status_of "pending" ms)
               (count status_of "approved" ms)
               (count status_of "rejected" ms)
               (count status_of "rescheduled" ms)
               (Priorities (count priority_of "high" ms)
                           (count priority_of "medium" ms)
                           (count priority_of "low" ms))
               (MeetingTypes (count type_of "online" ms)
                             (count type_of "offline" ms)
                             (count type_of "hybrid" ms))).
Proof.
  revert s. induction ms as [|m ms IH]; intros s.
  - destruct s as [t p a r rs [h md l] [on off hy]]. unfold add. simpl.
    rewrite !count_nil. f_equal; try lia; f_equal; lia.
  - simpl foldl.
    rewrite IH, count_meeting_increments, count_priority_increments,
      count_type_increments, !count_cons.
    unfold add. simpl. f_equal; try lia; f_equal; lia.
Qed.

Lemma generateStatistics_tally (ms : list (gmap string string)) :
  generateStatistics ms = tally ms.
Proof.
  unfold generateStatistics, tally. rewrite foldl_count_meeting.
  unfold add. simpl. repeat f_equal.
Qed.

(** X10: [generateStatistics] counts as plain counting does: a meeting is
    counted under its status, urgency and type in lower case, under
    pending, medium and online when the property is missing or empty, and
    in no counter when the word is not one of the counters' names; [total]
    is the number of meetings plus those whose status reads total. *)
Theorem statistics_are_counts (ms : list (gmap string string)) :
  let s := generateStatistics ms in
  total s = length ms + count status_of "total" ms
  ∧ pending s = count status_of "pending" ms
  ∧ approved s = count status_of "approved" ms
  ∧ rejected s = count status_of "rejected" ms
  ∧ rescheduled s = count status_of "rescheduled" ms
  ∧ high (byPriority s) = count priority_of "high" ms
  ∧ medium (byPriority s) = count priority_of "medium" ms
  ∧ low (byPriority s) = count priority_of "low" ms
  ∧ online (byMeetingType s) = count type_of "online" ms
  ∧ offline (byMeetingType s) = count type_of "offline" ms
  ∧ hybrid (byMeetingType s) = count type_of "hybrid" ms.
Proof.
  cbv zeta. rewrite generateStatistics_tally. unfold tally. simpl.
  repeat split.
Qed.

(** X11: the counters do not depend on the order of the meetings. *)
Theorem statistics_ignore_order (ms ms' : list (gmap string string)) :
  ms ≡ₚ ms' → generateStatistics ms = generateStatistics ms'.
Proof.
  intros H. rewrite !generateStatistics_tally. unfold tally.
  rewrite (Permutation_length H).
  by rewrite !(count_perm _ _ _ _ H).
Qed.

Lemma statistics_ignore_order_witness :
  let a : gmap string string := {[ "status" := "Approved" ]} in
  let b : gmap string string := {[ "urgency" := "HIGH" ]} in
  [a; b] ≡ₚ [b; a]
  ∧ generateStatistics [a; b] = generateStatistics [b; a].
Proof.
  intros a b.
  assert (H : [a; b] ≡ₚ [b; a]) by apply perm_swap.
  split; [exact H|]. exact (statistics_ignore_order [a; b] [b; a] H).
Defined.

(** X12: the counters of two lists put together are the sums of the counters of
    each. *)
Theorem statistics_of_app (ms ms' : list (gmap string string)) :
  generateStatistics (ms ++ ms')%list
  = add (generateStatistics ms) (generateStatistics ms').
Proof.
  rewrite !generateStatistics_tally. unfold tally, add. simpl.
  rewrite length_app, !count_app. f_equal; try lia; f_equal; lia.
Qed.

Lemma count_disjoint key (names : list string) ms :
  NoDup names →
  (sum_list (map (λ name, count key name ms) names) ≤ length ms)%nat.
Proof.
  intros Hnd. induction ms as [|m ms IH]; simpl.
  - clear Hnd. induction names as [|n names IHn]; [simpl; lia|].
    change (count key n [] + sum_list (map (λ name, count key name []) names)
            ≤ 0)%nat.
    rewrite count_nil. simpl in *. lia.
  - assert (Hone : (sum_list (map (λ name,
                      if String.eqb (key m) name then 1 else 0) names) ≤ 1)%nat).
    { clear IH. induction names as [|n names IHn]; simpl; [lia|].
      apply NoDup_cons in Hnd as [Hn Hnd]. specialize (IHn Hnd).
      destruct (String.eqb (key m) n) eqn:E; [|lia].
      apply String.eqb_eq in E. subst n.
      assert (Hz : sum_list (map (λ name,
                     if String.eqb (key m) name then 1 else 0) names) = 0).
      { clear IHn Hnd. induction names as [|n names IHn]; simpl; [done|].
        apply not_elem_of_cons in Hn as [Hne Hn].
        apply String.eqb_neq in Hne. rewrite Hne. by apply IHn. }
      lia. }
    assert (Hsplit : sum_list (map (λ name, count key name (m :: ms)) names)
              = sum_list (map (λ name,
                    if String.eqb (key m) name then 1 else 0) names)
                + sum_list (map (λ name, count key name ms) names)).
    { clear. induction names as [|n names IHn]; simpl; [done|].
      rewrite count_cons, IHn. lia. }
    lia.
Qed.

(** X13: no meeting is counted twice in a group: the four status counters add
    up to at most the number of meetings, and so do the three priority
    counters and the three type counters. *)
Theorem statistics_count_each_meeting_once (ms : list (gmap string string)) :
  let s := generateStatistics ms in
  (pending s + approved s + rejected s + rescheduled s ≤ length ms)%nat
  ∧ (high (byPriority s) + medium (byPriority s) + low (byPriority s)
     ≤ length ms)%nat
  ∧ (online (byMeetingType s) + offline (byMeetingType s)
     + hybrid (byMeetingType s) ≤ length ms)%nat.
Proof.
  intros s. subst s. rewrite generateStatistics_tally. unfold tally. simpl.
  pose proof (count_disjoint status_of
                ["pending"; "approved"; "rejected"; "rescheduled"] ms) as H1.
  pose proof (count_disjoint priority_of ["high"; "medium"; "low"] ms) as H2.
  pose proof (count_disjoint type_of ["online"; "offline"; "hybrid"] ms)
    as H3.
  simpl in H1, H2, H3.
  assert (N1 : NoDup ["pending"; "approved"; "rejected"; "rescheduled"])
    by (apply (bool_decide_unpack _); vm_compute; exact I).
  assert (N2 : NoDup ["high"; "medium"; "low"])
    by (apply (bool_decide_unpack _); vm_compute; exact I).
  assert (N3 : NoDup ["online"; "offline"; "hybrid"])
    by (apply (bool_decide_unpack _); vm_compute; exact I).
  specialize (H1 N1). specialize (H2 N2). specialize (H3 N3). lia.
Qed.

End Counters.

(** ** The dashboard: what is loaded, filtered and found *)

Section DashboardList.

Import Panel.

Lemma passes_split sf pf tf m :
  passes sf pf tf m
  = passes sf "" "" m && passes "" pf "" m && passes "" "" tf m.
Proof.
  unfold passes. destruct (truthy m); simpl; [|reflexivity].
  destruct (nonempty sf && _), (nonempty pf && _), (nonempty tf && _);
    reflexivity.
Qed.

Lemma applyFilters_filter sf pf tf l :
  applyFilters sf pf tf (JArr l)
  = filter (λ m, passes sf pf tf m = true) l.
Proof. reflexivity. Qed.

(** X15: filtering only leaves out: the filtered list is the current list with
    some meetings dropped, in the same order.  Filtering the filtered list
    again changes nothing, and the three filters together do what they do
    one after the other. *)
Theorem filters_narrow_and_compose
    (statusFilter priorityFilter typeFilter : string)
    (currentMeetings : json) :
  let shown :=
    applyFilters statusFilter priorityFilter typeFilter currentMeetings in
  shown `sublist_of` clearFilters currentMeetings
  ∧ applyFilters statusFilter priorityFilter typeFilter (JArr shown) = shown
  ∧ shown
    = applyFilters "" "" typeFilter
        (JArr (applyFilters "" priorityFilter ""
                 (JArr (applyFilters statusFilter "" "" currentMeetings)))).
Proof.
  intros shown. subst shown. split; [apply sublist_filter|]. split.
  - rewrite applyFilters_filter. unfold applyFilters.
    rewrite list_filter_filter. apply list_filter_iff. tauto.
  - rewrite !applyFilters_filter. unfold applyFilters.
    rewrite !list_filter_filter. apply list_filter_iff. intros m.
    rewrite passes_split, !andb_true_iff. tauto.
Qed.

(** With no filter chosen the filtered list is the current list without
    its falsy entries; a meeting without a status passes the filter
    [pending], one without priority and urgency the filter [normal], one
    without a type the filter [online]. *)
Theorem filters_use_defaults (currentMeetings : json) (m : json) :
  applyFilters "" "" "" currentMeetings
  = filter (λ m, truthy m = true) (clearFilters currentMeetings)
  ∧ (truthy m = true →
     get m "status" = None → get m "priority" = None →
     get m "urgency" = None → get m "meetingType" = None →
     get m "meeting_type" = None →
     passes "pending" "normal" "online" m = true
     ∧ passes "approved" "" "" m = false).
Proof.
  split.
  - unfold applyFilters, clearFilters. apply list_filter_iff. intros x.
    unfold passes. by destruct (truthy x).
  - intros Ht Hs Hp Hu Hy Hy'. unfold passes.
    rewrite Ht, Hs, Hp, Hu, Hy, Hy'. split; reflexivity.
Qed.

Lemma filters_use_defaults_witness :
  Panel.passes "pending" "normal" "online" (JObj [("userName", JStr "Ann")])
  = true.
Proof.
  exact (proj1 (proj2 (filters_use_defaults (JArr [])
                         (JObj [("userName", JStr "Ann")]))
                  eq_refl eq_refl eq_refl eq_refl eq_refl eq_refl)).
Defined.

End DashboardList.

(** ** From the list handler to the dashboard *)

Section HandlerToDashboard.

Import Webhook Panel.

Lemma or_else_truthy a b : truthy b = true → truthy (or_else a b) = true.
Proof.
  intros Hb. unfold or_else. destruct a as [v|]; [|done].
  by destruct (truthy v) eqn:E.
Qed.

(** The statistics variable of the handler always holds a truthy value. *)
Lemma extract_statistics_truthy payload :
  truthy (statistics (extract payload)) = true.
Proof.
  unfold extract, extract_object.
  repeat case_match; try reflexivity. by apply or_else_truthy.
Qed.

Lemma normalize_encode b : normalize (encode b) = body_meetings b.
Proof. reflexivity. Qed.

Lemma no_meetings_encode b :
  no_meetings (encode b)
  = match body_meetings b with [] => true | _ => false end.
Proof. unfold no_meetings, encode. simpl. by destruct (body_meetings b). Qed.

Lemma statistics_of_resolved payload :
  statistics_of
    (encode
       {| success := true; body_meetings := meetings (extract payload);
          body_statistics := Some (statistics (extract payload));
          body_lastUpdated := lastUpdated (extract payload);
          body_message :=
            Some (if truthy (message (extract payload))
                  then message (extract payload)
                  else success_message (meetings (extract payload)));
          body_count := Some (length (meetings (extract payload)));
          body_error := None; body_details := None |})
  = statistics (extract payload).
Proof.
  unfold statistics_of, encode. simpl.
  by rewrite extract_statistics_truthy.
Qed.

Lemma loaded_encode_nonempty b testResult :
  body_meetings b ≠ [] →
  loaded (encode b) testResult
  = (if shows (body_meetings b) (statistics_of (encode b))
     then body_meetings b else getSampleMeetings,
     statistics_of (encode b)).
Proof.
  intros Hne. unfold loaded, choose. rewrite no_meetings_encode.
  destruct (body_meetings b) as [|m ms] eqn:E; [done|].
  cbv zeta. rewrite normalize_encode, E.
  by destruct (shows (m :: ms) (statistics_of (encode b))).
Qed.

(** A string converts, and so does everything read from a record of
    strings. *)
Lemma is_text_converts v : is_text v = true → converts v = true.
Proof. by destruct v. Qed.

Lemma assoc_text ps k v :
  Forall (λ p : string * json, is_text p.2 = true) ps →
  assoc k ps = Some v → is_text v = true.
Proof.
  induction 1 as [|[k' v'] ps Hp _ IH]; simpl; [done|].
  destruct (String.eqb k k'); [|exact IH].
  intros [= <-]. exact Hp.
Qed.

Lemma first_of_text m ks d :
  text_record m → is_text d = true → is_text (first_of m ks d) = true.
Proof.
  intros (ps & -> & Hps) Hd.
  induction ks as [|k ks IH]; simpl; [exact Hd|].
  unfold or_else. destruct (assoc k ps) as [v|] eqn:E; [|exact IH].
  destruct (truthy v); [|exact IH]. exact (assoc_text _ _ _ Hps E).
Qed.

Lemma display_converts_text m k word :
  text_record m → is_text word = true →
  display_converts (get m k) word = true.
Proof.
  intros (ps & -> & Hps) Hw. unfold display_converts.
  rewrite (is_text_converts _ Hw). simpl.
  destruct (assoc k ps) as [d|] eqn:E; [|done].
  destruct (truthy d); [|done].
  apply is_text_converts. exact (assoc_text _ _ _ Hps E).
Qed.

Lemma text_record_renders m : text_record m → row_renders m = true.
Proof.
  intros Hm. unfold row_renders.
  destruct (negb (truthy m)); [done|]. cbv zeta.
  rewrite !display_converts_text by (done || by apply first_of_text).
  rewrite !(is_text_converts (first_of m _ _))
    by (by apply first_of_text).
  by rewrite !first_of_text.
Qed.

Lemma text_record_week m : text_record m → week_test_returns m = true.
Proof.
  intros (ps & -> & Hps). unfold week_test_returns. simpl.
  destruct (assoc "timestamp" ps) as [ts|] eqn:E; [|done].
  destruct (truthy ts); [|done].
  apply is_text_converts. exact (assoc_text _ _ _ Hps E).
Qed.

Lemma counters_written_nil stats :
  (∀ k, converts (or_else (get stats k) (JNum 0)) = true) →
  counters_written [] stats = true.
Proof.
  intros H. unfold counters_written. simpl.
  destruct (truthy stats && typeof_object stats); [|done].
  by rewrite !H.
Qed.

Lemma text_records_show ms stats :
  Forall text_record ms → counters_written [] stats = true →
  shows ms stats = true.
Proof.
  intros Hms Hst. unfold shows, counters_written in *. simpl in Hst.
  rewrite Hst, andb_true_r. apply andb_true_iff. split.
  - apply forallb_forall. intros m Hm%list_elem_of_In.
    apply text_record_renders. by apply (proj1 (Forall_forall _ _) Hms).
  - apply forallb_forall. intros m Hm%list_elem_of_In.
    apply text_record_week. by apply (proj1 (Forall_forall _ _) Hms).
Qed.

(** A meeting with a time that is not a string stops the rendering. *)
Lemma time_stops_rendering ms stats m :
  m ∈ ms → truthy m = true →
  is_text
    (first_of m ["preferredTime"; "displayTime"; "preferred_time"] (JStr ""))
  = false →
  shows ms stats = false.
Proof.
  intros Hin Hm Ht. unfold shows.
  destruct (forallb row_renders ms) eqn:E; [|done]. exfalso.
  assert (Hr : row_renders m = true).
  { apply (proj1 (forallb_forall _ _) E). by apply list_elem_of_In. }
  unfold row_renders in Hr. rewrite Hm in Hr. cbv zeta in Hr. simpl negb in Hr.
  cbv iota in Hr. rewrite Ht in Hr.
  by rewrite andb_false_r in Hr.
Qed.

(** X16: a list the handler found is the list of the dashboard when the
    table and the counters can be shown: then [currentMeetings] is the
    extracted list, in its order, and [dashboardStatistics] is the handler's
    statistics variable, whatever the test endpoint says.  When showing them
    raises, [currentMeetings] is the three sample meetings of the dashboard
    instead.  Records of strings beside statistics whose counters convert can
    be shown; a meeting whose time is not a string cannot. *)
Theorem dashboard_loads_extracted_list
    (url : option string) (status : nat) (payload : json)
    (testResult : option json) :
  Spec.configured url = true →
  meetings (extract payload) ≠ [] →
  let ms := meetings (extract payload) in
  let stats := statistics (extract payload) in
  let state :=
    loaded
      (encode (http_body (get_admin_meetings url (Resolved status payload))))
      testResult in
  (shows ms stats = true → state = (ms, stats))
  ∧ (shows ms stats = false → state = (getSampleMeetings, stats))
  ∧ (Forall text_record ms →
     (∀ k, converts (or_else (get stats k) (JNum 0)) = true) →
     state = (ms, stats))
  ∧ (∀ m, m ∈ ms → truthy m = true →
       is_text
         (first_of m ["preferredTime"; "displayTime"; "preferred_time"]
            (JStr ""))
       = false →
       state = (getSampleMeetings, stats)).
Proof.
  intros Hurl Hne ms stats state. subst state.
  rewrite (get_admin_meetings_resolved _ _ _ Hurl). cbv zeta.
  rewrite loaded_encode_nonempty by done. simpl body_meetings.
  rewrite statistics_of_resolved. fold ms stats.
  split; [by intros ->|]. split; [by intros ->|]. split.
  - intros Hms Hst.
    by rewrite (text_records_show ms stats Hms (counters_written_nil _ Hst)).
  - intros m Hin Hm Ht. by rewrite (time_stops_rendering ms stats m Hin Hm Ht).
Qed.

Lemma dashboard_loads_extracted_list_witness :
  loaded
    (encode
       (http_body
          (get_admin_meetings (Some "http://localhost:5678/webhook/list")
             (Resolved 200
                (JObj [("data", JArr [JObj [("userName", JStr "Ann")];
                                      JObj [("userName", JStr "Bob")]])])))))
    (Some test_answer)
  = ([JObj [("userName", JStr "Ann")]; JObj [("userName", JStr "Bob")]],
     JObj [])
  ∧ loaded
      (encode
         (http_body
            (get_admin_meetings (Some "http://localhost:5678/webhook/list")
               (Resolved 200
                  (JArr [JObj [("requestId", JStr "R1");
                               ("preferredTime", JNum 930)]])))))
      None
    = (getSampleMeetings, JObj []).
Proof.
  split.
  - exact (proj1 (dashboard_loads_extracted_list
                    (Some "http://localhost:5678/webhook/list") 200
                    (JObj [("data", JArr [JObj [("userName", JStr "Ann")];
                                          JObj [("userName", JStr "Bob")]])])
                    (Some test_answer) eq_refl ltac:(discriminate))
             eq_refl).
  - exact (proj1 (proj2 (dashboard_loads_extracted_list
                    (Some "http://localhost:5678/webhook/list") 200
                    (JArr [JObj [("requestId", JStr "R1");
                                 ("preferredTime", JNum 930)]])
                    None eq_refl ltac:(discriminate)))
             eq_refl).
Defined.

(** X17: the counters next to such a list: a payload that is not of the shape
    with [meetings] and [statistics] leaves the handler's statistics the
    empty object, which the dashboard takes for supplied statistics; so,
    when the list can be shown, the total, pending and approved counters
    show 0 beside a list that is not empty. *)
Theorem dashboard_counters_of_empty_statistics
    (parse_date : json → option Z) (oneWeekAgo : Z)
    (url : option string) (status : nat) (payload : json)
    (testResult : option json) :
  Spec.configured url = true →
  meetings (extract payload) ≠ [] →
  statistics (extract payload) = JObj [] →
  shows (meetings (extract payload)) (JObj []) = true →
  let state :=
    loaded
      (encode (http_body (get_admin_meetings url (Resolved status payload))))
      testResult in
  let shown :=
    Dashboard.updateDashboardStats parse_date oneWeekAgo (JArr state.1)
      state.2 in
  state.1 = meetings (extract payload)
  ∧ Dashboard.shown_total shown = JNum 0
  ∧ Dashboard.shown_pending shown = JNum 0
  ∧ Dashboard.shown_approved shown = JNum 0.
Proof.
  intros Hurl Hne Hst Hshow state shown. subst shown state.
  rewrite (get_admin_meetings_resolved _ _ _ Hurl). cbv zeta.
  rewrite loaded_encode_nonempty by done. simpl body_meetings.
  rewrite statistics_of_resolved, Hst, Hshow. simpl.
  repeat split.
Qed.

Lemma dashboard_counters_of_empty_statistics_witness :
  let parse_date := λ v : json, match v with JNum n => Some n | _ => None end in
  let payload :=
    JArr [JObj [("requestId", JStr "R1"); ("status", JStr "pending")]] in
  let state :=
    loaded
      (encode
         (http_body
            (get_admin_meetings (Some "http://localhost:5678/webhook/list")
               (Resolved 200 payload)))) None in
  state.1 = [JObj [("requestId", JStr "R1"); ("status", JStr "pending")]]
  ∧ Dashboard.shown_total
      (Dashboard.updateDashboardStats parse_date 0 (JArr state.1) state.2)
    = JNum 0.
Proof.
  intros parse_date payload state.
  destruct (dashboard_counters_of_empty_statistics parse_date 0
              (Some "http://localhost:5678/webhook/list") 200 payload None
              eq_refl ltac:(discriminate) eq_refl eq_refl)
    as (H1 & H2 & _).
  split; [exact H1|exact H2].
Defined.

(** X18: an empty list is not shown as empty when the test endpoint answers:
    whatever made the handler's list empty (a failed call, a payload of no
    known shape, an empty array), the dashboard then holds the one meeting
    without properties of the test endpoint, and no statistics.  When the
    test endpoint does not answer, the list stays empty, unless writing the
    counters of the statistics raises, which brings the sample meetings;
    after a failed call there are no statistics and the list is empty. *)
Theorem dashboard_replaces_empty_list_by_test_record
    (url : option string) (fetch : fetch_result) :
  body_meetings (http_body (get_admin_meetings url fetch)) = [] →
  loaded (encode (http_body (get_admin_meetings url fetch)))
    (Some test_answer)
  = ([JObj []], JNull)
  ∧ loaded (encode (http_body (get_admin_meetings url fetch))) None
    = (if counters_written []
            (statistics_of
               (encode (http_body (get_admin_meetings url fetch))))
       then [] else getSampleMeetings,
       statistics_of (encode (http_body (get_admin_meetings url fetch))))
  ∧ (∀ msg, fetch = Rejected msg →
       loaded (encode (http_body (get_admin_meetings url fetch))) None
       = ([], JNull)).
Proof.
  intros H. unfold loaded, choose. rewrite no_meetings_encode, H. simpl.
  split; [reflexivity|]. rewrite normalize_encode, H. split.
  - unfold shows. simpl forallb at 1. rewrite andb_true_l.
    by destruct (counters_written [] _).
  - intros msg ->. by destruct url as [[|c u]|].
Qed.

Lemma dashboard_replaces_empty_list_by_test_record_witness :
  loaded
    (encode
       (http_body
          (get_admin_meetings (Some "http://localhost:5678/webhook/list")
             (Rejected "timeout of 10000ms exceeded"))))
    (Some test_answer)
  = ([JObj []], JNull).
Proof.
  exact (proj1 (dashboard_replaces_empty_list_by_test_record
                  (Some "http://localhost:5678/webhook/list")
                  (Rejected "timeout of 10000ms exceeded") eq_refl)).
Defined.

End HandlerToDashboard.

(** ** The buttons of a row *)

Section RowButtons.

Import Panel.

Lemma find_finds test (ms : list json) m :
  m ∈ ms → JNull ∉ ms → test m = true →
  ∃ m', find test ms = Found m' ∧ m' ∈ ms ∧ test m' = true.
Proof.
  induction ms as [|x ms IH]; intros Hin Hnull Ht.
  - by apply elem_of_nil in Hin.
  - apply not_elem_of_cons in Hnull as [Hx Hnull].
    assert (Hstep : find test (x :: ms)
                    = if test x then Found x else find test ms)
      by (by destruct x).
    rewrite Hstep. destruct (test x) eqn:E.
    + exists x. split; [done|]. split; [apply list_elem_of_here|done].
    + apply elem_of_cons in Hin as [->|Hin]; [congruence|].
      destruct (IH Hin Hnull Ht) as (m' & Hf & Hm' & Ht').
      exists m'. split; [done|]. split; [by apply list_elem_of_further|done].
Qed.

Lemma find_none test (ms : list json) :
  JNull ∉ ms → (∀ m, m ∈ ms → test m = false) → find test ms = NotFound.
Proof.
  induction ms as [|x ms IH]; intros Hnull Hall; [done|].
  apply not_elem_of_cons in Hnull as [Hx Hnull].
  assert (Hstep : find test (x :: ms)
                  = if test x then Found x else find test ms)
    by (by destruct x).
  rewrite Hstep, (Hall x) by apply list_elem_of_here.
  apply IH; [done|]. intros m Hm. apply Hall. by apply list_elem_of_further.
Qed.

Lemma or_else_string a b s :
  or_else a b = JStr s → a = Some (JStr s) ∨ b = JStr s.
Proof.
  unfold or_else. destruct a as [v|]; [|by right].
  destruct (truthy v); [intros ->; by left|by right].
Qed.

Lemma has_id_get k s m : get m k = Some (JStr s) → has_id k s m = true.
Proof. unfold has_id. intros ->. apply String.eqb_refl. Qed.

Lemma row_id_field m s :
  row_id m = JStr s → s ≠ "" →
  has_id "requestId" s m || has_id "request_id" s m || has_id "id" s m
  = true.
Proof.
  unfold row_id. intros H Hs.
  apply or_else_string in H as [H|H].
  { by rewrite (has_id_get _ _ _ H). }
  apply or_else_string in H as [H|H].
  { by rewrite (has_id_get _ _ _ H), orb_true_r. }
  apply or_else_string in H as [H|H].
  { by rewrite (has_id_get _ _ _ H), !orb_true_r. }
  congruence.
Qed.

(** X20: in a list without [null] entries, the View button of a row whose id is
    a non-empty string opens a meeting that has this id as [requestId],
    [request_id] or [id].  The action buttons look at [requestId] only:
    when no meeting has the id as its [requestId], they find nothing. *)
Theorem view_button_finds_its_row
    (currentMeetings : list json) (m : json) (id : string) :
  m ∈ currentMeetings → JNull ∉ currentMeetings →
  row_id m = JStr id → id ≠ "" →
  (∃ opened,
     viewMeeting id currentMeetings = Found opened
     ∧ opened ∈ currentMeetings
     ∧ (get opened "requestId" = Some (JStr id)
        ∨ get opened "request_id" = Some (JStr id)
        ∨ get opened "id" = Some (JStr id)))
  ∧ ((∀ x, x ∈ currentMeetings → get x "requestId" ≠ Some (JStr id)) →
     showActionModal id currentMeetings = NotFound).
Proof.
  intros Hin Hnull Hid Hne. split.
  - destruct (find_finds
                (λ x, has_id "requestId" id x || has_id "request_id" id x
                      || has_id "id" id x)
                _ _ Hin Hnull (row_id_field _ _ Hid Hne))
      as (opened & Hf & Ho & Ht).
    exists opened. split; [exact Hf|]. split; [exact Ho|].
    assert (Hhas : ∀ k, has_id k id opened = true →
                     get opened k = Some (JStr id)).
    { intros k. unfold has_id, is_string.
      destruct (get opened k) as [[| | |s| |]|]; try done.
      by intros ->%String.eqb_eq. }
    apply orb_true_iff in Ht as [Ht|Ht];
      [apply orb_true_iff in Ht as [Ht|Ht]|]; auto.
  - intros Hno. apply find_none; [done|]. intros x Hx.
    specialize (Hno x Hx). unfold has_id, is_string.
    destruct (get x "requestId") as [[| | |s| |]|]; try done.
    apply String.eqb_neq. congruence.
Qed.

Lemma view_button_finds_its_row_witness :
  let ms := [JObj [("requestId", JStr "R1")]; JObj [("id", JStr "42")]] in
  JObj [("id", JStr "42")] ∈ ms
  ∧ viewMeeting "42" ms = Found (JObj [("id", JStr "42")])
  ∧ showActionModal "42" ms = NotFound.
Proof.
  intros ms.
  assert (Hin : JObj [("id", JStr "42")] ∈ ms)
    by (apply list_elem_of_further, list_elem_of_here).
  assert (Hnull : JNull ∉ ms).
  { intros H. apply elem_of_cons in H as [[=]|H].
    apply elem_of_cons in H as [[=]|H]. by apply elem_of_nil in H. }
  split; [exact Hin|]. split; [reflexivity|].
  refine (proj2 (view_button_finds_its_row ms (JObj [("id", JStr "42")])
                   "42" Hin Hnull eq_refl _) _); [discriminate|].
  intros x Hx. apply elem_of_cons in Hx as [->|Hx]; [discriminate|].
  apply elem_of_cons in Hx as [->|Hx]; [discriminate|].
  by apply elem_of_nil in Hx.
Defined.

End RowButtons.

(** ** [escapeHtml] *)

Section EscapeHtml.

Import Panel.

Lemma chars_app s1 s2 : chars (s1 +:+ s2) = (chars s1 ++ chars s2)%list.
Proof.
  unfold chars. induction s1 as [|c s1 IH]; simpl; [done|]. by rewrite IH.
Qed.

Lemma escape_char_cases c :
  (c = "&"%char ∧ escape_char c = "&amp;")
  ∨ (c = "<"%char ∧ escape_char c = "&lt;")
  ∨ (c = ">"%char ∧ escape_char c = "&gt;")
  ∨ (c = Csv.dquote ∧ escape_char c = "&quot;")
  ∨ (c = "'"%char ∧ escape_char c = "&#039;")
  ∨ (escape_char c = String c EmptyString
     ∧ c ∉ ["&"%char; "<"%char; ">"%char; Csv.dquote; "'"%char]).
Proof.
  unfold escape_char.
  destruct (Ascii.eqb c "&") eqn:E1;
    [apply Ascii.eqb_eq in E1; by left|].
  destruct (Ascii.eqb c "<") eqn:E2;
    [apply Ascii.eqb_eq in E2; by right; left|].
  destruct (Ascii.eqb c ">") eqn:E3;
    [apply Ascii.eqb_eq in E3; by right; right; left|].
  destruct (Ascii.eqb c Csv.dquote) eqn:E4;
    [apply Ascii.eqb_eq in E4; by right; right; right; left|].
  destruct (Ascii.eqb c "'") eqn:E5;
    [apply Ascii.eqb_eq in E5; by right; right; right; right; left|].
  do 5 right. split; [done|].
  apply Ascii.eqb_neq in E1, E2, E3, E4, E5.
  rewrite !not_elem_of_cons. repeat split; try done. apply not_elem_of_nil.
Qed.

Lemma escape_no_markup s :
  Forall (λ c, c ∉ ["<"%char; ">"%char; Csv.dquote; "'"%char])
         (chars (escape s)).
Proof.
  induction s as [|c s IH]; simpl; [constructor|].
  rewrite chars_app. apply Forall_app. split; [|exact IH].
  destruct (escape_char_cases c)
    as [[_ ->]|[[_ ->]|[[_ ->]|[[_ ->]|[[_ ->]|[-> Hc]]]]]];
    try (repeat constructor; apply (bool_decide_unpack _); vm_compute;
         exact I).
  constructor; [|constructor]. intros Hin. apply Hc.
  by apply list_elem_of_further.
Qed.

Lemma escape_plain s :
  Forall (λ c, c ∉ ["&"%char; "<"%char; ">"%char; Csv.dquote; "'"%char])
         (chars s) →
  escape s = s.
Proof.
  induction s as [|c s IH]; simpl; [done|].
  intros [Hc Hs]%Forall_cons. rewrite (IH Hs).
  destruct (escape_char_cases c)
    as [[-> _]|[[-> _]|[[-> _]|[[-> _]|[[-> _]|[-> _]]]]]];
    try reflexivity; exfalso; apply Hc; rewrite !elem_of_cons; tauto.
Qed.

Lemma escape_inj s s' : escape s = escape s' → s = s'.
Proof.
  revert s'. induction s as [|c s IH]; intros [|c' s']; simpl.
  - done.
  - destruct (escape_char_cases c')
      as [[_ ->]|[[_ ->]|[[_ ->]|[[_ ->]|[[_ ->]|[-> _]]]]]]; discriminate.
  - destruct (escape_char_cases c)
      as [[_ ->]|[[_ ->]|[[_ ->]|[[_ ->]|[[_ ->]|[-> _]]]]]]; discriminate.
  - destruct (escape_char_cases c)
      as [[-> ->]|[[-> ->]|[[-> ->]|[[-> ->]|[[-> ->]|[-> Hc]]]]]];
    destruct (escape_char_cases c')
      as [[-> ->]|[[-> ->]|[[-> ->]|[[-> ->]|[[-> ->]|[-> Hc']]]]]];
    simpl; intros H; try discriminate H;
      try (injection H as H; f_equal; by apply IH).
    + injection H as <- H. exfalso. apply Hc'. apply list_elem_of_here.
    + injection H as <- H. exfalso. apply Hc'. apply list_elem_of_here.
    + injection H as <- H. exfalso. apply Hc'. apply list_elem_of_here.
    + injection H as <- H. exfalso. apply Hc'. apply list_elem_of_here.
    + injection H as <- H. exfalso. apply Hc'. apply list_elem_of_here.
    + injection H as -> H. exfalso. apply Hc. apply list_elem_of_here.
    + injection H as -> H. exfalso. apply Hc. apply list_elem_of_here.
    + injection H as -> H. exfalso. apply Hc. apply list_elem_of_here.
    + injection H as -> H. exfalso. apply Hc. apply list_elem_of_here.
    + injection H as -> H. exfalso. apply Hc. apply list_elem_of_here.
    + injection H as -> H. f_equal. by apply IH.
Qed.

(** X21: what [escapeHtml] returns has no [<], [>], double or single quote in it,
    whatever it is given, and is the empty string for what is not a string.
    A string without these characters and without [&] is returned as it is,
    and two strings that differ are escaped to texts that differ. *)
Theorem escapeHtml_leaves_no_markup (text : json) :
  Forall (λ c, c ∉ ["<"%char; ">"%char; Csv.dquote; "'"%char])
         (chars (escapeHtml text))
  ∧ ((∀ s, text ≠ JStr s) → escapeHtml text = "")
  ∧ (∀ s, text = JStr s →
       Forall (λ c, c ∉ ["&"%char; "<"%char; ">"%char; Csv.dquote;
                         "'"%char]) (chars s) →
       escapeHtml text = s)
  ∧ (∀ s s', escapeHtml (JStr s) = escapeHtml (JStr s') → s = s').
Proof.
  split; [|split; [|split]].
  - destruct text as [| | |s| |]; try constructor.
    simpl. destruct (nonempty s); [apply escape_no_markup|constructor].
  - intros H. destruct text as [| | |s| |]; try reflexivity.
    by destruct (H s).
  - intros s -> Hs. simpl. destruct (nonempty s) eqn:E.
    + by apply escape_plain.
    + by apply nonempty_false in E.
  - intros s s'. simpl.
    assert (Hz : ∀ x, nonempty x = true → escape x ≠ "").
    { intros [|c x]; [done|]. intros _. simpl.
      destruct (escape_char_cases c)
        as [[_ ->]|[[_ ->]|[[_ ->]|[[_ ->]|[[_ ->]|[-> _]]]]]]; done. }
    destruct (nonempty s) eqn:E, (nonempty s') eqn:E'.
    + apply escape_inj.
    + intros H. by apply Hz in H.
    + intros H. symmetry in H. by apply Hz in H.
    + apply nonempty_false in E, E'. congruence.
Qed.

Lemma escapeHtml_leaves_no_markup_witness :
  escapeHtml (JStr "Ann Lee (ACME)") = "Ann Lee (ACME)".
Proof.
  refine (proj1 (proj2 (proj2 (escapeHtml_leaves_no_markup
                                 (JStr "Ann Lee (ACME)"))))
            "Ann Lee (ACME)" eq_refl _).
  apply (bool_decide_unpack _). vm_compute. exact I.
Defined.

End EscapeHtml.

(** ** Trimming and the CSV export *)

Section Trimming.

Lemma letters_app s1 s2 :
  list_ascii_of_string (s1 +:+ s2)
  = (list_ascii_of_string s1 ++ list_ascii_of_string s2)%list.
Proof. induction s1 as [|c s1 IH]; simpl; [done|]. by rewrite IH. Qed.

Lemma letters_inj s1 s2 :
  list_ascii_of_string s1 = list_ascii_of_string s2 → s1 = s2.
Proof.
  intros H. rewrite <- (string_of_list_ascii_of_string s1),
              <- (string_of_list_ascii_of_string s2). by rewrite H.
Qed.

Lemma letters_rev_app s1 s2 :
  list_ascii_of_string (String.rev_app s1 s2)
  = (rev (list_ascii_of_string s1) ++ list_ascii_of_string s2)%list.
Proof.
  revert s2. induction s1 as [|c s1 IH]; intros s2; simpl; [done|].
  rewrite IH. simpl. by rewrite <- app_assoc.
Qed.

Lemma letters_rev s :
  list_ascii_of_string (String.rev s) = rev (list_ascii_of_string s).
Proof. unfold String.rev. rewrite letters_rev_app. apply app_nil_r. Qed.

Lemma string_rev_involutive s : String.rev (String.rev s) = s.
Proof. apply letters_inj. rewrite !letters_rev. apply rev_involutive. Qed.

Lemma all_white_app s1 s2 :
  Csv.all_white (s1 +:+ s2) ↔ Csv.all_white s1 ∧ Csv.all_white s2.
Proof. unfold Csv.all_white. rewrite letters_app. apply Forall_app. Qed.

Lemma all_white_rev s : Csv.all_white s → Csv.all_white (String.rev s).
Proof.
  unfold Csv.all_white. rewrite letters_rev. apply List.Forall_rev.
Qed.

(** [trimStart] takes a white prefix away, and what is left does not start
    with white space. *)
Lemma trimStart_prefix s :
  ∃ p, s = p +:+ trimStart s ∧ Csv.all_white p.
Proof.
  induction s as [|c s (p & Hp & Hw)]; simpl.
  - exists "". split; [done|]. constructor.
  - destruct (is_white c) eqn:E.
    + exists (String c p). split; [|by constructor].
      change (String c s = String c (p +:+ trimStart s)). congruence.
    + exists "". split; [done|]. constructor.
Qed.

Lemma trimStart_head s :
  trimStart s = ""
  ∨ ∃ c r, trimStart s = String c r ∧ is_white c = false.
Proof.
  induction s as [|c s IH]; simpl; [by left|].
  destruct (is_white c) eqn:E; [exact IH|]. right. eauto.
Qed.

Lemma trimStart_fixed c r :
  is_white c = false → trimStart (String c r) = String c r.
Proof. intros H. simpl. by rewrite H. Qed.

Lemma trimStart_idemp s : trimStart (trimStart s) = trimStart s.
Proof.
  destruct (trimStart_head s) as [->|(c & r & -> & Hc)]; [done|].
  by apply trimStart_fixed.
Qed.

Lemma trimStart_white s : Csv.all_white s → trimStart s = "".
Proof.
  unfold Csv.all_white. induction s as [|c s IH]; simpl; [done|].
  intros [Hc Hs]%Forall_cons. rewrite Hc. by apply IH.
Qed.

(** [trimEnd] takes a white suffix away. *)
Lemma trimEnd_suffix s :
  ∃ q, s = trimEnd s +:+ q ∧ Csv.all_white q.
Proof.
  destruct (trimStart_prefix (String.rev s)) as (p & Hp & Hw).
  exists (String.rev p). split; [|by apply all_white_rev].
  apply letters_inj. unfold trimEnd. rewrite letters_app, !letters_rev.
  rewrite <- rev_app_distr, <- letters_app, <- Hp, letters_rev.
  by rewrite rev_involutive.
Qed.

Lemma trimEnd_idemp s : trimEnd (trimEnd s) = trimEnd s.
Proof.
  unfold trimEnd. by rewrite string_rev_involutive, trimStart_idemp.
Qed.

Lemma trimEnd_empty : trimEnd "" = "".
Proof. reflexivity. Qed.

(** Trimming twice is trimming once. *)
Lemma trim_idemp s : trim (trim s) = trim s.
Proof.
  unfold trim. pose proof (trimStart_head s) as Hhead.
  remember (trimStart s) as u eqn:Hu. clear Hu.
  assert (Hfix : trimStart (trimEnd u) = trimEnd u).
  { destruct (trimEnd_suffix u) as (q & Hq & _).
    destruct (trimEnd u) as [|c r] eqn:E; [done|].
    destruct Hhead as [H0|(c' & r' & Hu & Hc')].
    - rewrite H0 in Hq. discriminate Hq.
    - rewrite Hu in Hq. simpl in Hq. injection Hq as -> _.
      by apply trimStart_fixed. }
  by rewrite Hfix, trimEnd_idemp.
Qed.

(** What trimming takes away is white space at the two ends. *)
Lemma trim_decompose s :
  ∃ p q, s = p +:+ trim s +:+ q ∧ Csv.all_white p ∧ Csv.all_white q.
Proof.
  destruct (trimStart_prefix s) as (p & Hp & Hwp).
  destruct (trimEnd_suffix (trimStart s)) as (q & Hq & Hwq).
  exists p, q. unfold trim. by rewrite <- Hq.
Qed.

Lemma trim_empty_iff s : trim s = "" ↔ Csv.all_white s.
Proof.
  split.
  - intros H. destruct (trim_decompose s) as (p & q & Hs & Hp & Hq).
    rewrite H in Hs. rewrite Hs. simpl. by apply all_white_app.
  - intros H. unfold trim. by rewrite (trimStart_white _ H).
Qed.

Lemma trim_letters (P : ascii → Prop) s :
  Forall P (list_ascii_of_string s) →
  Forall P (list_ascii_of_string (trim s)).
Proof.
  destruct (trim_decompose s) as (p & q & Hs & _ & _).
  rewrite Hs at 1. rewrite !letters_app, !Forall_app. tauto.
Qed.

End Trimming.

Section CsvExport.

Import Csv.

Lemma strip_quotes_letters s :
  Forall (λ c, c ≠ dquote) (list_ascii_of_string (strip_quotes s)).
Proof.
  induction s as [|c s IH]; simpl; [constructor|].
  destruct (Ascii.eqb c dquote) eqn:E; [exact IH|].
  constructor; [by apply Ascii.eqb_neq|exact IH].
Qed.

Lemma strip_quotes_plain s :
  Forall (λ c, c ≠ dquote) (list_ascii_of_string s) → strip_quotes s = s.
Proof.
  induction s as [|c s IH]; simpl; [done|].
  intros [Hc Hs]%Forall_cons. apply Ascii.eqb_neq in Hc. rewrite Hc.
  by rewrite IH.
Qed.

(** A cleaned cell has no quote and no white space at its ends. *)
Lemma clean_cell cell :
  trim (clean cell) = clean cell
  ∧ Forall (λ c, c ≠ dquote) (list_ascii_of_string (clean cell)).
Proof.
  unfold clean. split; [apply trim_idemp|].
  apply trim_letters, strip_quotes_letters.
Qed.

Lemma split_not_nil sep s : split sep s ≠ [].
Proof.
  destruct s as [|c s]; simpl; [done|].
  destruct (Ascii.eqb c sep); [done|]. by destruct (split sep s).
Qed.

Lemma has_content_cell row :
  has_content row = true ↔ ∃ cell, cell ∈ row ∧ cell ≠ "".
Proof.
  unfold has_content. rewrite existsb_exists. split.
  - intros (cell & Hin & [Hc _]%andb_true_iff). exists cell.
    split; [by apply list_elem_of_In|by apply nonempty_true].
  - intros (cell & Hin & Hc). exists cell.
    split; [by apply list_elem_of_In|].
    apply andb_true_iff. split; [by apply nonempty_true|].
    destruct cell; [done|reflexivity].
Qed.

(** X22: what the CSV reading hands to the decoder: at least one row; in every
    row at least one cell that is not empty; no cell with a double quote in
    it or with white space at its ends. *)
Theorem csv_rows_are_clean (csvData : string) (rows : list (list string)) :
  parse csvData = Some rows →
  rows ≠ []
  ∧ Forall (λ row,
      (∃ cell, cell ∈ row ∧ cell ≠ "")
      ∧ Forall (λ cell,
          trim cell = cell
          ∧ Forall (λ c, c ≠ dquote) (list_ascii_of_string cell)) row)
      rows.
Proof.
  unfold parse.
  destruct (negb (nonempty csvData) || String.eqb (trim csvData) "");
    [done|].
  destruct (filter _ (rows_of csvData)) as [|r rs] eqn:E; [done|].
  intros [= <-]. split; [done|]. rewrite <- E.
  apply Forall_forall. intros row [Hc Hin]%list_elem_of_filter.
  split; [by apply has_content_cell|].
  unfold rows_of in Hin. apply list_elem_of_In, in_map_iff in Hin.
  destruct Hin as (line & <- & _).
  apply Forall_forall. intros cell Hcell.
  apply list_elem_of_In, in_map_iff in Hcell.
  destruct Hcell as (raw & <- & _). apply clean_cell.
Qed.

Lemma csv_rows_are_clean_witness :
  let csvData :=
    "Request_ID, User_Name" +:+ String newline "R1,  Ann Lee  " in
  parse csvData = Some [["Request_ID"; "User_Name"]; ["R1"; "Ann Lee"]]
  ∧ [["Request_ID"; "User_Name"]; ["R1"; "Ann Lee"]] ≠ [].
Proof.
  intros csvData.
  assert (H : parse csvData
              = Some [["Request_ID"; "User_Name"]; ["R1"; "Ann Lee"]])
    by (vm_compute; reflexivity).
  split; [exact H|]. exact (proj1 (csv_rows_are_clean csvData _ H)).
Defined.

Lemma split_whole sep x :
  Forall (λ c, c ≠ sep) (list_ascii_of_string x) → split sep x = [x].
Proof.
  induction x as [|c x IH]; simpl; [done|].
  intros [Hc Hx]%Forall_cons. apply Ascii.eqb_neq in Hc. rewrite Hc.
  by rewrite (IH Hx).
Qed.

Lemma split_first sep x rest :
  Forall (λ c, c ≠ sep) (list_ascii_of_string x) →
  split sep (x +:+ String sep rest) = x :: split sep rest.
Proof.
  induction x as [|c x IH]; simpl.
  - intros _. by rewrite Ascii.eqb_refl.
  - intros [Hc Hx]%Forall_cons. apply Ascii.eqb_neq in Hc. rewrite Hc.
    by rewrite (IH Hx).
Qed.

(** Splitting undoes joining, for pieces without the separator. *)
Lemma split_join sep pieces :
  pieces ≠ [] →
  Forall (λ x, Forall (λ c, c ≠ sep) (list_ascii_of_string x)) pieces →
  split sep (join sep pieces) = pieces.
Proof.
  induction pieces as [|x pieces IH]; [done|].
  intros _ [Hx Hrest]%Forall_cons. destruct pieces as [|y pieces].
  - by apply split_whole.
  - change (join sep (x :: y :: pieces))
      with (x +:+ String sep (join sep (y :: pieces))).
    rewrite split_first by done. f_equal. by apply IH.
Qed.

Lemma join_letters (P : ascii → Prop) sep pieces :
  P sep →
  Forall (λ x, Forall P (list_ascii_of_string x)) pieces →
  Forall P (list_ascii_of_string (join sep pieces)).
Proof.
  intros Hsep. induction pieces as [|x pieces IH]; [constructor|].
  intros [Hx Hrest]%Forall_cons. destruct pieces as [|y pieces]; [done|].
  change (join sep (x :: y :: pieces))
    with (x +:+ String sep (join sep (y :: pieces))).
  rewrite letters_app. apply Forall_app. split; [done|].
  simpl. constructor; [done|]. by apply IH.
Qed.

Lemma join_has_letter sep pieces x c :
  x ∈ pieces → c ∈ list_ascii_of_string x →
  c ∈ list_ascii_of_string (join sep pieces).
Proof.
  induction pieces as [|y pieces IH]; intros Hx Hc.
  - by apply elem_of_nil in Hx.
  - destruct pieces as [|z pieces].
    + apply list_elem_of_singleton in Hx as ->. exact Hc.
    + change (join sep (y :: z :: pieces))
        with (y +:+ String sep (join sep (z :: pieces))).
      rewrite letters_app. apply elem_of_app.
      apply elem_of_cons in Hx as [->|Hx]; [by left|].
      right. simpl. apply list_elem_of_further. by apply IH.
Qed.

Lemma clean_plain cell : plain cell → clean cell = cell.
Proof.
  intros [Ht Hl]. unfold clean. rewrite strip_quotes_plain; [done|].
  eapply Forall_impl; [exact Hl|]. by intros c (? & _).
Qed.

Lemma map_clean_plain row : Forall plain row → map clean row = row.
Proof.
  induction 1 as [|cell row Hc _ IH]; [done|]. simpl.
  by rewrite (clean_plain _ Hc), IH.
Qed.

(** X23: a table of plain cells (trimmed, without quote, comma or newline) in
    which every row has a cell that is not empty is read back as it is
    from its rendering with commas and newlines. *)
Theorem csv_reads_back_plain_tables (rows : list (list string)) :
  rows ≠ [] →
  Forall (λ row, Forall plain row ∧ ∃ cell, cell ∈ row ∧ cell ≠ "") rows →
  parse (render rows) = Some rows.
Proof.
  intros Hne Hrows.
  assert (Hrow : ∀ row, row ∈ rows →
            row ≠ [] ∧ map clean (split comma (join comma row)) = row
            ∧ Forall (λ c, c ≠ newline)
                (list_ascii_of_string (join comma row))
            ∧ has_content row = true).
  { intros row Hin. rewrite Forall_forall in Hrows.
    destruct (Hrows row Hin) as [Hplain Hcell].
    assert (Hrne : row ≠ []).
    { destruct Hcell as (cell & Hc & _). intros ->.
      by apply elem_of_nil in Hc. }
    split; [done|]. split; [|split].
    - rewrite split_join; [|done|].
      + by apply map_clean_plain.
      + eapply Forall_impl; [exact Hplain|]. intros cell [_ Hl].
        eapply Forall_impl; [exact Hl|]. by intros c (_ & ? & _).
    - apply join_letters; [by vm_compute|].
      eapply Forall_impl; [exact Hplain|]. intros cell [_ Hl].
      eapply Forall_impl; [exact Hl|]. by intros c (_ & _ & ?).
    - by apply has_content_cell. }
  assert (Hrows_of : rows_of (render rows) = rows).
  { unfold rows_of, render. rewrite split_join.
    - rewrite map_map. clear Hne Hrows.
      induction rows as [|row rows IH]; [done|]. simpl.
      rewrite (proj1 (proj2 (Hrow row (list_elem_of_here _ _)))).
      f_equal. apply IH. intros r Hr. apply Hrow.
      by apply list_elem_of_further.
    - by destruct rows.
    - apply Forall_forall. intros line Hline.
      apply list_elem_of_In, in_map_iff in Hline.
      destruct Hline as (row & <- & Hin%list_elem_of_In).
      by apply Hrow. }
  assert (Hwhite : ¬ all_white (render rows)).
  { destruct rows as [|row rows']; [done|].
    rewrite Forall_forall in Hrows.
    destruct (Hrows row (list_elem_of_here _ _))
      as [Hplain (cell & Hin & Hcell)].
    rewrite Forall_forall in Hplain. destruct (Hplain cell Hin) as [Ht _].
    intros Hw. apply Hcell. rewrite <- Ht. apply trim_empty_iff.
    unfold all_white in *. rewrite Forall_forall in Hw |- *.
    intros c Hc. apply Hw. unfold render.
    eapply join_has_letter; [apply list_elem_of_here|].
    by eapply join_has_letter. }
  unfold parse. rewrite Hrows_of.
  assert (Hguard : negb (nonempty (render rows))
                   || String.eqb (trim (render rows)) "" = false).
  { apply orb_false_iff. split.
    - apply negb_false_iff, nonempty_true. intros H. apply Hwhite.
      rewrite H. constructor.
    - apply String.eqb_neq. intros H. by apply Hwhite, trim_empty_iff. }
  rewrite Hguard.
  assert (Hall : filter (λ row, has_content row = true) rows = rows).
  { clear Hne Hrows Hrows_of Hwhite Hguard.
    induction rows as [|row rows IH]; [done|].
    rewrite filter_cons_True by (apply Hrow, list_elem_of_here).
    f_equal. apply IH. intros r Hr. apply Hrow.
    by apply list_elem_of_further. }
  rewrite Hall. by destruct rows.
Qed.

Lemma csv_reads_back_plain_tables_witness :
  let rows := [["User_Name"; "Status"]; ["Ann Lee"; ""]] in
  rows ≠ [] ∧ parse (render rows) = Some rows.
Proof.
  intros rows.
  assert (Hne : rows ≠ []) by discriminate.
  split; [exact Hne|].
  apply (csv_reads_back_plain_tables rows Hne).
  assert (Hplain : ∀ cell,
            cell ∈ ["User_Name"; "Status"; "Ann Lee"; ""] → plain cell).
  { intros cell Hin. rewrite !elem_of_cons, elem_of_nil in Hin.
    destruct Hin as [->|[->|[->|[->|[]]]]];
      (split; [vm_compute; reflexivity|]);
      apply (bool_decide_unpack _); vm_compute; exact I. }
  assert (Hcells : ∀ row,
            Forall (λ cell, cell ∈ ["User_Name"; "Status"; "Ann Lee"; ""])
                   row → Forall plain row).
  { intros row Hrow. eapply Forall_impl; [exact Hrow|exact Hplain]. }
  constructor; [split|constructor; [split|constructor]].
  - apply Hcells. apply (bool_decide_unpack _). vm_compute. exact I.
  - exists "User_Name". split; [apply list_elem_of_here|discriminate].
  - apply Hcells. apply (bool_decide_unpack _). vm_compute. exact I.
  - exists "Ann Lee". split; [apply list_elem_of_here|discriminate].
Defined.

End CsvExport.

(** ** The sheet based list: what a failure gives *)

Section SheetFailures.

Import SheetsService.

Lemma sample_data_valid t : Forall Spec.valid (generateSampleData t).
Proof.
  assert (Hv : ∀ m : gmap string string,
            (∃ n e p, m !! "userName" = Some n ∧ trim n ≠ ""
                      ∧ m !! "userEmail" = Some e ∧ trim e ≠ ""
                      ∧ m !! "meetingPurpose" = Some p ∧ trim p ≠ "") →
            Spec.valid m).
  { intros m (n & e & p & ? & ? & ? & ? & ? & ?).
    unfold Spec.valid, Spec.nonblank. eauto 10. }
  unfold generateSampleData.
  constructor; [|constructor; [|constructor; [|constructor]]];
    apply Hv; do 3 eexists;
    (split; [vm_compute; reflexivity|]);
    (split; [vm_compute; discriminate|]);
    (split; [vm_compute; reflexivity|]);
    (split; [vm_compute; discriminate|]);
    (split; [vm_compute; reflexivity|vm_compute; discriminate]).
Qed.

Lemma read_rows_none sheetsId apiKey api csv :
  Spec.configured sheetsId = true →
  read_rows sheetsId apiKey api csv = None ↔
  (Spec.configured apiKey = true ∧ ∃ msg, api = ApiError msg)
  ∨ (Spec.configured apiKey = false
     ∧ ((∃ st msg, csv = CsvError st msg)
        ∨ ∃ status data, csv = CsvResponse status data
            ∧ (status ≠ 200 ∨ Csv.parse data = None))).
Proof.
  intros Hid. unfold read_rows.
  destruct sheetsId as [[|c0 id]|]; try discriminate Hid.
  destruct apiKey as [[|c k]|]; simpl.
  - destruct csv as [status data|st msg].
    + destruct (Nat.eqb status 200) eqn:E; simpl.
      * apply Nat.eqb_eq in E. subst status.
        destruct (Csv.parse data) eqn:P; split; try done.
        -- intros [[[=] _]|[_ [(? & ? & [=])|(? & ? & [= <- <-] & [?|?])]]];
             congruence.
        -- intros _. right. split; [done|]. right. eauto.
      * apply Nat.eqb_neq in E. split; [|done]. intros _. right.
        split; [done|]. right. eauto.
    + split; [|done]. intros _. right. split; [done|]. left. eauto.
  - destruct api as [values|msg]; split; try done.
    + intros [[_ (? & [=])]|[[=] _]].
    + intros _. left. eauto.
  - destruct csv as [status data|st msg].
    + destruct (Nat.eqb status 200) eqn:E; simpl.
      * apply Nat.eqb_eq in E. subst status.
        destruct (Csv.parse data) eqn:P; split; try done.
        -- intros [[[=] _]|[_ [(? & ? & [=])|(? & ? & [= <- <-] & [?|?])]]];
             congruence.
        -- intros _. right. split; [done|]. right. eauto.
      * apply Nat.eqb_neq in E. split; [|done]. intros _. right.
        split; [done|]. right. eauto.
    + split; [|done]. intros _. right. split; [done|]. left. eauto.
Qed.

(** X24: with a sheet id configured, the sheet based list answers 200 with
    [success: true] and no [error], whatever happens to the reading.  When
    the reading fails (the API call is rejected; or, without an API key,
    the CSV request is rejected, is answered with another status than 200,
    or brings no row with content) the list is the three sample meetings,
    which are valid records; a sheet that is read and has a header row only
    gives the empty list. *)
Theorem sheet_failure_gives_sample_meetings
    (sheetsId apiKey : option string) (api : api_result) (csv : csv_result)
    (clock : nat → string) (t : sample_times) :
  Spec.configured sheetsId = true →
  let a := get_admin_meetings sheetsId apiKey api csv clock t in
  status a = 200 ∧ success a = true ∧ error a = None
  ∧ statistics a = Some (Sheets.generateStatistics (meetings a))
  ∧ ((Spec.configured apiKey = true ∧ (∃ msg, api = ApiError msg))
     ∨ (Spec.configured apiKey = false
        ∧ ((∃ st msg, csv = CsvError st msg)
           ∨ ∃ status data, csv = CsvResponse status data
               ∧ (status ≠ 200 ∨ Csv.parse data = None))) →
     meetings a = generateSampleData t
     ∧ length (meetings a) = 3
     ∧ Forall Spec.valid (meetings a)
     ∧ Spec.requestId <$> meetings a
       = ["sample_001"; "sample_002"; "sample_003"])
  ∧ (∀ headers, Spec.configured apiKey = true →
       api = ApiValues (Some [headers]) ∨ api = ApiValues (Some [])
       ∨ api = ApiValues None →
       meetings a = []).
Proof.
  intros Hid a. subst a. unfold get_admin_meetings.
  destruct sheetsId as [[|c0 id]|] eqn:Eid; try discriminate Hid.
  rewrite <- Eid in *. simpl. repeat split.
  - apply (read_rows_none _ apiKey api csv Hid) in H.
    unfold fetchMeetingRequests. by rewrite H.
  - apply (read_rows_none _ apiKey api csv Hid) in H.
    unfold fetchMeetingRequests. by rewrite H.
  - apply (read_rows_none _ apiKey api csv Hid) in H.
    unfold fetchMeetingRequests. rewrite H. apply sample_data_valid.
  - apply (read_rows_none _ apiKey api csv Hid) in H.
    unfold fetchMeetingRequests. rewrite H. vm_compute. reflexivity.
  - intros headers Hkey Hapi. unfold fetchMeetingRequests, read_rows.
    rewrite Eid. destruct apiKey as [[|c k]|]; try discriminate Hkey.
    destruct Hapi as [->|[->| ->]]; reflexivity.
Qed.

Lemma sheet_failure_gives_sample_meetings_witness :
  let t := SampleTimes "2025-08-30T10:00:00.000Z" "2025-08-30T10:00:00.000Z"
             "2025-08-31T10:00:00.000Z" "2025-08-31T10:00:00.000Z"
             "2025-09-01T10:00:00.000Z" "2025-09-01T10:00:00.000Z" in
  let a :=
    get_admin_meetings (Some "1AbC") None (ApiValues None)
      (CsvError (Some 403) "Request failed with status code 403")
      (λ _, "2025-09-01T10:00:00.000Z") t in
  Spec.configured (Some "1AbC") = true
  ∧ status a = 200 ∧ length (meetings a) = 3.
Proof.
  intros t a. split; [reflexivity|].
  destruct (sheet_failure_gives_sample_meetings (Some "1AbC") None
              (ApiValues None)
              (CsvError (Some 403) "Request failed with status code 403")
              (λ _, "2025-09-01T10:00:00.000Z") t eq_refl)
    as (Hs & _ & _ & _ & Hf & _).
  split; [exact Hs|].
  refine (proj1 (proj2 (Hf _))). right. split; [reflexivity|]. left. eauto.
Defined.

End SheetFailures.

(** ** Columns and rows of the sheet *)

Section ColumnsAndRows.

Import Sheets Columns.

Lemma store_as_insert header value (m : gmap string string) :
  store header value m
  = <[store_key header := store_value header value]> m.
Proof.
  unfold store, store_key, store_value. by destruct (canonical header).
Qed.

Lemma map_columns_from headers row :
  map_columns headers row = columns_from row ∅ (imap pair headers).
Proof. reflexivity. Qed.

Lemma columns_from_cons row m i h columns :
  columns_from row m ((i, h) :: columns)
  = columns_from row (store h (cell row i) m) columns.
Proof. reflexivity. Qed.

Lemma columns_from_app row m columns columns' :
  columns_from row m (columns ++ columns')%list
  = columns_from row (columns_from row m columns) columns'.
Proof. unfold columns_from. apply foldl_app. Qed.

Lemma columns_from_other row m columns k :
  Forall (λ c, store_key c.2 ≠ k) columns →
  columns_from row m columns !! k = m !! k.
Proof.
  revert m. induction columns as [|[i h] columns IH]; intros m; [done|].
  intros [Hh Hrest]%Forall_cons. rewrite columns_from_cons, IH by done.
  rewrite store_as_insert. by rewrite lookup_insert_ne.
Qed.

Lemma imap_pair_keys (f : nat → nat) (P : string → Prop)
    (headers : list string) :
  Forall P headers →
  Forall (λ c : nat * string, P c.2) (imap (λ i h, (f i, h)) headers).
Proof.
  revert f. induction headers as [|h headers IH]; intros f; [constructor|].
  intros [Hh Hrest]%Forall_cons. simpl. constructor; [done|].
  apply (IH (f ∘ S) Hrest).
Qed.

(** X25: two columns stored under one property: the later one is kept.  The
    value of a property after a row is read is the one of the last column
    stored under it, whatever stood in the columns before; a property no
    column is stored under is not there. *)
Theorem last_column_of_a_property_wins
    (before after : list string) (header : string) (row : list string) :
  Forall (λ h, store_key h ≠ store_key header) after →
  map_columns (before ++ header :: after)%list row !! store_key header
  = Some (store_value header (cell row (length before)))
  ∧ ∀ k, Forall (λ h, store_key h ≠ k) (before ++ header :: after)%list →
         map_columns (before ++ header :: after)%list row !! k = None.
Proof.
  intros Hafter. rewrite map_columns_from. split.
  - rewrite imap_app, columns_from_app. simpl imap.
    rewrite columns_from_cons, Nat.add_0_r, columns_from_other.
    + rewrite store_as_insert. apply lookup_insert_eq.
    + by apply (imap_pair_keys (λ n, length before + S n)
                  (λ h, store_key h ≠ store_key header)).
  - intros k Hk. rewrite columns_from_other; [apply lookup_empty|].
    by apply (imap_pair_keys (λ n, n) (λ h, store_key h ≠ k)).
Qed.

Lemma last_column_of_a_property_wins_witness :
  map_columns ["User_Name"; "Status"; "userName"] ["Ann"; "Approved"; "Bob"]
    !! "userName" = Some "Bob".
Proof.
  refine (proj1 (last_column_of_a_property_wins ["User_Name"; "Status"] []
                   "userName" ["Ann"; "Approved"; "Bob"] _)).
  constructor.
Defined.

Lemma cell_padded row n i :
  cell (row ++ replicate n "")%list i = cell row i.
Proof.
  unfold cell. destruct (decide (i < length row)%nat) as [H|H].
  - by rewrite lookup_app_l.
  - rewrite lookup_app_r by lia. rewrite (lookup_ge_None_2 row) by lia.
    simpl. destruct (replicate n "" !! (i - length row)) as [c|] eqn:E;
      [|done].
    apply lookup_replicate in E as [-> _]. done.
Qed.

Lemma columns_from_ext row row' m columns :
  (∀ i, cell row i = cell row' i) →
  columns_from row m columns = columns_from row' m columns.
Proof.
  intros H. revert m. induction columns as [|[i h] columns IH]; intros m;
    [done|].
  rewrite !columns_from_cons, H. apply IH.
Qed.

(** X26: a row that is shorter than the header row is read as if it were
    filled up with empty cells. *)
Theorem short_row_reads_as_padded
    (headers : list string) (clock : nat → string) (index n : nat)
    (row : list string) :
  decode_row headers clock index (row ++ replicate n "")%list
  = decode_row headers clock index row.
Proof.
  unfold decode_row. rewrite !map_columns_from. f_equal.
  apply columns_from_ext. intros i. apply cell_padded.
Qed.

Lemma stored_blank_name header :
  store_key header = "userName" → store_value header "" = "".
Proof.
  unfold store_key, store_value.
  destruct (canonical header) as [property|]; [|done].
  intros ->. reflexivity.
Qed.

Lemma columns_from_blank_name row m columns :
  blank_row row →
  m !! "userName" = None ∨ m !! "userName" = Some "" →
  columns_from row m columns !! "userName" = None
  ∨ columns_from row m columns !! "userName" = Some "".
Proof.
  intros Hrow. revert m.
  induction columns as [|[i h] columns IH]; intros m Hm; [done|].
  rewrite columns_from_cons. apply IH. rewrite store_as_insert.
  assert (Hcell : cell row i = "").
  { unfold cell. destruct (row !! i) as [c|] eqn:E; [|done].
    simpl. unfold blank_row in Hrow. rewrite Forall_forall in Hrow.
    apply Hrow. by apply list_elem_of_lookup_2 in E. }
  rewrite Hcell. destruct (decide (store_key h = "userName")) as [E|E].
  - right. rewrite E, lookup_insert_eq. by rewrite stored_blank_name.
  - by rewrite lookup_insert_ne.
Qed.

Lemma filter_imap_none {A B} (P : B → Prop) `{∀ x, Decision (P x)}
    (f : nat → A → B) (Q : A → Prop) (l : list A) :
  (∀ i x, Q x → ¬ P (f i x)) → Forall Q l → filter P (imap f l) = [].
Proof.
  intros Hf Hl. revert f Hf.
  induction Hl as [|x l Hx _ IH]; intros f Hf; [done|].
  simpl. rewrite filter_cons_False by (by apply Hf).
  apply IH. intros i y. apply Hf.
Qed.

(** X27: rows without content give no meetings: when every cell of every data
    row is empty (or the rows have no cells at all), the decoder returns
    the empty list, whatever the headers are. *)
Theorem blank_rows_are_dropped
    (headers : list string) (clock : nat → string)
    (dataRows : list (list string)) :
  Forall blank_row dataRows → decode headers clock dataRows = [].
Proof.
  intros Hrows. unfold decode.
  apply (filter_imap_none _ _ blank_row); [|done].
  intros i row Hrow. unfold isValid, filled, has, decode_row.
  rewrite apply_defaults_other
    by (apply (bool_decide_unpack _); vm_compute; exact I).
  rewrite map_columns_from.
  destruct (columns_from_blank_name row ∅ (imap pair headers) Hrow)
    as [H|H]; [by left| |]; rewrite H; done.
Qed.

Lemma blank_rows_are_dropped_witness :
  Forall blank_row [["" ; ""; ""]; []]
  ∧ decode ["User_Name"; "User_Email"; "Status"]
      (λ _, "2025-09-01T10:00:00.000Z") [["" ; ""; ""]; []] = [].
Proof.
  assert (H : Forall blank_row [["" ; ""; ""]; []])
    by (repeat constructor).
  split; [exact H|]. exact (blank_rows_are_dropped _ _ _ H).
Defined.

End ColumnsAndRows.

(** ** The status word and the nested counters *)

Section StatusWord.

Import Sheets.

Lemma lower_char_no_capital c :
  (code (lower_char c) <? 65)%N || (90 <? code (lower_char c))%N = true.
Proof. destruct c as [[] [] [] [] [] [] [] []]; reflexivity. Qed.

Lemma toLowerCase_no_capital s :
  Forall (λ c, (code c <? 65)%N || (90 <? code c)%N = true)
         (list_ascii_of_string (toLowerCase s)).
Proof.
  induction s as [|c s IH]; simpl; constructor;
    [apply lower_char_no_capital|exact IH].
Qed.

(** X14: the word a meeting is counted under is never [byPriority] or
    [byMeetingType]: these two properties of the counters, which
    [hasOwnProperty] would accept as well, are out of reach of the status,
    since the word is in lower case.  The only property of the counters
    beside the four status counters that a status can name is [total]. *)
Theorem status_word_names_no_nested_counter (m : gmap string string) :
  lowered m "status" "pending" ≠ "byPriority"
  ∧ lowered m "status" "pending" ≠ "byMeetingType".
Proof.
  unfold lowered. destruct (has m "status"); [|split; discriminate].
  pose proof (toLowerCase_no_capital (default "" (m !! "status"))) as H.
  split; intros E; rewrite E in H; vm_compute in H;
    repeat
      match goal with
      | H : Forall _ (_ :: _) |- _ =>
          apply Forall_cons in H as [? H]; try discriminate
      end.
Qed.

End StatusWord.

Lemma request_posts_listed_fields_only_witness :
  let reqBody : gmap string json :=
    {[ "userName" := JStr "Ann"; "userEmail" := JStr "ann@x.com";
       "userPhone" := JStr "+1 555 0100"; "meetingPurpose" := JStr "Demo";
       "preferredDate" := JStr "2025-09-02";
       "preferredTime" := JStr "10:00"; "meetingType" := JStr "online";
       "requestId" := JStr "mine"; "isAdmin" := JBool true ]} in
  let sent := Intake.meetingRequestData reqBody "2025-09-01T10:00:00.000Z" in
  sent ∈ Intake.webhook_calls
           (Intake.post_meeting_request
              (Some "http://localhost:5678/webhook/m") Intake.Accepted
              "2025-09-01T10:00:00.000Z" 1756720800000 "k3x9" reqBody)
  ∧ sent !! "requestId" = None
  ∧ sent !! "urgency" = Some (JStr "normal").
Proof.
  intros reqBody sent.
  assert (Hc : Intake.webhook_calls
                 (Intake.post_meeting_request
                    (Some "http://localhost:5678/webhook/m") Intake.Accepted
                    "2025-09-01T10:00:00.000Z" 1756720800000 "k3x9" reqBody)
               = [sent]) by (vm_compute; reflexivity).
  assert (Hin : sent ∈ Intake.webhook_calls
                  (Intake.post_meeting_request
                     (Some "http://localhost:5678/webhook/m")
                     Intake.Accepted "2025-09-01T10:00:00.000Z"
                     1756720800000 "k3x9" reqBody)).
  { rewrite Hc. apply list_elem_of_here. }
  split; [exact Hin|].
  destruct (request_posts_listed_fields_only
              (Some "http://localhost:5678/webhook/m") Intake.Accepted
              "2025-09-01T10:00:00.000Z" 1756720800000 "k3x9" reqBody sent
              Hin) as (_ & _ & Hid & _ & _ & Hu & _).
  split; [exact Hid|exact Hu].
Defined.

(** ** The sheet based list in the dashboard *)

Section SheetToDashboard.

Import SheetsService.

Lemma loaded_encode_sheet (a : answer) (st : Sheets.stats)
    (testResult : option json) :
  meetings a ≠ [] → statistics a = Some st →
  Panel.loaded (Panel.encode_sheet a) testResult
  = (Panel.encode_meeting <$> meetings a, Panel.encode_stats st).
Proof.
  intros Hne Hst.
  assert (Hshow : Panel.shows (Panel.encode_meeting <$> meetings a)
                    (Panel.encode_stats st) = true).
  { apply text_records_show; [|reflexivity].
    apply Forall_fmap, Forall_true. intros m.
    exists (prod_map id JStr <$> map_to_list m). split; [reflexivity|].
    apply Forall_fmap, Forall_true. by intros [k v]. }
  assert (Hc : Panel.choose (Panel.encode_sheet a) testResult
               = Panel.encode_sheet a).
  { unfold Panel.choose, Panel.no_meetings, Panel.encode_sheet. simpl.
    by destruct (meetings a). }
  assert (Hn : Panel.normalize (Panel.encode_sheet a)
               = Panel.encode_meeting <$> meetings a) by reflexivity.
  assert (Hs : Panel.statistics_of (Panel.encode_sheet a)
               = Panel.encode_stats st).
  { unfold Panel.encode_sheet. by rewrite Hst. }
  unfold Panel.loaded. by rewrite Hc, Hn, Hs, Hshow.
Qed.

(** X19: the counters of [generateStatistics] never reach the dashboard: the
    sheet based list sends them as [total], [pending] and [approved], the
    dashboard reads [totalCount], [pendingCount] and [approvedCount] of the
    statistics it was sent.  So beside every list of the sheet that is not
    empty (the sample meetings too) the total, pending and approved counters
    show 0. *)
Theorem sheet_statistics_do_not_reach_counters
    (parse_date : json → option Z) (oneWeekAgo : Z)
    (sheetsId apiKey : option string) (api : api_result) (csv : csv_result)
    (clock : nat → string) (t : sample_times) (testResult : option json) :
  Spec.configured sheetsId = true →
  meetings (get_admin_meetings sheetsId apiKey api csv clock t) ≠ [] →
  let a := get_admin_meetings sheetsId apiKey api csv clock t in
  let state := Panel.loaded (Panel.encode_sheet a) testResult in
  let shown :=
    Dashboard.updateDashboardStats parse_date oneWeekAgo (JArr state.1)
      state.2 in
  state.1 = Panel.encode_meeting <$> meetings a
  ∧ state.2 = Panel.encode_stats (Sheets.generateStatistics (meetings a))
  ∧ Dashboard.shown_total shown = JNum 0
  ∧ Dashboard.shown_pending shown = JNum 0
  ∧ Dashboard.shown_approved shown = JNum 0.
Proof.
  intros Hid Hne a state shown. subst shown state.
  assert (Hst : statistics a = Some (Sheets.generateStatistics (meetings a))).
  { subst a. unfold get_admin_meetings.
    destruct sheetsId as [[|c s]|]; try discriminate Hid. reflexivity. }
  rewrite (loaded_encode_sheet a _ testResult Hne Hst).
  repeat split.
Qed.

End SheetToDashboard.

Lemma sheet_statistics_do_not_reach_counters_witness :
  let parse_date := λ v : json, match v with JNum n => Some n | _ => None end in
  let t :=
    SheetsService.SampleTimes
      "2025-08-30T10:00:00.000Z" "2025-08-30T10:00:00.000Z"
      "2025-08-31T10:00:00.000Z" "2025-08-31T10:00:00.000Z"
      "2025-09-01T10:00:00.000Z" "2025-09-01T10:00:00.000Z" in
  let a :=
    SheetsService.get_admin_meetings (Some "sheet-id") None
      (SheetsService.ApiError "unused")
      (SheetsService.CsvError (Some 403) "Request failed with status code 403")
      (λ _, "2025-09-01T10:00:00.000Z") t in
  let state := Panel.loaded (Panel.encode_sheet a) None in
  length (SheetsService.meetings a) = 3
  ∧ Sheets.total (Sheets.generateStatistics (SheetsService.meetings a)) = 3
  ∧ Dashboard.shown_total
      (Dashboard.updateDashboardStats parse_date 0 (JArr state.1) state.2)
    = JNum 0.
Proof.
  intros parse_date t a state.
  split; [reflexivity|]. split; [vm_compute; reflexivity|].
  assert (Hne : SheetsService.meetings a ≠ []) by discriminate.
  exact (proj1 (proj2 (proj2
           (sheet_statistics_do_not_reach_counters parse_date 0
              (Some "sheet-id") None (SheetsService.ApiError "unused")
              (SheetsService.CsvError (Some 403)
                 "Request failed with status code 403")
              (λ _, "2025-09-01T10:00:00.000Z") t None eq_refl Hne)))).
Defined.
